(** * OpenGLRenderDevice: a shallow embedding of the render device

    The render device is a class whose methods read and write a block of
    cached state, three handle registries, and talk to the OpenGL driver.
    The embedding keeps that shape:

    - unsigned and size_t values are [Z] with the wrap-around written out;
    - the three [std::unordered_map] registries are [gmap]s;
    - every call into the driver is appended to a trace ([calls]), every line
      written to [std::cerr] to a log ([cerr]);
    - what the driver answers (generated names, compile status, reflection
      data) comes from a [Driver], an oracle that sees the call history;
    - a method is a state transformer [M A]; the two methods that index raw
      arrays return an [option], [None] standing for an out-of-bounds access,
      whose behaviour C++ leaves undefined. *)

From Stdlib Require Import ZArith String Ascii List DecimalString Lia.
From stdpp Require Import gmap strings list fin_maps.

Local Open Scope Z_scope.

(** ** Machine integers *)

Definition wrap32 (z : Z) : Z := z mod 2 ^ 32.
Definition wrap64 (z : Z) : Z := z mod 2 ^ 64.

(** A conversion to [GLint] or [GLsizei], written as a cast in the source or
    implied by an assignment. *)
Definition to_int32 (z : Z) : Z := (z + 2 ^ 31) mod 2 ^ 32 - 2 ^ 31.

(** [std::string::npos], the largest [size_t]. *)
Definition npos : Z := 2 ^ 64 - 1.

(** [(unsigned int)-1], returned when a shader program could not be built. *)
Definition INVALID_HANDLE : Z := wrap32 (-1).

(** [sizeof(float)], [sizeof(GLfloat)] and [sizeof(unsigned int)]. *)
Definition sizeof_float : Z := 4.
Definition sizeof_uint : Z := 4.

(** A host pointer is only ever handed on to the driver; [0] is [nullptr]. *)
Definition Ptr := Z.
Definition nullptr : Ptr := 0.

(** ** The OpenGL interface *)

(** The symbolic constants of the OpenGL headers that the device names. *)
Inductive GLenum : Set :=
  | GL_FRAMEBUFFER | GL_TEXTURE_2D | GL_TEXTURE0
  | GL_ARRAY_BUFFER | GL_ELEMENT_ARRAY_BUFFER | GL_UNIFORM_BUFFER
  | GL_DEPTH_TEST | GL_CULL_FACE | GL_BLEND | GL_STENCIL_TEST | GL_SCISSOR_TEST
  | GL_CCW | GL_FLOAT | GL_UNSIGNED_INT | GL_UNSIGNED_BYTE | GL_WRITE_ONLY
  | GL_PACK_ALIGNMENT | GL_UNPACK_ALIGNMENT
  | GL_TEXTURE_MIN_FILTER | GL_TEXTURE_MAG_FILTER | GL_TEXTURE_WRAP_S | GL_TEXTURE_WRAP_T
  | GL_TEXTURE_BASE_LEVEL | GL_TEXTURE_MAX_LEVEL | GL_NEAREST | GL_CLAMP_TO_EDGE
  | GL_RED | GL_RG | GL_RGB | GL_RGBA | GL_DEPTH_COMPONENT | GL_DEPTH_STENCIL
  | GL_COMPRESSED_SRGB_S3TC_DXT1_EXT | GL_COMPRESSED_SRGB_ALPHA_S3TC_DXT5_EXT
  | GL_VERTEX_SHADER | GL_FRAGMENT_SHADER
  | GL_COMPILE_STATUS | GL_LINK_STATUS | GL_VALIDATE_STATUS
  | GL_ACTIVE_ATTRIBUTES | GL_ACTIVE_ATTRIBUTE_MAX_LENGTH
  | GL_ACTIVE_UNIFORM_BLOCKS | GL_UNIFORM_BLOCK_NAME_LENGTH | GL_ACTIVE_UNIFORMS
  | GL_MAJOR_VERSION | GL_MINOR_VERSION
  | GL_SAMPLER_2D | GL_SAMPLER_CUBE | GL_INT | GL_FLOAT_VEC2 | GL_FLOAT_VEC3 | GL_FLOAT_VEC4
  | GL_FLOAT_MAT3 | GL_FLOAT_MAT4.

#[global] Instance GLenum_eq_dec : EqDecision GLenum.
Proof. solve_decision. Defined.

(** A [GLint] argument that is either one of the constants or a plain number. *)
Inductive GLint : Set :=
  | IEnum (e : GLenum)
  | IInt (z : Z).

(** One call into the driver, with its arguments as the device passes them:
    the value of each argument expression, before it is converted to the type
    of the parameter. Arguments that are out-pointers are left out: what the driver writes there
    is the [Driver]'s answer. [memcpy] is the one host call that writes into
    memory the driver handed out. *)
Inductive GLCall : Type :=
  | glEnable (cap : GLenum)
  | glDisable (cap : GLenum)
  | glDepthFunc (func : Z)
  | glDepthMask (flag : bool)
  | glFrontFace (mode : GLenum)
  | glCullFace (mode : Z)
  | glBlendFunc (sfactor dfactor : Z)
  | glStencilFunc (func ref mask : Z)
  | glStencilOp (fail zfail zpass : Z)
  | glStencilMask (mask : Z)
  | glScissor (x y width height : Z)
  | glViewport (x y width height : Z)
  | glPixelStorei (pname : GLenum) (param : Z)
  | glBindFramebuffer (target : GLenum) (framebuffer : Z)
  | glFramebufferTexture2D (target : GLenum) (attachment : Z) (textarget : GLenum)
      (texture level : Z)
  | glDeleteFramebuffers (framebuffers : list Z)
  | glGenVertexArrays (n : Z)
  | glBindVertexArray (array : Z)
  | glDeleteVertexArrays (arrays : list Z)
  | glGenBuffers (n : Z)
  | glBindBuffer (target : GLenum) (buffer : Z)
  | glBufferData (target : GLenum) (size : Z) (data : Ptr) (usage : Z)
  | glBufferSubData (target : GLenum) (offset size : Z) (data : Ptr)
  | glDeleteBuffers (buffers : list Z)
  | glMapBuffer (target access : GLenum)
  | memcpy (destination source : Ptr) (count : Z)
  | glUnmapBuffer (target : GLenum)
  | glEnableVertexAttribArray (index : Z)
  | glVertexAttribPointer (index size : Z) (type : GLenum) (normalized : bool)
      (stride pointer : Z)
  | glVertexAttribDivisor (index divisor : Z)
  | glDeleteSamplers (samplers : list Z)
  | glGenTextures (n : Z)
  | glBindTexture (target : GLenum) (texture : Z)
  | glTexParameterf (target pname param : GLenum)
  | glTexParameteri (target pname : GLenum) (param : GLint)
  | glTexImage2D (target : GLenum) (level : Z) (internalformat : GLint)
      (width height border : Z) (format : GLint) (type : GLenum) (data : Ptr)
  | glGenerateMipmap (target : GLenum)
  | glDeleteTextures (textures : list Z)
  | glActiveTexture (base : GLenum) (unit : Z)
  | glBindSampler (unit sampler : Z)
  | glUniform1i (location v0 : Z)
  | glCreateProgram
  | glCreateShader (type : GLenum)
  | glShaderSource (shader : Z) (text : string) (length : Z)
  | glCompileShader (shader : Z)
  | glGetShaderiv (shader : Z) (pname : GLenum)
  | glGetShaderInfoLog (shader bufSize : Z)
  | glAttachShader (program shader : Z)
  | glDetachShader (program shader : Z)
  | glDeleteShader (shader : Z)
  | glLinkProgram (program : Z)
  | glValidateProgram (program : Z)
  | glGetProgramiv (program : Z) (pname : GLenum)
  | glGetProgramInfoLog (program bufSize : Z)
  | glDeleteProgram (program : Z)
  | glUseProgram (program : Z)
  | glGetActiveAttrib (program index bufSize : Z)
  | glBindAttribLocation (program index : Z) (name : string)
  | glGetActiveUniformBlockiv (program block : Z) (pname : GLenum)
  | glGetActiveUniformBlockName (program block bufSize : Z)
  | glGetUniformBlockIndex (program : Z) (name : string)
  | glGetActiveUniform (program index bufSize : Z)
  | glGetUniformLocation (program : Z) (name : string)
  | glGetIntegerv (pname : GLenum)
  | glDrawElements (mode count : Z) (type : GLenum) (indices : Ptr)
  | glDrawElementsInstanced (mode count : Z) (type : GLenum) (indices : Ptr)
      (instancecount : Z).

(** What [glGetActiveUniform] and [glGetActiveAttrib] write back. *)
Record ActiveInfo := mkActiveInfo {
  actualLength : Z;
  arraySize : Z;
  activeType : GLenum;
  activeName : string
}.

(** The driver. Every answer may depend on the calls made so far. The
    lengths it reports for names count the terminating NUL: the length of the
    name of a uniform block is at least 1, and the greatest length of an
    attribute name, asked for right after the count of the attributes, is not
    negative and is at least 1 when there are attributes. The device relies
    on both when it sizes its name buffers ([std::vector<GLchar>
    name(nameLength)], then [&name[0]] and [nameLength - 1] characters of it;
    [std::vector<GLchar> nameData(maxAttribNameLength)], then
    [&nameData[0]]); what the code does with other lengths (the constructors
    throw [std::length_error], or an empty buffer is written to) is outside
    the drivers described here. *)
Record Driver := mkDriver {
  drv_glGenBuffers : list GLCall -> nat -> Z;
  drv_glGenVertexArrays : list GLCall -> Z;
  drv_glGenTextures : list GLCall -> Z;
  drv_glMapBuffer : list GLCall -> Ptr;
  drv_glCreateProgram : list GLCall -> Z;
  drv_glCreateShader : list GLCall -> GLenum -> Z;
  drv_glGetShaderiv : list GLCall -> Z -> GLenum -> Z;
  drv_glGetShaderInfoLog : list GLCall -> Z -> string;
  drv_glGetProgramiv : list GLCall -> Z -> GLenum -> Z;
  drv_glGetProgramInfoLog : list GLCall -> Z -> string;
  drv_glGetActiveAttrib : list GLCall -> Z -> Z -> ActiveInfo;
  drv_glGetActiveUniformBlockiv : list GLCall -> Z -> Z -> GLenum -> Z;
  drv_glGetActiveUniformBlockName : list GLCall -> Z -> Z -> string;
  drv_glGetUniformBlockIndex : list GLCall -> Z -> string -> Z;
  drv_glGetActiveUniform : list GLCall -> Z -> Z -> ActiveInfo;
  drv_glGetUniformLocation : list GLCall -> Z -> string -> Z;
  drv_glGetIntegerv : list GLCall -> GLenum -> Z;
  drv_blockNameLength : forall h program block,
    1 <= drv_glGetActiveUniformBlockiv h program block GL_UNIFORM_BLOCK_NAME_LENGTH;
  drv_attribNameLength : forall h program,
    let count := drv_glGetProgramiv h program GL_ACTIVE_ATTRIBUTES in
    let maxLength :=
      drv_glGetProgramiv (h ++ [glGetProgramiv program GL_ACTIVE_ATTRIBUTES]) program
        GL_ACTIVE_ATTRIBUTE_MAX_LENGTH in
    0 <= maxLength /\ (0 < count -> 1 <= maxLength)
}.

(** ** [std::string] *)

(** The line feed. *)
Definition LF : string := String (ascii_of_nat 10) EmptyString.

(** The NUL character that ends a C string. *)
Definition NUL : ascii := ascii_of_nat 0.

Fixpoint starts_with (pattern s : string) : bool :=
  match pattern, s with
  | EmptyString, _ => true
  | String a pattern', String b s' => Ascii.eqb a b && starts_with pattern' s'
  | String _ _, EmptyString => false
  end.

Fixpoint skip (n : nat) (s : string) : string :=
  match n, s with
  | O, _ => s
  | S n', String _ s' => skip n' s'
  | S _, EmptyString => EmptyString
  end.

Fixpoint keep (n : nat) (s : string) : string :=
  match n, s with
  | O, _ => EmptyString
  | S n', String a s' => String a (keep n' s')
  | S _, EmptyString => EmptyString
  end.

(** The first position at or after [at_] where [pattern] starts in the text
    whose tail from [at_] on is [s]. *)
Fixpoint find_in (pattern s : string) (at_ : nat) : option nat :=
  if starts_with pattern s then Some at_
  else
    match s with
    | EmptyString => None
    | String _ s' => find_in pattern s' (S at_)
    end.

(** [s.find(pattern, pos)]: the first position not before [pos] where
    [pattern] occurs, [npos] when there is none or [pos] is past the end. *)
Definition find (s pattern : string) (pos : Z) : Z :=
  if Z.of_nat (String.length s) <? pos then npos
  else
    match find_in pattern (skip (Z.to_nat pos) s) (Z.to_nat pos) with
    | Some i => Z.of_nat i
    | None => npos
    end.

(** [s.insert(pos, inserted)], for [pos] within the string. *)
Definition insert_at (s : string) (pos : Z) (inserted : string) : string :=
  (keep (Z.to_nat pos) s ++ inserted ++ skip (Z.to_nat pos) s)%string.

(** [std::to_string] of an unsigned value. *)
Definition to_string (n : Z) : string := NilZero.string_of_uint (N.to_uint (Z.to_N n)).

(** What a reader of the C string finds in a zero-filled buffer of [bufSize]
    characters after the driver has written [name] to it: the driver writes
    at most [bufSize - 1] characters and the terminator. *)
Definition c_str_in (bufSize : Z) (name : string) : string :=
  keep (Z.to_nat (bufSize - 1)) name.

Fixpoint nuls (n : nat) : string :=
  match n with
  | O => EmptyString
  | S n' => String NUL (nuls n')
  end.

(** [std::string(buffer, count)] on the same buffer: exactly [count]
    characters, the name and then the zeros that follow it. *)
Definition string_of_buffer (bufSize : Z) (name : string) (count : Z) : string :=
  let written := c_str_in bufSize name in
  keep (Z.to_nat count) (written ++ nuls (Z.to_nat bufSize - String.length written)%nat)%string.

(** ** The device's records *)

(** Modelled from the spec: [FBOData] is declared in [OpenGLRenderDevice.h],
    which is not among the sources. It is the size of a render target, two
    unsigned members; value-initialised (as [operator[]] of the registry does
    for a new key) it is 0 by 0. *)
Module FBOData.
Record t := mk {
  width : Z;
  height : Z
}.
Definition default : t := mk 0 0.
End FBOData.

(** Modelled from the spec: the device's [VertexArray] record is declared in
    the same header; the members are those [CreateVertexArray] fills.
    [buffers] and [bufferSizes] are the two heap arrays of [numBuffers]
    entries each. *)
Module VertexArray.
Record t := mk {
  buffers : list Z;
  bufferSizes : list Z;
  numBuffers : Z;
  numElements : Z;
  usage : Z;
  instanceComponentsStartIndex : Z
}.
End VertexArray.

(** Modelled from the spec: [ShaderProgram] is declared in the same header;
    the members are those [CreateShaderProgram] fills. *)
Module ShaderProgram.
Record t := mk {
  shaders : list Z;
  uniformMap : gmap string Z;
  samplerMap : gmap string Z
}.
Definition default : t := mk [] ∅ ∅.
End ShaderProgram.

(** One operand of [std::cerr << ...]. *)
Inductive Shown : Type :=
  | text (s : string)
  | number (z : Z)
  | constant (e : GLenum).

(** The device. Its data members are those the constructor initialises (the
    class itself is declared in the header), with the two viewport sizes and
    the three registries; they are followed by the two things the device acts
    on, the driver ([calls]) and the error stream ([cerr]). *)
Record Device := mkDevice {
  shaderVersion : string;
  version : Z;
  boundFBO : Z;
  viewportFBO : Z;
  viewportWidth : Z;
  viewportHeight : Z;
  boundVAO : Z;
  boundShader : Z;
  currentFaceCulling : Z;
  currentDepthFunc : Z;
  currentSourceBlend : Z;
  currentDestBlend : Z;
  currentStencilFunc : Z;
  currentStencilTestMask : Z;
  currentStencilWriteMask : Z;
  currentStencilComparisonVal : Z;
  currentStencilFail : Z;
  currentStencilPassButDepthFail : Z;
  currentStencilPass : Z;
  blendingEnabled : bool;
  shouldWriteDepth : bool;
  stencilTestEnabled : bool;
  scissorTestEnabled : bool;
  currentPackAlignment : Z;
  currentUnpackAlignment : Z;
  fboMap : gmap Z FBOData.t;
  vaoMap : gmap Z VertexArray.t;
  shaderProgramMap : gmap Z ShaderProgram.t;
  calls : list GLCall;
  cerr : list (list Shown)
}.

Definition set_shaderVersion (v : string) (d : Device) : Device :=
  mkDevice v (version d) (boundFBO d) (viewportFBO d) (viewportWidth d) (viewportHeight d)
    (boundVAO d) (boundShader d) (currentFaceCulling d) (currentDepthFunc d)
    (currentSourceBlend d) (currentDestBlend d) (currentStencilFunc d)
    (currentStencilTestMask d) (currentStencilWriteMask d) (currentStencilComparisonVal d)
    (currentStencilFail d) (currentStencilPassButDepthFail d) (currentStencilPass d)
    (blendingEnabled d) (shouldWriteDepth d) (stencilTestEnabled d) (scissorTestEnabled d)
    (currentPackAlignment d) (currentUnpackAlignment d) (fboMap d) (vaoMap d)
    (shaderProgramMap d) (calls d) (cerr d).
Definition set_version (v : Z) (d : Device) : Device :=
  mkDevice (shaderVersion d) v (boundFBO d) (viewportFBO d) (viewportWidth d) (viewportHeight d)
    (boundVAO d) (boundShader d) (currentFaceCulling d) (currentDepthFunc d)
    (currentSourceBlend d) (currentDestBlend d) (currentStencilFunc d)
    (currentStencilTestMask d) (currentStencilWriteMask d) (currentStencilComparisonVal d)
    (currentStencilFail d) (currentStencilPassButDepthFail d) (currentStencilPass d)
    (blendingEnabled d) (shouldWriteDepth d) (stencilTestEnabled d) (scissorTestEnabled d)
    (currentPackAlignment d) (currentUnpackAlignment d) (fboMap d) (vaoMap d)
    (shaderProgramMap d) (calls d) (cerr d).
Definition set_boundFBO (v : Z) (d : Device) : Device :=
  mkDevice (shaderVersion d) (version d) v (viewportFBO d) (viewportWidth d) (viewportHeight d)
    (boundVAO d) (boundShader d) (currentFaceCulling d) (currentDepthFunc d)
    (currentSourceBlend d) (currentDestBlend d) (currentStencilFunc d)
    (currentStencilTestMask d) (currentStencilWriteMask d) (currentStencilComparisonVal d)
    (currentStencilFail d) (currentStencilPassButDepthFail d) (currentStencilPass d)
    (blendingEnabled d) (shouldWriteDepth d) (stencilTestEnabled d) (scissorTestEnabled d)
    (currentPackAlignment d) (currentUnpackAlignment d) (fboMap d) (vaoMap d)
    (shaderProgramMap d) (calls d) (cerr d).
Definition set_viewportFBO (v : Z) (d : Device) : Device :=
  mkDevice (shaderVersion d) (version d) (boundFBO d) v (viewportWidth d) (viewportHeight d)
    (boundVAO d) (boundShader d) (currentFaceCulling d) (currentDepthFunc d)
    (currentSourceBlend d) (currentDestBlend d) (currentStencilFunc d)
    (currentStencilTestMask d) (currentStencilWriteMask d) (currentStencilComparisonVal d)
    (currentStencilFail d) (currentStencilPassButDepthFail d) (currentStencilPass d)
    (blendingEnabled d) (shouldWriteDepth d) (stencilTestEnabled d) (scissorTestEnabled d)
    (currentPackAlignment d) (currentUnpackAlignment d) (fboMap d) (vaoMap d)
    (shaderProgramMap d) (calls d) (cerr d).
Definition set_viewportWidth (v : Z) (d : Device) : Device :=
  mkDevice (shaderVersion d) (version d) (boundFBO d) (viewportFBO d) v (viewportHeight d)
    (boundVAO d) (boundShader d) (currentFaceCulling d) (currentDepthFunc d)
    (currentSourceBlend d) (currentDestBlend d) (currentStencilFunc d)
    (currentStencilTestMask d) (currentStencilWriteMask d) (currentStencilComparisonVal d)
    (currentStencilFail d) (currentStencilPassButDepthFail d) (currentStencilPass d)
    (blendingEnabled d) (shouldWriteDepth d) (stencilTestEnabled d) (scissorTestEnabled d)
    (currentPackAlignment d) (currentUnpackAlignment d) (fboMap d) (vaoMap d)
    (shaderProgramMap d) (calls d) (cerr d).
Definition set_viewportHeight (v : Z) (d : Device) : Device :=
  mkDevice (shaderVersion d) (version d) (boundFBO d) (viewportFBO d) (viewportWidth d) v
    (boundVAO d) (boundShader d) (currentFaceCulling d) (currentDepthFunc d)
    (currentSourceBlend d) (currentDestBlend d) (currentStencilFunc d)
    (currentStencilTestMask d) (currentStencilWriteMask d) (currentStencilComparisonVal d)
    (currentStencilFail d) (currentStencilPassButDepthFail d) (currentStencilPass d)
    (blendingEnabled d) (shouldWriteDepth d) (stencilTestEnabled d) (scissorTestEnabled d)
    (currentPackAlignment d) (currentUnpackAlignment d) (fboMap d) (vaoMap d)
    (shaderProgramMap d) (calls d) (cerr d).
Definition set_boundVAO (v : Z) (d : Device) : Device :=
  mkDevice (shaderVersion d) (version d) (boundFBO d) (viewportFBO d) (viewportWidth d)
    (viewportHeight d) v (boundShader d) (currentFaceCulling d) (currentDepthFunc d)
    (currentSourceBlend d) (currentDestBlend d) (currentStencilFunc d)
    (currentStencilTestMask d) (currentStencilWriteMask d) (currentStencilComparisonVal d)
    (currentStencilFail d) (currentStencilPassButDepthFail d) (currentStencilPass d)
    (blendingEnabled d) (shouldWriteDepth d) (stencilTestEnabled d) (scissorTestEnabled d)
    (currentPackAlignment d) (currentUnpackAlignment d) (fboMap d) (vaoMap d)
    (shaderProgramMap d) (calls d) (cerr d).
Definition set_boundShader (v : Z) (d : Device) : Device :=
  mkDevice (shaderVersion d) (version d) (boundFBO d) (viewportFBO d) (viewportWidth d)
    (viewportHeight d) (boundVAO d) v (currentFaceCulling d) (currentDepthFunc d)
    (currentSourceBlend d) (currentDestBlend d) (currentStencilFunc d)
    (currentStencilTestMask d) (currentStencilWriteMask d) (currentStencilComparisonVal d)
    (currentStencilFail d) (currentStencilPassButDepthFail d) (currentStencilPass d)
    (blendingEnabled d) (shouldWriteDepth d) (stencilTestEnabled d) (scissorTestEnabled d)
    (currentPackAlignment d) (currentUnpackAlignment d) (fboMap d) (vaoMap d)
    (shaderProgramMap d) (calls d) (cerr d).
Definition set_currentFaceCulling (v : Z) (d : Device) : Device :=
  mkDevice (shaderVersion d) (version d) (boundFBO d) (viewportFBO d) (viewportWidth d)
    (viewportHeight d) (boundVAO d) (boundShader d) v (currentDepthFunc d)
    (currentSourceBlend d) (currentDestBlend d) (currentStencilFunc d)
    (currentStencilTestMask d) (currentStencilWriteMask d) (currentStencilComparisonVal d)
    (currentStencilFail d) (currentStencilPassButDepthFail d) (currentStencilPass d)
    (blendingEnabled d) (shouldWriteDepth d) (stencilTestEnabled d) (scissorTestEnabled d)
    (currentPackAlignment d) (currentUnpackAlignment d) (fboMap d) (vaoMap d)
    (shaderProgramMap d) (calls d) (cerr d).
Definition set_currentDepthFunc (v : Z) (d : Device) : Device :=
  mkDevice (shaderVersion d) (version d) (boundFBO d) (viewportFBO d) (viewportWidth d)
    (viewportHeight d) (boundVAO d) (boundShader d) (currentFaceCulling d) v
    (currentSourceBlend d) (currentDestBlend d) (currentStencilFunc d)
    (currentStencilTestMask d) (currentStencilWriteMask d) (currentStencilComparisonVal d)
    (currentStencilFail d) (currentStencilPassButDepthFail d) (currentStencilPass d)
    (blendingEnabled d) (shouldWriteDepth d) (stencilTestEnabled d) (scissorTestEnabled d)
    (currentPackAlignment d) (currentUnpackAlignment d) (fboMap d) (vaoMap d)
    (shaderProgramMap d) (calls d) (cerr d).
Definition set_currentSourceBlend (v : Z) (d : Device) : Device :=
  mkDevice (shaderVersion d) (version d) (boundFBO d) (viewportFBO d) (viewportWidth d)
    (viewportHeight d) (boundVAO d) (boundShader d) (currentFaceCulling d) (currentDepthFunc d)
    v (currentDestBlend d) (currentStencilFunc d) (currentStencilTestMask d)
    (currentStencilWriteMask d) (currentStencilComparisonVal d) (currentStencilFail d)
    (currentStencilPassButDepthFail d) (currentStencilPass d) (blendingEnabled d)
    (shouldWriteDepth d) (stencilTestEnabled d) (scissorTestEnabled d) (currentPackAlignment d)
    (currentUnpackAlignment d) (fboMap d) (vaoMap d) (shaderProgramMap d) (calls d) (cerr d).
Definition set_currentDestBlend (v : Z) (d : Device) : Device :=
  mkDevice (shaderVersion d) (version d) (boundFBO d) (viewportFBO d) (viewportWidth d)
    (viewportHeight d) (boundVAO d) (boundShader d) (currentFaceCulling d) (currentDepthFunc d)
    (currentSourceBlend d) v (currentStencilFunc d) (currentStencilTestMask d)
    (currentStencilWriteMask d) (currentStencilComparisonVal d) (currentStencilFail d)
    (currentStencilPassButDepthFail d) (currentStencilPass d) (blendingEnabled d)
    (shouldWriteDepth d) (stencilTestEnabled d) (scissorTestEnabled d) (currentPackAlignment d)
    (currentUnpackAlignment d) (fboMap d) (vaoMap d) (shaderProgramMap d) (calls d) (cerr d).
Definition set_currentStencilFunc (v : Z) (d : Device) : Device :=
  mkDevice (shaderVersion d) (version d) (boundFBO d) (viewportFBO d) (viewportWidth d)
    (viewportHeight d) (boundVAO d) (boundShader d) (currentFaceCulling d) (currentDepthFunc d)
    (currentSourceBlend d) (currentDestBlend d) v (currentStencilTestMask d)
    (currentStencilWriteMask d) (currentStencilComparisonVal d) (currentStencilFail d)
    (currentStencilPassButDepthFail d) (currentStencilPass d) (blendingEnabled d)
    (shouldWriteDepth d) (stencilTestEnabled d) (scissorTestEnabled d) (currentPackAlignment d)
    (currentUnpackAlignment d) (fboMap d) (vaoMap d) (shaderProgramMap d) (calls d) (cerr d).
Definition set_currentStencilTestMask (v : Z) (d : Device) : Device :=
  mkDevice (shaderVersion d) (version d) (boundFBO d) (viewportFBO d) (viewportWidth d)
    (viewportHeight d) (boundVAO d) (boundShader d) (currentFaceCulling d) (currentDepthFunc d)
    (currentSourceBlend d) (currentDestBlend d) (currentStencilFunc d) v
    (currentStencilWriteMask d) (currentStencilComparisonVal d) (currentStencilFail d)
    (currentStencilPassButDepthFail d) (currentStencilPass d) (blendingEnabled d)
    (shouldWriteDepth d) (stencilTestEnabled d) (scissorTestEnabled d) (currentPackAlignment d)
    (currentUnpackAlignment d) (fboMap d) (vaoMap d) (shaderProgramMap d) (calls d) (cerr d).
Definition set_currentStencilWriteMask (v : Z) (d : Device) : Device :=
  mkDevice (shaderVersion d) (version d) (boundFBO d) (viewportFBO d) (viewportWidth d)
    (viewportHeight d) (boundVAO d) (boundShader d) (currentFaceCulling d) (currentDepthFunc d)
    (currentSourceBlend d) (currentDestBlend d) (currentStencilFunc d)
    (currentStencilTestMask d) v (currentStencilComparisonVal d) (currentStencilFail d)
    (currentStencilPassButDepthFail d) (currentStencilPass d) (blendingEnabled d)
    (shouldWriteDepth d) (stencilTestEnabled d) (scissorTestEnabled d) (currentPackAlignment d)
    (currentUnpackAlignment d) (fboMap d) (vaoMap d) (shaderProgramMap d) (calls d) (cerr d).
Definition set_currentStencilComparisonVal (v : Z) (d : Device) : Device :=
  mkDevice (shaderVersion d) (version d) (boundFBO d) (viewportFBO d) (viewportWidth d)
    (viewportHeight d) (boundVAO d) (boundShader d) (currentFaceCulling d) (currentDepthFunc d)
    (currentSourceBlend d) (currentDestBlend d) (currentStencilFunc d)
    (currentStencilTestMask d) (currentStencilWriteMask d) v (currentStencilFail d)
    (currentStencilPassButDepthFail d) (currentStencilPass d) (blendingEnabled d)
    (shouldWriteDepth d) (stencilTestEnabled d) (scissorTestEnabled d) (currentPackAlignment d)
    (currentUnpackAlignment d) (fboMap d) (vaoMap d) (shaderProgramMap d) (calls d) (cerr d).
Definition set_currentStencilFail (v : Z) (d : Device) : Device :=
  mkDevice (shaderVersion d) (version d) (boundFBO d) (viewportFBO d) (viewportWidth d)
    (viewportHeight d) (boundVAO d) (boundShader d) (currentFaceCulling d) (currentDepthFunc d)
    (currentSourceBlend d) (currentDestBlend d) (currentStencilFunc d)
    (currentStencilTestMask d) (currentStencilWriteMask d) (currentStencilComparisonVal d) v
    (currentStencilPassButDepthFail d) (currentStencilPass d) (blendingEnabled d)
    (shouldWriteDepth d) (stencilTestEnabled d) (scissorTestEnabled d) (currentPackAlignment d)
    (currentUnpackAlignment d) (fboMap d) (vaoMap d) (shaderProgramMap d) (calls d) (cerr d).
Definition set_currentStencilPassButDepthFail (v : Z) (d : Device) : Device :=
  mkDevice (shaderVersion d) (version d) (boundFBO d) (viewportFBO d) (viewportWidth d)
    (viewportHeight d) (boundVAO d) (boundShader d) (currentFaceCulling d) (currentDepthFunc d)
    (currentSourceBlend d) (currentDestBlend d) (currentStencilFunc d)
    (currentStencilTestMask d) (currentStencilWriteMask d) (currentStencilComparisonVal d)
    (currentStencilFail d) v (currentStencilPass d) (blendingEnabled d) (shouldWriteDepth d)
    (stencilTestEnabled d) (scissorTestEnabled d) (currentPackAlignment d)
    (currentUnpackAlignment d) (fboMap d) (vaoMap d) (shaderProgramMap d) (calls d) (cerr d).
Definition set_currentStencilPass (v : Z) (d : Device) : Device :=
  mkDevice (shaderVersion d) (version d) (boundFBO d) (viewportFBO d) (viewportWidth d)
    (viewportHeight d) (boundVAO d) (boundShader d) (currentFaceCulling d) (currentDepthFunc d)
    (currentSourceBlend d) (currentDestBlend d) (currentStencilFunc d)
    (currentStencilTestMask d) (currentStencilWriteMask d) (currentStencilComparisonVal d)
    (currentStencilFail d) (currentStencilPassButDepthFail d) v (blendingEnabled d)
    (shouldWriteDepth d) (stencilTestEnabled d) (scissorTestEnabled d) (currentPackAlignment d)
    (currentUnpackAlignment d) (fboMap d) (vaoMap d) (shaderProgramMap d) (calls d) (cerr d).
Definition set_shouldWriteDepth (v : bool) (d : Device) : Device :=
  mkDevice (shaderVersion d) (version d) (boundFBO d) (viewportFBO d) (viewportWidth d)
    (viewportHeight d) (boundVAO d) (boundShader d) (currentFaceCulling d) (currentDepthFunc d)
    (currentSourceBlend d) (currentDestBlend d) (currentStencilFunc d)
    (currentStencilTestMask d) (currentStencilWriteMask d) (currentStencilComparisonVal d)
    (currentStencilFail d) (currentStencilPassButDepthFail d) (currentStencilPass d)
    (blendingEnabled d) v (stencilTestEnabled d) (scissorTestEnabled d) (currentPackAlignment d)
    (currentUnpackAlignment d) (fboMap d) (vaoMap d) (shaderProgramMap d) (calls d) (cerr d).
Definition set_stencilTestEnabled (v : bool) (d : Device) : Device :=
  mkDevice (shaderVersion d) (version d) (boundFBO d) (viewportFBO d) (viewportWidth d)
    (viewportHeight d) (boundVAO d) (boundShader d) (currentFaceCulling d) (currentDepthFunc d)
    (currentSourceBlend d) (currentDestBlend d) (currentStencilFunc d)
    (currentStencilTestMask d) (currentStencilWriteMask d) (currentStencilComparisonVal d)
    (currentStencilFail d) (currentStencilPassButDepthFail d) (currentStencilPass d)
    (blendingEnabled d) (shouldWriteDepth d) v (scissorTestEnabled d) (currentPackAlignment d)
    (currentUnpackAlignment d) (fboMap d) (vaoMap d) (shaderProgramMap d) (calls d) (cerr d).
Definition set_scissorTestEnabled (v : bool) (d : Device) : Device :=
  mkDevice (shaderVersion d) (version d) (boundFBO d) (viewportFBO d) (viewportWidth d)
    (viewportHeight d) (boundVAO d) (boundShader d) (currentFaceCulling d) (currentDepthFunc d)
    (currentSourceBlend d) (currentDestBlend d) (currentStencilFunc d)
    (currentStencilTestMask d) (currentStencilWriteMask d) (currentStencilComparisonVal d)
    (currentStencilFail d) (currentStencilPassButDepthFail d) (currentStencilPass d)
    (blendingEnabled d) (shouldWriteDepth d) (stencilTestEnabled d) v (currentPackAlignment d)
    (currentUnpackAlignment d) (fboMap d) (vaoMap d) (shaderProgramMap d) (calls d) (cerr d).
Definition set_currentPackAlignment (v : Z) (d : Device) : Device :=
  mkDevice (shaderVersion d) (version d) (boundFBO d) (viewportFBO d) (viewportWidth d)
    (viewportHeight d) (boundVAO d) (boundShader d) (currentFaceCulling d) (currentDepthFunc d)
    (currentSourceBlend d) (currentDestBlend d) (currentStencilFunc d)
    (currentStencilTestMask d) (currentStencilWriteMask d) (currentStencilComparisonVal d)
    (currentStencilFail d) (currentStencilPassButDepthFail d) (currentStencilPass d)
    (blendingEnabled d) (shouldWriteDepth d) (stencilTestEnabled d) (scissorTestEnabled d) v
    (currentUnpackAlignment d) (fboMap d) (vaoMap d) (shaderProgramMap d) (calls d) (cerr d).
Definition set_currentUnpackAlignment (v : Z) (d : Device) : Device :=
  mkDevice (shaderVersion d) (version d) (boundFBO d) (viewportFBO d) (viewportWidth d)
    (viewportHeight d) (boundVAO d) (boundShader d) (currentFaceCulling d) (currentDepthFunc d)
    (currentSourceBlend d) (currentDestBlend d) (currentStencilFunc d)
    (currentStencilTestMask d) (currentStencilWriteMask d) (currentStencilComparisonVal d)
    (currentStencilFail d) (currentStencilPassButDepthFail d) (currentStencilPass d)
    (blendingEnabled d) (shouldWriteDepth d) (stencilTestEnabled d) (scissorTestEnabled d)
    (currentPackAlignment d) v (fboMap d) (vaoMap d) (shaderProgramMap d) (calls d) (cerr d).
Definition set_fboMap (v : gmap Z FBOData.t) (d : Device) : Device :=
  mkDevice (shaderVersion d) (version d) (boundFBO d) (viewportFBO d) (viewportWidth d)
    (viewportHeight d) (boundVAO d) (boundShader d) (currentFaceCulling d) (currentDepthFunc d)
    (currentSourceBlend d) (currentDestBlend d) (currentStencilFunc d)
    (currentStencilTestMask d) (currentStencilWriteMask d) (currentStencilComparisonVal d)
    (currentStencilFail d) (currentStencilPassButDepthFail d) (currentStencilPass d)
    (blendingEnabled d) (shouldWriteDepth d) (stencilTestEnabled d) (scissorTestEnabled d)
    (currentPackAlignment d) (currentUnpackAlignment d) v (vaoMap d) (shaderProgramMap d)
    (calls d) (cerr d).
Definition set_vaoMap (v : gmap Z VertexArray.t) (d : Device) : Device :=
  mkDevice (shaderVersion d) (version d) (boundFBO d) (viewportFBO d) (viewportWidth d)
    (viewportHeight d) (boundVAO d) (boundShader d) (currentFaceCulling d) (currentDepthFunc d)
    (currentSourceBlend d) (currentDestBlend d) (currentStencilFunc d)
    (currentStencilTestMask d) (currentStencilWriteMask d) (currentStencilComparisonVal d)
    (currentStencilFail d) (currentStencilPassButDepthFail d) (currentStencilPass d)
    (blendingEnabled d) (shouldWriteDepth d) (stencilTestEnabled d) (scissorTestEnabled d)
    (currentPackAlignment d) (currentUnpackAlignment d) (fboMap d) v (shaderProgramMap d)
    (calls d) (cerr d).
Definition set_shaderProgramMap (v : gmap Z ShaderProgram.t) (d : Device) : Device :=
  mkDevice (shaderVersion d) (version d) (boundFBO d) (viewportFBO d) (viewportWidth d)
    (viewportHeight d) (boundVAO d) (boundShader d) (currentFaceCulling d) (currentDepthFunc d)
    (currentSourceBlend d) (currentDestBlend d) (currentStencilFunc d)
    (currentStencilTestMask d) (currentStencilWriteMask d) (currentStencilComparisonVal d)
    (currentStencilFail d) (currentStencilPassButDepthFail d) (currentStencilPass d)
    (blendingEnabled d) (shouldWriteDepth d) (stencilTestEnabled d) (scissorTestEnabled d)
    (currentPackAlignment d) (currentUnpackAlignment d) (fboMap d) (vaoMap d) v (calls d)
    (cerr d).
Definition set_calls (v : list GLCall) (d : Device) : Device :=
  mkDevice (shaderVersion d) (version d) (boundFBO d) (viewportFBO d) (viewportWidth d)
    (viewportHeight d) (boundVAO d) (boundShader d) (currentFaceCulling d) (currentDepthFunc d)
    (currentSourceBlend d) (currentDestBlend d) (currentStencilFunc d)
    (currentStencilTestMask d) (currentStencilWriteMask d) (currentStencilComparisonVal d)
    (currentStencilFail d) (currentStencilPassButDepthFail d) (currentStencilPass d)
    (blendingEnabled d) (shouldWriteDepth d) (stencilTestEnabled d) (scissorTestEnabled d)
    (currentPackAlignment d) (currentUnpackAlignment d) (fboMap d) (vaoMap d)
    (shaderProgramMap d) v (cerr d).
Definition set_cerr (v : list (list Shown)) (d : Device) : Device :=
  mkDevice (shaderVersion d) (version d) (boundFBO d) (viewportFBO d) (viewportWidth d)
    (viewportHeight d) (boundVAO d) (boundShader d) (currentFaceCulling d) (currentDepthFunc d)
    (currentSourceBlend d) (currentDestBlend d) (currentStencilFunc d)
    (currentStencilTestMask d) (currentStencilWriteMask d) (currentStencilComparisonVal d)
    (currentStencilFail d) (currentStencilPassButDepthFail d) (currentStencilPass d)
    (blendingEnabled d) (shouldWriteDepth d) (stencilTestEnabled d) (scissorTestEnabled d)
    (currentPackAlignment d) (currentUnpackAlignment d) (fboMap d) (vaoMap d)
    (shaderProgramMap d) (calls d) v.

(** Normalises a device written as a tower of field updates. *)
Ltac fields :=
  cbv beta iota zeta delta
    [set_shaderVersion set_version set_boundFBO set_viewportFBO set_viewportWidth
     set_viewportHeight set_boundVAO set_boundShader set_currentFaceCulling
     set_currentDepthFunc set_currentSourceBlend set_currentDestBlend set_currentStencilFunc
     set_currentStencilTestMask set_currentStencilWriteMask set_currentStencilComparisonVal
     set_currentStencilFail set_currentStencilPassButDepthFail set_currentStencilPass
     set_shouldWriteDepth set_stencilTestEnabled set_scissorTestEnabled
     set_currentPackAlignment set_currentUnpackAlignment set_fboMap set_vaoMap
     set_shaderProgramMap set_calls set_cerr
     shaderVersion version boundFBO viewportFBO viewportWidth viewportHeight boundVAO
     boundShader currentFaceCulling currentDepthFunc currentSourceBlend currentDestBlend
     currentStencilFunc currentStencilTestMask currentStencilWriteMask
     currentStencilComparisonVal currentStencilFail currentStencilPassButDepthFail
     currentStencilPass blendingEnabled shouldWriteDepth stencilTestEnabled
     scissorTestEnabled currentPackAlignment currentUnpackAlignment fboMap vaoMap
     shaderProgramMap calls cerr].

(** ** The state monad of the methods *)

Definition M (A : Type) : Type := Device -> A * Device.

Definition ret {A} (a : A) : M A := fun d => (a, d).

Definition bind {A B} (m : M A) (k : A -> M B) : M B :=
  fun d => let (a, d') := m d in k a d'.

Declare Scope dev_scope.
Delimit Scope dev_scope with dev.
Notation "x <- m ;; k" := (bind m (fun x => k))
  (at level 100, m at next level, k at level 200, right associativity) : dev_scope.
Notation "m ;; k" := (bind m (fun _ => k))
  (at level 100, k at level 200, right associativity) : dev_scope.
Local Open Scope dev_scope.

Definition get {A} (f : Device -> A) : M A := fun d => (f d, d).
Definition modify (f : Device -> Device) : M unit := fun d => (tt, f d).

(** A call into the driver that returns nothing. *)
Definition gl (c : GLCall) : M unit := modify (fun d => set_calls (calls d ++ [c]) d).

(** A call into the driver that returns [answer], computed from the history. *)
Definition gl_ask {A} (answer : list GLCall -> A) (c : GLCall) : M A :=
  fun d => (answer (calls d), set_calls (calls d ++ [c]) d).

(** [std::cerr << ... << std::endl]. *)
Definition log (line : list Shown) : M unit := modify (fun d => set_cerr (cerr d ++ [line]) d).

Definition when (b : bool) (m : M unit) : M unit := if b then m else ret tt.

(** [for (i = start; i < start + count; ++i) body(i)]. *)
Fixpoint for_range (start : Z) (count : nat) (body : Z -> M unit) : M unit :=
  match count with
  | O => ret tt
  | S count' => body start ;; for_range (start + 1) count' body
  end.

(** The same loop threading a value through its iterations. *)
Fixpoint for_fold {A} (start : Z) (count : nat) (body : Z -> A -> M A) (a : A) : M A :=
  match count with
  | O => ret a
  | S count' => a' <- body start a ;; for_fold (start + 1) count' body a'
  end.

(** The calls a method makes when started in [d]. *)
Definition emitted {A} (m : M A) (d : Device) : list GLCall :=
  drop (length (calls d)) (calls (snd (m d))).

(** ** State cache *)

Definition SetFBO (fbo : Z) : M unit :=
  bound <- get boundFBO ;;
  if fbo =? bound then ret tt
  else
    gl (glBindFramebuffer GL_FRAMEBUFFER fbo) ;;
    modify (set_boundFBO fbo).

(** [fboMap[fbo]]: [operator[]] inserts a value-initialised record for a key
    that is not there, and yields the record. *)
Definition fboMap_at (fbo : Z) : M FBOData.t :=
  m <- get fboMap ;;
  match m !! fbo with
  | Some data => ret data
  | None => modify (set_fboMap (<[fbo := FBOData.default]> m)) ;; ret FBOData.default
  end.

Definition SetViewport (fbo : Z) : M unit :=
  fboData <- fboMap_at fbo ;;
  vFBO <- get viewportFBO ;;
  vW <- get viewportWidth ;;
  vH <- get viewportHeight ;;
  if (fbo =? vFBO) && (FBOData.width fboData =? vW) && (FBOData.height fboData =? vH)
  then ret tt
  else
    gl (glViewport 0 0 (FBOData.width fboData) (FBOData.height fboData)) ;;
    modify (set_viewportFBO fbo) ;;
    modify (set_viewportWidth (FBOData.width fboData)) ;;
    modify (set_viewportHeight (FBOData.height fboData)).

Definition SetVAO (vao : Z) : M unit :=
  bound <- get boundVAO ;;
  if vao =? bound then ret tt
  else
    gl (glBindVertexArray vao) ;;
    modify (set_boundVAO vao).

Definition SetShader (shader : Z) : M unit :=
  bound <- get boundShader ;;
  if shader =? bound then ret tt
  else
    gl (glUseProgram shader) ;;
    modify (set_boundShader shader).

Definition SetStencilWriteMask (mask : Z) : M unit :=
  current <- get currentStencilWriteMask ;;
  if current =? mask then ret tt
  else
    gl (glStencilMask mask) ;;
    modify (set_currentStencilWriteMask mask).

Definition SetStencilTest (enable : bool) (stencilFunc stencilTestMask stencilWriteMask
    stencilComparisonVal stencilFail stencilPassButDepthFail stencilPass : Z) : M unit :=
  enabled <- get stencilTestEnabled ;;
  when (negb (Bool.eqb enable enabled))
    ((if enable then gl (glEnable GL_STENCIL_TEST) else gl (glDisable GL_STENCIL_TEST)) ;;
     modify (set_stencilTestEnabled enable)) ;;
  curFunc <- get currentStencilFunc ;;
  curMask <- get currentStencilTestMask ;;
  curVal <- get currentStencilComparisonVal ;;
  when (negb (stencilFunc =? curFunc) || negb (stencilTestMask =? curMask)
        || negb (stencilComparisonVal =? curVal))
    (gl (glStencilFunc stencilFunc stencilTestMask stencilComparisonVal) ;;
     modify (set_currentStencilComparisonVal stencilComparisonVal) ;;
     modify (set_currentStencilTestMask stencilTestMask) ;;
     modify (set_currentStencilFunc stencilFunc)) ;;
  curFail <- get currentStencilFail ;;
  curPass <- get currentStencilPass ;;
  curPassButDepthFail <- get currentStencilPassButDepthFail ;;
  when (negb (stencilFail =? curFail) || negb (stencilPass =? curPass)
        || negb (stencilPassButDepthFail =? curPassButDepthFail))
    (gl (glStencilOp stencilFail stencilPassButDepthFail stencilPass) ;;
     modify (set_currentStencilFail stencilFail) ;;
     modify (set_currentStencilPass stencilPass) ;;
     modify (set_currentStencilPassButDepthFail stencilPassButDepthFail)) ;;
  SetStencilWriteMask stencilWriteMask.

Definition SetScissorTest (enable : bool) (startX startY width height : Z) : M unit :=
  enabled <- get scissorTestEnabled ;;
  if negb enable then
    if negb enabled then ret tt
    else
      gl (glDisable GL_SCISSOR_TEST) ;;
      modify (set_scissorTestEnabled false)
  else
    when (negb enabled) (gl (glEnable GL_SCISSOR_TEST)) ;;
    gl (glScissor startX startY width height) ;;
    modify (set_scissorTestEnabled true).

Definition SetDepthTest (shouldWrite : bool) (depthFunc : Z) : M unit :=
  writes <- get shouldWriteDepth ;;
  when (negb (Bool.eqb shouldWrite writes))
    (gl (glDepthMask (if shouldWrite then true else false)) ;;
     modify (set_shouldWriteDepth shouldWrite)) ;;
  current <- get currentDepthFunc ;;
  if depthFunc =? current then ret tt
  else
    gl (glDepthFunc depthFunc) ;;
    modify (set_currentDepthFunc depthFunc).

(** ** Declarations of the device's header

    [OpenGLRenderDevice.h] declares the enumerations and [DrawParameters].
    The methods name five enumerators; they are kept abstract, so everything
    below holds whatever numbers the header gives them. *)

(** Modelled from the spec: the [PixelFormat] enumeration is declared in the
    header; its six members are the ones the two format switches name, and
    [FORMAT_other] stands for any other integer cast to the type. *)
Inductive PixelFormat : Type :=
  | FORMAT_R | FORMAT_RG | FORMAT_RGB | FORMAT_RGBA | FORMAT_DEPTH | FORMAT_DEPTH_AND_STENCIL
  | FORMAT_other (value : Z).

(** Modelled from the spec: [DrawParameters] is declared in the header; these
    are the members [Draw] and [SetDrawParameters] read. *)
Record DrawParameters := mkDrawParameters {
  dp_primitiveType : Z;
  dp_faceCulling : Z;
  dp_depthFunc : Z;
  dp_shouldWriteDepth : bool;
  dp_useScissorTest : bool;
  dp_scissorStartX : Z;
  dp_scissorStartY : Z;
  dp_scissorWidth : Z;
  dp_scissorHeight : Z;
  dp_sourceBlend : Z;
  dp_destBlend : Z
}.

Section Header.

Variable FACE_CULL_NONE : Z.
Variable BLEND_FUNC_NONE : Z.
Variable USAGE_DYNAMIC_DRAW : Z.
Variable DRAW_FUNC_ALWAYS : Z.
Variable STENCIL_KEEP : Z.

(** The constructor, once the context exists and GLEW is initialised. It
    leaves [viewportWidth] and [viewportHeight] uninitialised: whatever they
    hold is passed in. *)
Definition OpenGLRenderDevice_new (windowWidth windowHeight : Z)
    (viewportWidth0 viewportHeight0 : Z) : Device :=
  {| shaderVersion := EmptyString;
     version := 0;
     boundFBO := 0;
     viewportFBO := 0;
     viewportWidth := viewportWidth0;
     viewportHeight := viewportHeight0;
     boundVAO := 0;
     boundShader := 0;
     currentFaceCulling := FACE_CULL_NONE;
     currentDepthFunc := DRAW_FUNC_ALWAYS;
     currentSourceBlend := BLEND_FUNC_NONE;
     currentDestBlend := BLEND_FUNC_NONE;
     currentStencilFunc := DRAW_FUNC_ALWAYS;
     currentStencilTestMask := 4294967295;
     currentStencilWriteMask := 4294967295;
     currentStencilComparisonVal := 0;
     currentStencilFail := STENCIL_KEEP;
     currentStencilPassButDepthFail := STENCIL_KEEP;
     currentStencilPass := STENCIL_KEEP;
     blendingEnabled := false;
     shouldWriteDepth := false;
     stencilTestEnabled := false;
     scissorTestEnabled := false;
     currentPackAlignment := 0;
     currentUnpackAlignment := 0;
     fboMap := {[ 0 := FBOData.mk windowWidth windowHeight ]};
     vaoMap := ∅;
     shaderProgramMap := ∅;
     calls := [glEnable GL_DEPTH_TEST; glDepthFunc DRAW_FUNC_ALWAYS; glDepthMask false;
               glFrontFace GL_CCW];
     cerr := [] |}.

Definition SetFaceCulling (faceCulling : Z) : M unit :=
  current <- get currentFaceCulling ;;
  if faceCulling =? current then ret tt
  else
    (if faceCulling =? FACE_CULL_NONE then gl (glDisable GL_CULL_FACE)
     else if current =? FACE_CULL_NONE then
       gl (glEnable GL_CULL_FACE) ;;
       gl (glCullFace faceCulling)
     else gl (glCullFace faceCulling)) ;;
    modify (set_currentFaceCulling faceCulling).

Definition SetBlending (sourceBlend destinationBlend : Z) : M unit :=
  curSource <- get currentSourceBlend ;;
  curDest <- get currentDestBlend ;;
  if (sourceBlend =? curSource) && (destinationBlend =? curDest) then ret tt
  else
    (if (sourceBlend =? BLEND_FUNC_NONE) || (destinationBlend =? BLEND_FUNC_NONE) then
       gl (glDisable GL_BLEND)
     else if (curSource =? BLEND_FUNC_NONE) || (curDest =? BLEND_FUNC_NONE) then
       gl (glEnable GL_BLEND) ;;
       gl (glBlendFunc sourceBlend destinationBlend)
     else gl (glBlendFunc sourceBlend destinationBlend)) ;;
    modify (set_currentSourceBlend sourceBlend) ;;
    modify (set_currentDestBlend destinationBlend).

Definition SetDrawParameters (drawParameters : DrawParameters) : M unit :=
  SetBlending (dp_sourceBlend drawParameters) (dp_destBlend drawParameters) ;;
  SetScissorTest (dp_useScissorTest drawParameters) (dp_scissorStartX drawParameters)
    (dp_scissorStartY drawParameters) (dp_scissorWidth drawParameters)
    (dp_scissorHeight drawParameters) ;;
  SetFaceCulling (dp_faceCulling drawParameters) ;;
  SetDepthTest (dp_shouldWriteDepth drawParameters) (dp_depthFunc drawParameters).

(** ** Draw dispatcher *)

Definition Draw (fbo shader vao : Z) (drawParameters : DrawParameters)
    (numInstances numElements : Z) : M unit :=
  if numInstances =? 0 then ret tt
  else
    SetFBO fbo ;;
    SetViewport fbo ;;
    SetDrawParameters drawParameters ;;
    SetShader shader ;;
    SetVAO vao ;;
    if numInstances =? 1 then
      gl (glDrawElements (dp_primitiveType drawParameters) (to_int32 numElements)
            GL_UNSIGNED_INT 0)
    else
      gl (glDrawElementsInstanced (dp_primitiveType drawParameters) (to_int32 numElements)
            GL_UNSIGNED_INT 0 numInstances).

(** ** What the draw dispatcher is to send

    The calls the state cache sends for one setting, given what it holds:
    nothing when the value asked for is the cached one, and otherwise the
    transition from the cached value to the new one. *)

Definition framebuffer_calls (bound fbo : Z) : list GLCall :=
  if fbo =? bound then [] else [glBindFramebuffer GL_FRAMEBUFFER fbo].

Definition viewport_calls (cachedFBO cachedWidth cachedHeight fbo : Z) (target : FBOData.t)
    : list GLCall :=
  if (fbo =? cachedFBO) && (FBOData.width target =? cachedWidth)
     && (FBOData.height target =? cachedHeight)
  then [] else [glViewport 0 0 (FBOData.width target) (FBOData.height target)].

(** Blending is switched off when either factor asked for is "none",
    switched on when it was off, and given the two factors. *)
Definition blending_calls (curSource curDest sourceBlend destinationBlend : Z)
    : list GLCall :=
  if (sourceBlend =? curSource) && (destinationBlend =? curDest) then []
  else if (sourceBlend =? BLEND_FUNC_NONE) || (destinationBlend =? BLEND_FUNC_NONE)
       then [glDisable GL_BLEND]
  else (if (curSource =? BLEND_FUNC_NONE) || (curDest =? BLEND_FUNC_NONE)
        then [glEnable GL_BLEND] else [])
       ++ [glBlendFunc sourceBlend destinationBlend].

(** Enabling the scissor test always sends the rectangle. *)
Definition scissor_calls (enabled enable : bool) (startX startY width height : Z)
    : list GLCall :=
  if enable then
    (if enabled then [] else [glEnable GL_SCISSOR_TEST])
    ++ [glScissor startX startY width height]
  else if enabled then [glDisable GL_SCISSOR_TEST] else [].

Definition culling_calls (current faceCulling : Z) : list GLCall :=
  if faceCulling =? current then []
  else if faceCulling =? FACE_CULL_NONE then [glDisable GL_CULL_FACE]
  else (if current =? FACE_CULL_NONE then [glEnable GL_CULL_FACE] else [])
       ++ [glCullFace faceCulling].

(** The write mask and the comparison are two settings. *)
Definition depth_calls (writes : bool) (current : Z) (shouldWrite : bool) (depthFunc : Z)
    : list GLCall :=
  (if Bool.eqb shouldWrite writes then [] else [glDepthMask shouldWrite])
  ++ (if depthFunc =? current then [] else [glDepthFunc depthFunc]).

Definition program_calls (bound shader : Z) : list GLCall :=
  if shader =? bound then [] else [glUseProgram shader].

Definition vertex_array_calls (bound vao : Z) : list GLCall :=
  if vao =? bound then [] else [glBindVertexArray vao].

Definition draw_call (drawParameters : DrawParameters) (numInstances numElements : Z)
    : GLCall :=
  if numInstances =? 1
  then glDrawElements (dp_primitiveType drawParameters) (to_int32 numElements)
         GL_UNSIGNED_INT 0
  else glDrawElementsInstanced (dp_primitiveType drawParameters) (to_int32 numElements)
         GL_UNSIGNED_INT 0 numInstances.

(** All of them for one draw from the cache [d], in the order target,
    viewport, blending, scissor, face culling, depth, shader, vertex array,
    and then the draw call. *)
Definition Draw_calls (fbo shader vao : Z) (p : DrawParameters)
    (numInstances numElements : Z) (d : Device) : list GLCall :=
  framebuffer_calls (boundFBO d) fbo
  ++ viewport_calls (viewportFBO d) (viewportWidth d) (viewportHeight d) fbo
       (default FBOData.default (fboMap d !! fbo))
  ++ blending_calls (currentSourceBlend d) (currentDestBlend d)
       (dp_sourceBlend p) (dp_destBlend p)
  ++ scissor_calls (scissorTestEnabled d) (dp_useScissorTest p) (dp_scissorStartX p)
       (dp_scissorStartY p) (dp_scissorWidth p) (dp_scissorHeight p)
  ++ culling_calls (currentFaceCulling d) (dp_faceCulling p)
  ++ depth_calls (shouldWriteDepth d) (currentDepthFunc d)
       (dp_shouldWriteDepth p) (dp_depthFunc p)
  ++ program_calls (boundShader d) shader
  ++ vertex_array_calls (boundVAO d) vao
  ++ [draw_call p numInstances numElements].

(** The device after a draw that has sent [l]: the cache holds the target,
    the target's size as viewport, the draw parameters, the shader and the
    vertex array; the target has a record; everything else is as in [d]. *)
Definition drawn (fbo shader vao : Z) (p : DrawParameters) (l : list GLCall) (d : Device)
    : Device :=
  let target := default FBOData.default (fboMap d !! fbo) in
  set_boundVAO vao
    (set_boundShader shader
       (set_currentDepthFunc (dp_depthFunc p)
          (set_shouldWriteDepth (dp_shouldWriteDepth p)
             (set_currentFaceCulling (dp_faceCulling p)
                (set_scissorTestEnabled (dp_useScissorTest p)
                   (set_currentDestBlend (dp_destBlend p)
                      (set_currentSourceBlend (dp_sourceBlend p)
                         (set_viewportHeight (FBOData.height target)
                            (set_viewportWidth (FBOData.width target)
                               (set_viewportFBO fbo
                                  (set_fboMap (<[fbo := target]> (fboMap d))
                                     (set_boundFBO fbo (set_calls l d))))))))))))).

(** The calls that set the viewport. *)
Definition is_viewport (c : GLCall) : bool :=
  match c with glViewport _ _ _ _ => true | _ => false end.

(** ** Render targets *)

Definition CreateRenderTarget (drv : Driver) (texture width height attachment
    attachmentNumber mipLevel : Z) : M Z :=
  fbo <- gl_ask (fun h => drv_glGenBuffers drv h 0%nat) (glGenBuffers 1) ;;
  SetFBO fbo ;;
  gl (glFramebufferTexture2D GL_FRAMEBUFFER (wrap32 (attachment + attachmentNumber))
        GL_TEXTURE_2D texture mipLevel) ;;
  modify (fun d => set_fboMap (<[fbo := FBOData.mk width height]> (fboMap d)) d) ;;
  ret fbo.

Definition UpdateRenderTarget (fbo width height : Z) : M unit :=
  data <- fboMap_at 0 ;;
  modify (fun d => set_fboMap (<[0 := FBOData.mk width (FBOData.height data)]> (fboMap d)) d) ;;
  data <- fboMap_at 0 ;;
  modify (fun d => set_fboMap (<[0 := FBOData.mk (FBOData.width data) height]> (fboMap d)) d).

Definition ReleaseRenderTarget (fbo : Z) : M Z :=
  if fbo =? 0 then ret 0
  else
    m <- get fboMap ;;
    match m !! fbo with
    | None => ret 0
    | Some _ =>
        gl (glDeleteFramebuffers [fbo]) ;;
        modify (set_fboMap (delete fbo m)) ;;
        ret 0
    end.

(** ** Vertex arrays *)

(** One attribute slot, the block that the loop over the groups of four and
    the remainder share: the slot is enabled and described, an instanced one
    gets its divisor, and [attribute++] moves on to the next slot number, an
    [unsigned int]. *)
Definition attributeSlot (attribute size elementSize pointer : Z) (inInstancedMode : bool)
    : M Z :=
  gl (glEnableVertexAttribArray attribute) ;;
  gl (glVertexAttribPointer attribute size GL_FLOAT false
        (wrap64 (elementSize * sizeof_float)) pointer) ;;
  when inInstancedMode (gl (glVertexAttribDivisor attribute 1)) ;;
  ret (wrap32 (attribute + 1)).

(** The attribute slots of one component: [elementSize / 4] slots of four
    floats, then one slot for the [elementSize % 4] floats that remain. *)
Definition componentAttributes (elementSize : Z) (inInstancedMode : bool) (attribute : Z)
    : M Z :=
  let elementSizeDiv := elementSize / 4 in
  let elementSizeRem := elementSize mod 4 in
  attribute <- for_fold 0 (Z.to_nat elementSizeDiv)
    (fun j attribute =>
       attributeSlot attribute 4 elementSize (wrap64 (sizeof_float * j * 4)) inInstancedMode)
    attribute ;;
  if negb (elementSizeRem =? 0) then
    attributeSlot attribute elementSizeRem elementSize
      (wrap64 (sizeof_float * elementSizeDiv * 4)) inInstancedMode
  else ret attribute.

(** One iteration of the loop over the components. [None]: [i] is outside
    one of the arrays read. *)
Definition componentBuffer (vertexData : option (list Ptr)) (vertexElementSizes : list Z)
    (numVertexComponents numVertices usage : Z) (buffers : list Z)
    (i : Z) (st : Z * list Z) (d : Device) : option ((Z * list Z) * Device) :=
  let '(attribute, bufferSizes) := st in
  let inInstancedMode := numVertexComponents <=? i in
  let attributeUsage := if inInstancedMode then USAGE_DYNAMIC_DRAW else usage in
  elementSize ← vertexElementSizes !! Z.to_nat i ;
  bufferData ←
    (if inInstancedMode then Some nullptr
     else match vertexData with
          | None => Some nullptr
          | Some pointers => pointers !! Z.to_nat i
          end) ;
  let dataSize :=
    if inInstancedMode then wrap64 (elementSize * sizeof_float)
    else wrap64 (elementSize * sizeof_float * numVertices) in
  buffer ← buffers !! Z.to_nat i ;
  Some
    ((gl (glBindBuffer GL_ARRAY_BUFFER buffer) ;;
      gl (glBufferData GL_ARRAY_BUFFER dataSize bufferData attributeUsage) ;;
      attribute <- componentAttributes elementSize inInstancedMode attribute ;;
      ret (attribute, <[Z.to_nat i := dataSize]> bufferSizes)) d).

Fixpoint componentLoop (vertexData : option (list Ptr)) (vertexElementSizes : list Z)
    (numVertexComponents numVertices usage : Z) (buffers : list Z)
    (i : Z) (count : nat) (st : Z * list Z) (d : Device) : option ((Z * list Z) * Device) :=
  match count with
  | O => Some (st, d)
  | S count' =>
      '(st', d') ← componentBuffer vertexData vertexElementSizes numVertexComponents
                     numVertices usage buffers i st d ;
      componentLoop vertexData vertexElementSizes numVertexComponents numVertices usage
        buffers (i + 1) count' st' d'
  end.

Definition CreateVertexArray (drv : Driver) (vertexData : option (list Ptr))
    (vertexElementSizes : list Z) (numVertexComponents numInstanceComponents numVertices : Z)
    (indices : Ptr) (numIndices usage : Z) (d : Device) : option (Z * Device) :=
  let numBuffers := wrap32 (numVertexComponents + numInstanceComponents + 1) in
  let '(vao, d) := gl_ask (drv_glGenVertexArrays drv) (glGenVertexArrays 1) d in
  let '(_, d) := SetVAO vao d in
  let '(buffers, d) :=
    gl_ask (fun h => drv_glGenBuffers drv h <$> seq 0 (Z.to_nat numBuffers))
      (glGenBuffers numBuffers) d in
  '((_, bufferSizes), d) ←
    componentLoop vertexData vertexElementSizes numVertexComponents numVertices usage
      buffers 0 (Z.to_nat (wrap32 (numBuffers - 1))) (0, replicate (Z.to_nat numBuffers) 0) d ;
  let indicesSize := wrap64 (numIndices * sizeof_uint) in
  indexBuffer ← buffers !! Z.to_nat (wrap32 (numBuffers - 1)) ;
  let vaoData :=
    VertexArray.mk buffers (<[Z.to_nat (wrap32 (numBuffers - 1)) := indicesSize]> bufferSizes)
      numBuffers numIndices usage numVertexComponents in
  Some
    ((gl (glBindBuffer GL_ELEMENT_ARRAY_BUFFER indexBuffer) ;;
      gl (glBufferData GL_ELEMENT_ARRAY_BUFFER indicesSize indices usage) ;;
      modify (fun d => set_vaoMap (<[vao := vaoData]> (vaoMap d)) d) ;;
      ret vao) d).

Definition UpdateVertexArrayBuffer (vao bufferIndex : Z) (data : Ptr) (dataSize : Z)
    (d : Device) : option (unit * Device) :=
  if vao =? 0 then Some (tt, d)
  else
    match vaoMap d !! vao with
    | None => Some (tt, d)
    | Some vaoData =>
        let usage :=
          if VertexArray.instanceComponentsStartIndex vaoData <=? bufferIndex
          then USAGE_DYNAMIC_DRAW
          else VertexArray.usage vaoData in
        buffer ← VertexArray.buffers vaoData !! Z.to_nat bufferIndex ;
        capacity ← VertexArray.bufferSizes vaoData !! Z.to_nat bufferIndex ;
        Some
          ((SetVAO vao ;;
            gl (glBindBuffer GL_ARRAY_BUFFER buffer) ;;
            if dataSize <=? capacity then
              gl (glBufferSubData GL_ARRAY_BUFFER 0 dataSize data)
            else
              gl (glBufferData GL_ARRAY_BUFFER dataSize data usage) ;;
              modify (fun d =>
                set_vaoMap
                  (<[vao := VertexArray.mk (VertexArray.buffers vaoData)
                              (<[Z.to_nat bufferIndex := dataSize]>
                                 (VertexArray.bufferSizes vaoData))
                              (VertexArray.numBuffers vaoData)
                              (VertexArray.numElements vaoData)
                              (VertexArray.usage vaoData)
                              (VertexArray.instanceComponentsStartIndex vaoData)]>
                     (vaoMap d)) d)) d)
    end.

Definition ReleaseVertexArray (vao : Z) : M Z :=
  if vao =? 0 then ret 0
  else
    m <- get vaoMap ;;
    match m !! vao with
    | None => ret 0
    | Some vaoData =>
        gl (glDeleteVertexArrays [vao]) ;;
        gl (glDeleteBuffers (take (Z.to_nat (VertexArray.numBuffers vaoData))
                               (VertexArray.buffers vaoData))) ;;
        modify (set_vaoMap (delete vao m)) ;;
        ret 0
    end.

(** ** Samplers, textures and uniform buffers *)

Definition ReleaseSampler (sampler : Z) : M Z :=
  if sampler =? 0 then ret 0
  else
    gl (glDeleteSamplers [sampler]) ;;
    ret 0.

Definition GetOpenGLFormat (format : PixelFormat) : M GLint :=
  match format with
  | FORMAT_R => ret (IEnum GL_RED)
  | FORMAT_RG => ret (IEnum GL_RG)
  | FORMAT_RGB => ret (IEnum GL_RGB)
  | FORMAT_RGBA => ret (IEnum GL_RGBA)
  | FORMAT_DEPTH => ret (IEnum GL_DEPTH_COMPONENT)
  | FORMAT_DEPTH_AND_STENCIL => ret (IEnum GL_DEPTH_STENCIL)
  | FORMAT_other value =>
      log [text "Error: PixelFormat "; number value; text " is not a valid PixelFormat."] ;;
      ret (IInt 0)
  end.

Definition GetOpenGLInternalFormat (format : PixelFormat) (compress : bool) : M GLint :=
  match format with
  | FORMAT_R => ret (IEnum GL_RED)
  | FORMAT_RG => ret (IEnum GL_RG)
  | FORMAT_RGB =>
      if compress then ret (IEnum GL_COMPRESSED_SRGB_S3TC_DXT1_EXT) else ret (IEnum GL_RGB)
  | FORMAT_RGBA =>
      if compress then ret (IEnum GL_COMPRESSED_SRGB_ALPHA_S3TC_DXT5_EXT)
      else ret (IEnum GL_RGBA)
  | FORMAT_DEPTH => ret (IEnum GL_DEPTH_COMPONENT)
  | FORMAT_DEPTH_AND_STENCIL => ret (IEnum GL_DEPTH_STENCIL)
  | FORMAT_other value =>
      log [text "Error: PixelFormat "; number value; text " is not a valid PixelFormat."] ;;
      ret (IInt 0)
  end.

(** The two pixel-store alignments, set at the head of [CreateTexture2D]. *)
Definition SetPixelAlignment (packAlignment unpackAlignment : Z) : M unit :=
  currentPack <- get currentPackAlignment ;;
  when (negb (packAlignment =? currentPack))
    (gl (glPixelStorei GL_PACK_ALIGNMENT packAlignment) ;;
     modify (set_currentPackAlignment packAlignment)) ;;
  currentUnpack <- get currentUnpackAlignment ;;
  when (negb (unpackAlignment =? currentUnpack))
    (gl (glPixelStorei GL_UNPACK_ALIGNMENT unpackAlignment) ;;
     modify (set_currentUnpackAlignment unpackAlignment)).

Definition CreateTexture2D (drv : Driver) (width height : Z) (data : Ptr)
    (dataFormat internalFormat : PixelFormat) (generateMipmaps compress : bool)
    (packAlignment unpackAlignment : Z) : M Z :=
  format <- GetOpenGLFormat dataFormat ;;
  glInternalFormat <- GetOpenGLInternalFormat internalFormat compress ;;
  let textureTarget := GL_TEXTURE_2D in
  SetPixelAlignment packAlignment unpackAlignment ;;
  textureHandle <- gl_ask (drv_glGenTextures drv) (glGenTextures 1) ;;
  gl (glBindTexture textureTarget textureHandle) ;;
  gl (glTexParameterf textureTarget GL_TEXTURE_MIN_FILTER GL_NEAREST) ;;
  gl (glTexParameterf textureTarget GL_TEXTURE_MAG_FILTER GL_NEAREST) ;;
  gl (glTexParameteri textureTarget GL_TEXTURE_WRAP_S (IEnum GL_CLAMP_TO_EDGE)) ;;
  gl (glTexParameteri textureTarget GL_TEXTURE_WRAP_T (IEnum GL_CLAMP_TO_EDGE)) ;;
  gl (glTexImage2D textureTarget 0 glInternalFormat width height 0 format GL_UNSIGNED_BYTE
        data) ;;
  (if generateMipmaps then gl (glGenerateMipmap textureTarget)
   else
     gl (glTexParameteri textureTarget GL_TEXTURE_BASE_LEVEL (IInt 0)) ;;
     gl (glTexParameteri textureTarget GL_TEXTURE_MAX_LEVEL (IInt 0))) ;;
  ret textureHandle.

Definition ReleaseTexture2D (texture2D : Z) : M Z :=
  if texture2D =? 0 then ret 0
  else
    gl (glDeleteTextures [texture2D]) ;;
    ret 0.

Definition CreateUniformBuffer (drv : Driver) (data : Ptr) (dataSize usage : Z) : M Z :=
  ubo <- gl_ask (fun h => drv_glGenBuffers drv h 0%nat) (glGenBuffers 1) ;;
  gl (glBindBuffer GL_UNIFORM_BUFFER ubo) ;;
  gl (glBufferData GL_UNIFORM_BUFFER dataSize data usage) ;;
  ret ubo.

Definition UpdateUniformBuffer (drv : Driver) (buffer : Z) (data : Ptr) (dataSize : Z)
    : M unit :=
  gl (glBindBuffer GL_UNIFORM_BUFFER buffer) ;;
  destination <- gl_ask (drv_glMapBuffer drv) (glMapBuffer GL_UNIFORM_BUFFER GL_WRITE_ONLY) ;;
  gl (memcpy destination data dataSize) ;;
  gl (glUnmapBuffer GL_UNIFORM_BUFFER).

Definition ReleaseUniformBuffer (buffer : Z) : M Z :=
  if buffer =? 0 then ret 0
  else
    gl (glDeleteBuffers [buffer]) ;;
    ret 0.

(** ** Version detection *)

Definition GetVersion (drv : Driver) : M Z :=
  cached <- get version ;;
  if negb (cached =? 0) then ret cached
  else
    majorVersion <- gl_ask (fun h => drv_glGetIntegerv drv h GL_MAJOR_VERSION)
                      (glGetIntegerv GL_MAJOR_VERSION) ;;
    minorVersion <- gl_ask (fun h => drv_glGetIntegerv drv h GL_MINOR_VERSION)
                      (glGetIntegerv GL_MINOR_VERSION) ;;
    modify (set_version (wrap32 (majorVersion * 100 + minorVersion * 10))) ;;
    get version.

Definition GetShaderVersion (drv : Driver) : M string :=
  cached <- get shaderVersion ;;
  if negb (String.eqb cached "") then ret cached
  else
    version <- GetVersion drv ;;
    if 330 <=? version then modify (set_shaderVersion (to_string version)) ;; get shaderVersion
    else if 320 <=? version then modify (set_shaderVersion "150") ;; get shaderVersion
    else if 310 <=? version then modify (set_shaderVersion "140") ;; get shaderVersion
    else if 300 <=? version then modify (set_shaderVersion "130") ;; get shaderVersion
    else if 210 <=? version then modify (set_shaderVersion "120") ;; get shaderVersion
    else if 200 <=? version then modify (set_shaderVersion "110") ;; get shaderVersion
    else
      let majorVersion := version / 100 in
      let minorVersion := (version / 10) mod 10 in
      log [text "Error: OpenGL Version "; number majorVersion; text "."; number minorVersion;
           text "does not support shaders."] ;;
      ret ""%string.

(** ** Shader programs *)

Definition AddShader (drv : Driver) (shaderProgram : Z) (text_ : string) (type : GLenum)
    (shaders : list Z) : M (bool * list Z) :=
  shader <- gl_ask (fun h => drv_glCreateShader drv h type) (glCreateShader type) ;;
  if shader =? 0 then
    log [text "Error creating shader type "; constant type] ;;
    ret (false, shaders)
  else
    gl (glShaderSource shader text_ (to_int32 (Z.of_nat (String.length text_)))) ;;
    gl (glCompileShader shader) ;;
    success <- gl_ask (fun h => drv_glGetShaderiv drv h shader GL_COMPILE_STATUS)
                 (glGetShaderiv shader GL_COMPILE_STATUS) ;;
    if success =? 0 then
      infoLog <- gl_ask (fun h => drv_glGetShaderInfoLog drv h shader)
                   (glGetShaderInfoLog shader 1024) ;;
      log [text "Error compiling shader type "; number shader; text ": '";
           text (c_str_in 1024 infoLog); text " '"] ;;
      ret (false, shaders)
    else
      gl (glAttachShader shaderProgram shader) ;;
      ret (true, shaders ++ [shader]).

Definition AddAllAttributes (drv : Driver) (program version : Z) : M unit :=
  if 320 <=? version then ret tt
  else
    numActiveAttributes <- gl_ask (fun h => drv_glGetProgramiv drv h program GL_ACTIVE_ATTRIBUTES)
                             (glGetProgramiv program GL_ACTIVE_ATTRIBUTES) ;;
    maxAttribNameLength <-
      gl_ask (fun h => drv_glGetProgramiv drv h program GL_ACTIVE_ATTRIBUTE_MAX_LENGTH)
        (glGetProgramiv program GL_ACTIVE_ATTRIBUTE_MAX_LENGTH) ;;
    for_range 0 (Z.to_nat numActiveAttributes)
      (fun attribute =>
         info <- gl_ask (fun h => drv_glGetActiveAttrib drv h program attribute)
                   (glGetActiveAttrib program attribute maxAttribNameLength) ;;
         gl (glBindAttribLocation program attribute
               (c_str_in maxAttribNameLength (activeName info)))).

Definition CheckShaderError (drv : Driver) (shader : Z) (flag : GLenum) (isProgram : bool)
    (errorMessage : string) : M bool :=
  success <-
    (if isProgram then
       gl_ask (fun h => drv_glGetProgramiv drv h shader flag) (glGetProgramiv shader flag)
     else
       gl_ask (fun h => drv_glGetShaderiv drv h shader flag) (glGetShaderiv shader flag)) ;;
  if success =? 0 then
    error <-
      (if isProgram then
         gl_ask (fun h => drv_glGetProgramInfoLog drv h shader)
           (glGetProgramInfoLog shader 1024)
       else
         gl_ask (fun h => drv_glGetShaderInfoLog drv h shader)
           (glGetShaderInfoLog shader 1024)) ;;
    log [text errorMessage; text ": "; text (c_str_in 1024 error)] ;;
    ret true
  else ret false.

(** The body of the loop over the plain uniforms. *)
Definition addUniform (drv : Driver) (shaderProgram uniform : Z) (samplerMap : gmap string Z)
    : M (gmap string Z) :=
  info <- gl_ask (fun h => drv_glGetActiveUniform drv h shaderProgram uniform)
            (glGetActiveUniform shaderProgram uniform 256) ;;
  if negb (bool_decide (activeType info = GL_SAMPLER_2D)) then
    log [text "Error: Non-sampler2D uniforms currently unsupported!"] ;;
    ret samplerMap
  else
    let name := string_of_buffer 256 (activeName info) (actualLength info - 1) in
    location <- gl_ask (fun h => drv_glGetUniformLocation drv h shaderProgram
                                   (c_str_in 256 (activeName info)))
                  (glGetUniformLocation shaderProgram (c_str_in 256 (activeName info))) ;;
    ret (<[name := location]> samplerMap).

(** The body of the loop over the uniform blocks. [nameLength] is at least
    1 ([drv_blockNameLength]). The index is a [GLuint] stored in a map of
    [GLint]. *)
Definition addUniformBlock (drv : Driver) (shaderProgram block : Z)
    (uniformMap : gmap string Z) : M (gmap string Z) :=
  nameLength <-
    gl_ask (fun h => drv_glGetActiveUniformBlockiv drv h shaderProgram block
                       GL_UNIFORM_BLOCK_NAME_LENGTH)
      (glGetActiveUniformBlockiv shaderProgram block GL_UNIFORM_BLOCK_NAME_LENGTH) ;;
  name <- gl_ask (fun h => drv_glGetActiveUniformBlockName drv h shaderProgram block)
            (glGetActiveUniformBlockName shaderProgram block nameLength) ;;
  let uniformBlockName := string_of_buffer nameLength name (nameLength - 1) in
  index <- gl_ask (fun h => drv_glGetUniformBlockIndex drv h shaderProgram
                              (c_str_in nameLength name))
             (glGetUniformBlockIndex shaderProgram (c_str_in nameLength name)) ;;
  ret (<[uniformBlockName := to_int32 index]> uniformMap).

(** [numUniforms] is the constant 0; the count of active uniforms that the
    driver reports is stored in [numBlocks], which is not read again. *)
Definition AddShaderUniforms (drv : Driver) (shaderProgram : Z)
    (uniformMap samplerMap : gmap string Z) : M (gmap string Z * gmap string Z) :=
  numBlocks <- gl_ask (fun h => drv_glGetProgramiv drv h shaderProgram GL_ACTIVE_UNIFORM_BLOCKS)
                 (glGetProgramiv shaderProgram GL_ACTIVE_UNIFORM_BLOCKS) ;;
  uniformMap <- for_fold 0 (Z.to_nat numBlocks) (addUniformBlock drv shaderProgram)
                  uniformMap ;;
  let numUniforms := 0 in
  numBlocks <- gl_ask (fun h => drv_glGetProgramiv drv h shaderProgram GL_ACTIVE_UNIFORMS)
                 (glGetProgramiv shaderProgram GL_ACTIVE_UNIFORMS) ;;
  samplerMap <- for_fold 0 (Z.to_nat numUniforms) (addUniform drv shaderProgram)
                  samplerMap ;;
  ret (uniformMap, samplerMap).

Definition CreateShaderProgram (drv : Driver) (shaderText : string) : M Z :=
  shaderProgram <- gl_ask (drv_glCreateProgram drv) glCreateProgram ;;
  if shaderProgram =? 0 then
    log [text "Error creating shader program."] ;;
    ret INVALID_HANDLE
  else
    let defineInsertPosition := find shaderText LF (find shaderText "#version" 0) in
    if defineInsertPosition =? npos then
      log [text "Error: Shader program is missing #version directive."] ;;
      ret INVALID_HANDLE
    else
      let defineInsertPosition := wrap64 (defineInsertPosition + 1) in
      let vertexShaderText :=
        insert_at shaderText defineInsertPosition ("#define VERTEX_SHADER_BUILD" ++ LF)%string in
      let fragmentShaderText :=
        insert_at shaderText defineInsertPosition ("#define FRAGMENT_SHADER_BUILD" ++ LF)%string in
      added <- AddShader drv shaderProgram vertexShaderText GL_VERTEX_SHADER [] ;;
      let '(ok, shaders) := added in
      if negb ok then ret INVALID_HANDLE
      else
        added <- AddShader drv shaderProgram fragmentShaderText GL_FRAGMENT_SHADER shaders ;;
        let '(ok, shaders) := added in
        if negb ok then ret INVALID_HANDLE
        else
          gl (glLinkProgram shaderProgram) ;;
          failed <- CheckShaderError drv shaderProgram GL_LINK_STATUS true
                      "Error linking shader program" ;;
          if failed then ret INVALID_HANDLE
          else
            gl (glValidateProgram shaderProgram) ;;
            failed <- CheckShaderError drv shaderProgram GL_VALIDATE_STATUS true
                        "Invalid shader program" ;;
            if failed then ret INVALID_HANDLE
            else
              version <- GetVersion drv ;;
              AddAllAttributes drv shaderProgram version ;;
              maps <- AddShaderUniforms drv shaderProgram ∅ ∅ ;;
              let '(uniformMap, samplerMap) := maps in
              modify (fun d =>
                set_shaderProgramMap
                  (<[shaderProgram := ShaderProgram.mk shaders uniformMap samplerMap]>
                     (shaderProgramMap d)) d) ;;
              ret shaderProgram.

(** [shaderProgramMap[shader].samplerMap[samplerName]]: both [operator[]]
    insert what is missing, an empty program record and location 0. *)
Definition samplerLocation_at (shader : Z) (samplerName : string) : M Z :=
  programs <- get shaderProgramMap ;;
  let program := default ShaderProgram.default (programs !! shader) in
  let location := default 0 (ShaderProgram.samplerMap program !! samplerName) in
  modify (set_shaderProgramMap
            (<[shader := ShaderProgram.mk (ShaderProgram.shaders program)
                           (ShaderProgram.uniformMap program)
                           (<[samplerName := location]> (ShaderProgram.samplerMap program))]>
               programs)) ;;
  ret location.

Definition SetShaderSampler (shader : Z) (samplerName : string) (texture sampler unit_ : Z)
    : M unit :=
  SetShader shader ;;
  gl (glActiveTexture GL_TEXTURE0 unit_) ;;
  gl (glBindTexture GL_TEXTURE_2D texture) ;;
  gl (glBindSampler unit_ sampler) ;;
  location <- samplerLocation_at shader samplerName ;;
  gl (glUniform1i location unit_).

Definition ReleaseShaderProgram (shader : Z) : M Z :=
  if shader =? 0 then ret 0
  else
    programs <- get shaderProgramMap ;;
    match programs !! shader with
    | None => ret 0
    | Some shaderProgram =>
        foldr (fun it rest => gl (glDetachShader shader it) ;; gl (glDeleteShader it) ;; rest)
          (ret tt) (ShaderProgram.shaders shaderProgram) ;;
        gl (glDeleteProgram shader) ;;
        modify (set_shaderProgramMap (delete shader programs)) ;;
        ret 0
    end.

(** * Properties *)

(** ** Reasoning about the trace *)

(** A method only ever appends to the trace; [emits P m] says moreover that
    every call it appends satisfies [P]. *)
Definition emits {A} (P : GLCall -> Prop) (m : M A) : Prop :=
  forall d, exists l, calls (snd (m d)) = calls d ++ l /\ Forall P l.

Definition any_call (c : GLCall) : Prop := True.

Abbreviation extends m := (emits any_call m).

Lemma emitted_intro {A} (m : M A) d l :
  calls (snd (m d)) = calls d ++ l -> emitted m d = l.
Proof. intros H. unfold emitted. rewrite H. apply drop_app_length. Qed.

Lemma emitted_spec {A} P (m : M A) d :
  emits P m -> calls (snd (m d)) = calls d ++ emitted m d.
Proof.
  intros Hm. destruct (Hm d) as (l & Hl & _).
  now rewrite (emitted_intro m d l Hl).
Qed.

Lemma emitted_Forall {A} P (m : M A) d : emits P m -> Forall P (emitted m d).
Proof.
  intros Hm. destruct (Hm d) as (l & Hl & HP).
  now rewrite (emitted_intro m d l Hl).
Qed.

Lemma emits_weaken {A} (P Q : GLCall -> Prop) (m : M A) :
  (forall c, P c -> Q c) -> emits P m -> emits Q m.
Proof.
  intros HPQ Hm d. destruct (Hm d) as (l & Hl & HP).
  exists l. split; [exact Hl | eapply Forall_impl; eauto].
Qed.

Lemma emits_extends {A} P (m : M A) : emits P m -> extends m.
Proof. apply emits_weaken. intros; exact I. Qed.

Section Emits.

Variable P : GLCall -> Prop.

Lemma emits_ret {A} (a : A) : emits P (ret a).
Proof. intros d. exists []. cbn. now rewrite app_nil_r. Qed.

Lemma emits_get {A} (f : Device -> A) : emits P (get f).
Proof. intros d. exists []. cbn. now rewrite app_nil_r. Qed.

Lemma emits_modify f : (forall d, calls (f d) = calls d) -> emits P (modify f).
Proof. intros Hf d. exists []. cbn. now rewrite Hf, app_nil_r. Qed.

Lemma emits_gl c : P c -> emits P (gl c).
Proof. intros Hc d. exists [c]. split; [reflexivity | now constructor]. Qed.

Lemma emits_gl_ask {A} (answer : list GLCall -> A) c : P c -> emits P (gl_ask answer c).
Proof. intros Hc d. exists [c]. split; [reflexivity | now constructor]. Qed.

Lemma emits_log line : emits P (log line).
Proof. intros d. exists []. cbn. now rewrite app_nil_r. Qed.

Lemma emits_bind {A B} (m : M A) (k : A -> M B) :
  emits P m -> (forall a, emits P (k a)) -> emits P (bind m k).
Proof.
  intros Hm Hk d. unfold bind. destruct (Hm d) as (l1 & H1 & P1).
  destruct (m d) as [a d1] eqn:E. cbn in H1.
  destruct (Hk a d1) as (l2 & H2 & P2). exists (l1 ++ l2).
  rewrite H2, H1. split; [now rewrite app_assoc | now apply Forall_app].
Qed.

Lemma emits_when b m : emits P m -> emits P (when b m).
Proof. intros Hm. destruct b; cbn; [exact Hm | apply emits_ret]. Qed.

Lemma emits_for_fold {A} (body : Z -> A -> M A) count :
  (forall i a, emits P (body i a)) -> forall start a, emits P (for_fold start count body a).
Proof.
  intros Hb. induction count as [|n IH]; intros start a; cbn.
  - apply emits_ret.
  - apply emits_bind; [apply Hb | intros a'; apply IH].
Qed.

Lemma emits_for_range (body : Z -> M unit) count :
  (forall i, emits P (body i)) -> forall start, emits P (for_range start count body).
Proof.
  intros Hb. induction count as [|n IH]; intros start; cbn.
  - apply emits_ret.
  - apply emits_bind; [apply Hb | intros _; apply IH].
Qed.

End Emits.

Lemma emitted_bind {A B} (m : M A) (k : A -> M B) d :
  extends m -> (forall a, extends (k a)) ->
  emitted (bind m k) d = emitted m d ++ emitted (k (fst (m d))) (snd (m d)).
Proof.
  intros Hm Hk. apply emitted_intro. unfold bind.
  pose proof (emitted_spec _ m d Hm) as H1.
  destruct (m d) as [a d1]. cbn in *.
  rewrite (emitted_spec _ (k a) d1 (Hk a)), H1. now rewrite app_assoc.
Qed.

Create HintDb trace discriminated.
#[local] Hint Resolve emits_ret emits_get emits_log emits_bind emits_when emits_for_fold
  emits_for_range : trace.
#[local] Hint Extern 1 (emits _ (gl _)) =>
  (apply emits_gl; first [exact I | reflexivity]) : trace.
#[local] Hint Extern 1 (emits _ (gl_ask _ _)) =>
  (apply emits_gl_ask; first [exact I | reflexivity]) : trace.
#[local] Hint Extern 1 (emits _ (modify _)) =>
  (apply emits_modify; intros []; reflexivity) : trace.
#[local] Hint Extern 2 (emits _ (if ?b then _ else _)) => destruct b : trace.
#[local] Hint Extern 2 (emits _ (match ?o with Some _ => _ | None => _ end)) =>
  destruct o : trace.
#[local] Hint Extern 2 (emits _ (let (_, _) := ?p in _)) => destruct p : trace.

Ltac emits_of f := unfold f; intros; eauto 30 with trace.

(** The two calls that draw. *)
Definition is_draw (c : GLCall) : bool :=
  match c with
  | glDrawElements _ _ _ _ | glDrawElementsInstanced _ _ _ _ _ => true
  | _ => false
  end.

Definition state_call (c : GLCall) : Prop := is_draw c = false.

Lemma SetFBO_emits fbo : emits state_call (SetFBO fbo).
Proof. emits_of SetFBO. Qed.

Lemma fboMap_at_emits fbo : emits state_call (fboMap_at fbo).
Proof. emits_of fboMap_at. Qed.

Lemma SetViewport_emits fbo : emits state_call (SetViewport fbo).
Proof. pose proof fboMap_at_emits. emits_of SetViewport. Qed.

Lemma SetVAO_emits vao : emits state_call (SetVAO vao).
Proof. emits_of SetVAO. Qed.

Lemma SetShader_emits shader : emits state_call (SetShader shader).
Proof. emits_of SetShader. Qed.

Lemma SetBlending_emits s t : emits state_call (SetBlending s t).
Proof. emits_of SetBlending. Qed.

Lemma SetScissorTest_emits e x y w h : emits state_call (SetScissorTest e x y w h).
Proof. emits_of SetScissorTest. Qed.

Lemma SetFaceCulling_emits f : emits state_call (SetFaceCulling f).
Proof. emits_of SetFaceCulling. Qed.

Lemma SetDepthTest_emits b f : emits state_call (SetDepthTest b f).
Proof. emits_of SetDepthTest. Qed.

Lemma SetDrawParameters_emits dp : emits state_call (SetDrawParameters dp).
Proof.
  pose proof SetBlending_emits. pose proof SetScissorTest_emits.
  pose proof SetFaceCulling_emits. pose proof SetDepthTest_emits.
  emits_of SetDrawParameters.
Qed.

(** ** What each state-cache operation emits *)

Ltac run :=
  unfold bind, ret, get, modify, gl, gl_ask, log, when; cbn -[Z.eqb Z.leb Z.ltb].

(** For a comparison of a cached value with itself. *)
Ltac cached :=
  run; repeat (progress (rewrite ?Z.eqb_refl, ?Bool.eqb_reflx; run)); try reflexivity.

Lemma SetFBO_emitted fbo d :
  emitted (SetFBO fbo) d =
  if fbo =? boundFBO d then [] else [glBindFramebuffer GL_FRAMEBUFFER fbo].
Proof.
  apply emitted_intro. unfold SetFBO. run.
  destruct (fbo =? boundFBO d); cbn; now rewrite ?app_nil_r.
Qed.

Lemma SetVAO_emitted vao d :
  emitted (SetVAO vao) d = if vao =? boundVAO d then [] else [glBindVertexArray vao].
Proof.
  apply emitted_intro. unfold SetVAO. run.
  destruct (vao =? boundVAO d); cbn; now rewrite ?app_nil_r.
Qed.

Lemma SetShader_emitted shader d :
  emitted (SetShader shader) d =
  if shader =? boundShader d then [] else [glUseProgram shader].
Proof.
  apply emitted_intro. unfold SetShader. run.
  destruct (shader =? boundShader d); cbn; now rewrite ?app_nil_r.
Qed.

Lemma SetViewport_emitted fbo d :
  emitted (SetViewport fbo) d =
  let data := default FBOData.default (fboMap d !! fbo) in
  if (fbo =? viewportFBO d) && (FBOData.width data =? viewportWidth d)
     && (FBOData.height data =? viewportHeight d)
  then [] else [glViewport 0 0 (FBOData.width data) (FBOData.height data)].
Proof.
  apply emitted_intro. unfold SetViewport, fboMap_at. run.
  destruct (fboMap d !! fbo) as [data|]; cbn;
    match goal with |- context [if ?c then _ else _] => destruct c end;
    cbn; now rewrite ?app_nil_r.
Qed.

(** ** Repeating a [Set] with the cached values *)

Definition is_pixel_store (c : GLCall) : bool :=
  match c with
  | glPixelStorei _ _ => true
  | _ => false
  end.

Lemma SetPixelAlignment_cached d :
  SetPixelAlignment (currentPackAlignment d) (currentUnpackAlignment d) d = (tt, d).
Proof. unfold SetPixelAlignment. cached. Qed.

(** The two format switches write to the log at most. *)
Lemma formats_frame dataFormat internalFormat compress d :
  set_cerr (cerr d)
    (snd (GetOpenGLInternalFormat internalFormat compress
            (snd (GetOpenGLFormat dataFormat d)))) = d.
Proof. destruct dataFormat, internalFormat, compress, d; reflexivity. Qed.

(** C3 (as amended). A [Set] called with the values the cache holds returns
    at once: the device, its trace included, is what it was. This covers the
    bound framebuffer, vertex array and shader, face culling, the depth test,
    blending, the stencil test and its write mask, and the two pixel-store
    alignments at the head of [CreateTexture2D], which then emits no
    [glPixelStorei] and changes nothing but the trace and the log. The
    scissor test is the exception: only its flag is cached, so a call with
    [enable] equal to the flag does nothing when the flag is off, and when it
    is on leaves the cache as it was but emits [glScissor] again. *)
Theorem Set_with_cached_values (d : Device) :
  SetFBO (boundFBO d) d = (tt, d)
  /\ SetVAO (boundVAO d) d = (tt, d)
  /\ SetShader (boundShader d) d = (tt, d)
  /\ SetFaceCulling (currentFaceCulling d) d = (tt, d)
  /\ SetDepthTest (shouldWriteDepth d) (currentDepthFunc d) d = (tt, d)
  /\ SetBlending (currentSourceBlend d) (currentDestBlend d) d = (tt, d)
  /\ SetStencilTest (stencilTestEnabled d) (currentStencilFunc d) (currentStencilTestMask d)
       (currentStencilWriteMask d) (currentStencilComparisonVal d) (currentStencilFail d)
       (currentStencilPassButDepthFail d) (currentStencilPass d) d = (tt, d)
  /\ SetStencilWriteMask (currentStencilWriteMask d) d = (tt, d)
  /\ (forall drv width height data dataFormat internalFormat generateMipmaps compress,
        let create :=
          CreateTexture2D drv width height data dataFormat internalFormat generateMipmaps
            compress (currentPackAlignment d) (currentUnpackAlignment d) in
        set_cerr (cerr d) (set_calls (calls d) (snd (create d))) = d
        /\ List.filter is_pixel_store (emitted create d) = [])
  /\ (forall startX startY width height,
        SetScissorTest (scissorTestEnabled d) startX startY width height d =
        (tt, if scissorTestEnabled d
             then set_calls (calls d ++ [glScissor startX startY width height]) d
             else d)).
Proof.
  repeat apply conj; try (intros drv width height data dataFormat internalFormat
                            generateMipmaps compress create; subst create; split).
  - unfold SetFBO. cached.
  - unfold SetVAO. cached.
  - unfold SetShader. cached.
  - unfold SetFaceCulling. cached.
  - unfold SetDepthTest. cached.
  - unfold SetBlending. cached.
  - unfold SetStencilTest, SetStencilWriteMask. cached.
  - unfold SetStencilWriteMask. cached.
  - pose proof (formats_frame dataFormat internalFormat compress d) as Hd.
    unfold CreateTexture2D, bind at 1 2.
    destruct (GetOpenGLFormat dataFormat d) as [format d1]. cbn [snd] in Hd.
    destruct (GetOpenGLInternalFormat internalFormat compress d1) as [iformat d2].
    cbn [snd] in Hd.
    assert (Hp : currentPackAlignment d = currentPackAlignment d2)
      by (apply (f_equal currentPackAlignment) in Hd; exact (eq_sym Hd)).
    assert (Hu : currentUnpackAlignment d = currentUnpackAlignment d2)
      by (apply (f_equal currentUnpackAlignment) in Hd; exact (eq_sym Hd)).
    rewrite Hp, Hu. unfold bind at 1. rewrite SetPixelAlignment_cached.
    destruct generateMipmaps, d, d2; cbn in *; inversion Hd; subst; reflexivity.
  - pose proof (formats_frame dataFormat internalFormat compress d) as Hd.
    unfold emitted, CreateTexture2D, bind at 1 2.
    destruct (GetOpenGLFormat dataFormat d) as [format d1]. cbn [snd] in Hd.
    destruct (GetOpenGLInternalFormat internalFormat compress d1) as [iformat d2].
    cbn [snd] in Hd.
    assert (Hp : currentPackAlignment d = currentPackAlignment d2)
      by (apply (f_equal currentPackAlignment) in Hd; exact (eq_sym Hd)).
    assert (Hu : currentUnpackAlignment d = currentUnpackAlignment d2)
      by (apply (f_equal currentUnpackAlignment) in Hd; exact (eq_sym Hd)).
    assert (Hc : calls d = calls d2)
      by (apply (f_equal calls) in Hd; exact (eq_sym Hd)).
    rewrite Hp, Hu, Hc. unfold bind at 1. rewrite SetPixelAlignment_cached.
    destruct generateMipmaps; run; rewrite <- !app_assoc, drop_app_length; reflexivity.
  - intros startX startY width height. unfold SetScissorTest. run.
    destruct (scissorTestEnabled d) eqn:E; cbn; [|reflexivity].
    destruct d; cbn in *; subst; reflexivity.
Qed.

(** ** Reasoning about what a method leaves alone *)

Definition preserves {A B} (f : Device -> B) (m : M A) : Prop :=
  forall d, f (snd (m d)) = f d.

Section Preserves.

Context {B : Type} (f : Device -> B).

Lemma preserves_ret {A} (a : A) : preserves f (ret a).
Proof. intros d. reflexivity. Qed.

Lemma preserves_get {A} (g : Device -> A) : preserves f (get g).
Proof. intros d. reflexivity. Qed.

Lemma preserves_modify g : (forall d, f (g d) = f d) -> preserves f (modify g).
Proof. intros Hg d. apply Hg. Qed.

Lemma preserves_gl_ask {A} (answer : list GLCall -> A) c :
  (forall l d, f (set_calls l d) = f d) -> preserves f (gl_ask answer c).
Proof. intros Hf d. apply Hf. Qed.

Lemma preserves_bind {A C} (m : M A) (k : A -> M C) :
  preserves f m -> (forall a, preserves f (k a)) -> preserves f (bind m k).
Proof.
  intros Hm Hk d. unfold bind. specialize (Hm d).
  destruct (m d) as [a d1]. cbn in Hm. now rewrite Hk.
Qed.

Lemma preserves_when b m : preserves f m -> preserves f (when b m).
Proof. intros Hm. destruct b; cbn; [exact Hm | apply preserves_ret]. Qed.

End Preserves.

#[local] Hint Resolve preserves_ret preserves_get preserves_bind preserves_when : trace.
#[local] Hint Extern 1 (preserves _ (modify _)) =>
  (apply preserves_modify; intros []; reflexivity) : trace.
#[local] Hint Extern 1 (preserves _ (gl _)) =>
  (apply preserves_modify; intros []; reflexivity) : trace.
#[local] Hint Extern 1 (preserves _ (log _)) =>
  (apply preserves_modify; intros []; reflexivity) : trace.
#[local] Hint Extern 1 (preserves _ (gl_ask _ _)) =>
  (apply preserves_gl_ask; intros ? []; reflexivity) : trace.
#[local] Hint Extern 2 (preserves _ (if ?b then _ else _)) => destruct b : trace.

Lemma SetFBO_fboMap fbo : preserves fboMap (SetFBO fbo).
Proof. emits_of SetFBO. Qed.

Lemma SetVAO_fboMap vao : preserves fboMap (SetVAO vao).
Proof. emits_of SetVAO. Qed.

Lemma SetShader_fboMap shader : preserves fboMap (SetShader shader).
Proof. emits_of SetShader. Qed.

Lemma SetDrawParameters_fboMap dp : preserves fboMap (SetDrawParameters dp).
Proof.
  unfold SetDrawParameters, SetBlending, SetScissorTest, SetFaceCulling, SetDepthTest.
  eauto 40 with trace.
Qed.

(** ** Render targets *)

Lemma UpdateRenderTarget_spec fbo width height d :
  UpdateRenderTarget fbo width height d =
  (tt, set_fboMap (<[0 := FBOData.mk width height]> (fboMap d)) d).
Proof.
  unfold UpdateRenderTarget, fboMap_at. run.
  destruct (fboMap d !! 0) as [data|] eqn:E; cbn;
    rewrite ?lookup_insert_eq; cbn; rewrite ?lookup_insert_eq; cbn;
    unfold set_fboMap; cbn; now rewrite ?insert_insert_eq.
Qed.

(** C4. Whatever handle is passed, [UpdateRenderTarget] stores the width and
    the height in the record of handle 0; the record of every other handle
    [k] (the handle passed among them, when it is not 0) is what it was, and
    so is the rest of the device: no call reaches the driver. *)
Theorem UpdateRenderTarget_writes_default (fbo width height k : Z) (d : Device) :
  k <> 0 ->
  let d' := snd (UpdateRenderTarget fbo width height d) in
  fboMap d' !! 0 = Some (FBOData.mk width height)
  /\ fboMap d' !! k = fboMap d !! k
  /\ d' = set_fboMap (fboMap d') d
  /\ emitted (UpdateRenderTarget fbo width height) d = [].
Proof.
  intros Hk d'. subst d'. rewrite UpdateRenderTarget_spec. cbn.
  repeat apply conj.
  - apply lookup_insert_eq.
  - now apply lookup_insert_ne.
  - reflexivity.
  - apply emitted_intro. rewrite UpdateRenderTarget_spec. cbn. now rewrite app_nil_r.
Qed.

(** C2 (as amended). With handle 0, [UpdateVertexArrayBuffer] and each of
    the six [Release] operations return at once: nothing is sent to the
    driver and the device is what it was ([Release] returns 0).
    [UpdateRenderTarget] with handle 0 sends nothing to the driver either,
    but it does write the record of handle 0. *)
Theorem handle_zero_operations (d : Device) (bufferIndex : Z) (data : Ptr)
    (dataSize width height : Z) :
  UpdateVertexArrayBuffer 0 bufferIndex data dataSize d = Some (tt, d)
  /\ ReleaseRenderTarget 0 d = (0, d)
  /\ ReleaseVertexArray 0 d = (0, d)
  /\ ReleaseSampler 0 d = (0, d)
  /\ ReleaseTexture2D 0 d = (0, d)
  /\ ReleaseUniformBuffer 0 d = (0, d)
  /\ ReleaseShaderProgram 0 d = (0, d)
  /\ UpdateRenderTarget 0 width height d =
     (tt, set_fboMap (<[0 := FBOData.mk width height]> (fboMap d)) d).
Proof.
  repeat apply conj; try reflexivity. apply UpdateRenderTarget_spec.
Qed.

(** ** What the settings send and leave in the cache *)

(** What each binding or setting leaves in the cache, whichever branch it
    took. *)
Lemma SetFBO_effect fbo d :
  exists l, snd (SetFBO fbo d) = set_boundFBO fbo (set_calls l d).
Proof.
  unfold SetFBO. run. destruct (Z.eqb_spec fbo (boundFBO d)) as [->|];
    [exists (calls d); destruct d | eexists]; reflexivity.
Qed.

Lemma SetVAO_effect vao d :
  exists l, snd (SetVAO vao d) = set_boundVAO vao (set_calls l d).
Proof.
  unfold SetVAO. run. destruct (Z.eqb_spec vao (boundVAO d)) as [->|];
    [exists (calls d); destruct d | eexists]; reflexivity.
Qed.

Lemma SetShader_effect shader d :
  exists l, snd (SetShader shader d) = set_boundShader shader (set_calls l d).
Proof.
  unfold SetShader. run. destruct (Z.eqb_spec shader (boundShader d)) as [->|];
    [exists (calls d); destruct d | eexists]; reflexivity.
Qed.

Lemma SetViewport_effect fbo d :
  let target := default FBOData.default (fboMap d !! fbo) in
  exists l,
    snd (SetViewport fbo d) =
    set_viewportHeight (FBOData.height target)
      (set_viewportWidth (FBOData.width target)
         (set_viewportFBO fbo (set_fboMap (<[fbo := target]> (fboMap d)) (set_calls l d)))).
Proof.
  cbn zeta. unfold SetViewport, fboMap_at. run.
  destruct (fboMap d !! fbo) as [data|] eqn:Hdata; cbn -[Z.eqb];
    match goal with |- context [if ?c then _ else _] => destruct c eqn:E end;
    cbn -[Z.eqb]; rewrite ?(insert_id _ _ _ Hdata);
    try (eexists; reflexivity);
    exists (calls d);
    apply andb_prop in E as [E E3]; apply andb_prop in E as [E1 E2];
    apply Z.eqb_eq in E1, E2, E3; destruct d; cbn in *; subst; reflexivity.
Qed.

Lemma SetBlending_effect sourceBlend destinationBlend d :
  exists l,
    snd (SetBlending sourceBlend destinationBlend d) =
    set_currentDestBlend destinationBlend (set_currentSourceBlend sourceBlend (set_calls l d)).
Proof.
  unfold SetBlending. run.
  destruct ((sourceBlend =? currentSourceBlend d) && (destinationBlend =? currentDestBlend d))
    eqn:E.
  - apply andb_prop in E as [E1 E2]. apply Z.eqb_eq in E1, E2. subst.
    exists (calls d). destruct d; reflexivity.
  - destruct ((sourceBlend =? BLEND_FUNC_NONE) || (destinationBlend =? BLEND_FUNC_NONE));
      [|destruct ((currentSourceBlend d =? BLEND_FUNC_NONE)
                  || (currentDestBlend d =? BLEND_FUNC_NONE))];
      eexists; reflexivity.
Qed.

Lemma SetScissorTest_effect enable startX startY width height d :
  exists l,
    snd (SetScissorTest enable startX startY width height d) =
    set_scissorTestEnabled enable (set_calls l d).
Proof.
  unfold SetScissorTest. run.
  destruct enable, (scissorTestEnabled d) eqn:E; cbn;
    try (eexists; reflexivity);
    exists (calls d); destruct d; cbn in *; subst; reflexivity.
Qed.

Lemma SetFaceCulling_effect faceCulling d :
  exists l,
    snd (SetFaceCulling faceCulling d) =
    set_currentFaceCulling faceCulling (set_calls l d).
Proof.
  unfold SetFaceCulling. run.
  destruct (Z.eqb_spec faceCulling (currentFaceCulling d)) as [->|].
  - exists (calls d). destruct d; reflexivity.
  - destruct (faceCulling =? FACE_CULL_NONE);
      [|destruct (currentFaceCulling d =? FACE_CULL_NONE)]; eexists; reflexivity.
Qed.

Lemma SetDepthTest_effect shouldWrite depthFunc d :
  exists l,
    snd (SetDepthTest shouldWrite depthFunc d) =
    set_currentDepthFunc depthFunc (set_shouldWriteDepth shouldWrite (set_calls l d)).
Proof.
  exists (calls (snd (SetDepthTest shouldWrite depthFunc d))).
  unfold SetDepthTest. run.
  destruct shouldWrite, (shouldWriteDepth d) eqn:E1; cbn -[Z.eqb];
    destruct (Z.eqb_spec depthFunc (currentDepthFunc d)) as [->|]; cbn;
    destruct d; cbn in *; subst; reflexivity.
Qed.

Lemma seq_snd {A B} (m : M A) (k : M B) d : snd ((m ;; k) d) = snd (k (snd (m d))).
Proof. unfold bind. now destruct (m d). Qed.

Lemma SetDrawParameters_emitted dp d :
  let d1 := snd (SetBlending (dp_sourceBlend dp) (dp_destBlend dp) d) in
  let d2 := snd (SetScissorTest (dp_useScissorTest dp) (dp_scissorStartX dp)
                   (dp_scissorStartY dp) (dp_scissorWidth dp) (dp_scissorHeight dp) d1) in
  let d3 := snd (SetFaceCulling (dp_faceCulling dp) d2) in
  emitted (SetDrawParameters dp) d =
  emitted (SetBlending (dp_sourceBlend dp) (dp_destBlend dp)) d
  ++ emitted (SetScissorTest (dp_useScissorTest dp) (dp_scissorStartX dp)
                (dp_scissorStartY dp) (dp_scissorWidth dp) (dp_scissorHeight dp)) d1
  ++ emitted (SetFaceCulling (dp_faceCulling dp)) d2
  ++ emitted (SetDepthTest (dp_shouldWriteDepth dp) (dp_depthFunc dp)) d3.
Proof.
  pose proof SetBlending_emits as B. pose proof SetScissorTest_emits as S.
  pose proof SetFaceCulling_emits as F. pose proof SetDepthTest_emits as D.
  cbn zeta. unfold SetDrawParameters.
  rewrite emitted_bind by (intros; eauto using emits_extends with trace).
  rewrite emitted_bind by (intros; eauto using emits_extends with trace).
  rewrite emitted_bind by (intros; eauto using emits_extends with trace).
  reflexivity.
Qed.

Lemma SetDrawParameters_snd dp d :
  snd (SetDrawParameters dp d) =
  snd (SetDepthTest (dp_shouldWriteDepth dp) (dp_depthFunc dp)
         (snd (SetFaceCulling (dp_faceCulling dp)
                 (snd (SetScissorTest (dp_useScissorTest dp) (dp_scissorStartX dp)
                         (dp_scissorStartY dp) (dp_scissorWidth dp) (dp_scissorHeight dp)
                         (snd (SetBlending (dp_sourceBlend dp) (dp_destBlend dp) d))))))).
Proof. unfold SetDrawParameters. now rewrite !seq_snd. Qed.

Lemma SetBlending_emitted sourceBlend destinationBlend d :
  emitted (SetBlending sourceBlend destinationBlend) d =
  blending_calls (currentSourceBlend d) (currentDestBlend d) sourceBlend destinationBlend.
Proof.
  apply emitted_intro. unfold SetBlending, blending_calls. run.
  destruct ((sourceBlend =? currentSourceBlend d) && (destinationBlend =? currentDestBlend d));
    [cbn; now rewrite app_nil_r|].
  destruct ((sourceBlend =? BLEND_FUNC_NONE) || (destinationBlend =? BLEND_FUNC_NONE));
    [reflexivity|].
  destruct ((currentSourceBlend d =? BLEND_FUNC_NONE)
            || (currentDestBlend d =? BLEND_FUNC_NONE)); cbn; now rewrite <- ?app_assoc.
Qed.

Lemma SetScissorTest_emitted enable startX startY width height d :
  emitted (SetScissorTest enable startX startY width height) d =
  scissor_calls (scissorTestEnabled d) enable startX startY width height.
Proof.
  apply emitted_intro. unfold SetScissorTest, scissor_calls. run.
  destruct enable, (scissorTestEnabled d); cbn; now rewrite <- ?app_assoc, ?app_nil_r.
Qed.

Lemma SetFaceCulling_emitted faceCulling d :
  emitted (SetFaceCulling faceCulling) d =
  culling_calls (currentFaceCulling d) faceCulling.
Proof.
  apply emitted_intro. unfold SetFaceCulling, culling_calls. run.
  destruct (faceCulling =? currentFaceCulling d); [cbn; now rewrite app_nil_r|].
  destruct (faceCulling =? FACE_CULL_NONE); [reflexivity|].
  destruct (currentFaceCulling d =? FACE_CULL_NONE); cbn; now rewrite <- ?app_assoc.
Qed.

Lemma SetDepthTest_emitted shouldWrite depthFunc d :
  emitted (SetDepthTest shouldWrite depthFunc) d =
  depth_calls (shouldWriteDepth d) (currentDepthFunc d) shouldWrite depthFunc.
Proof.
  apply emitted_intro. unfold SetDepthTest, depth_calls. run.
  destruct shouldWrite, (shouldWriteDepth d); cbn -[Z.eqb];
    destruct (depthFunc =? currentDepthFunc d); cbn;
    now rewrite <- ?app_assoc, ?app_nil_r.
Qed.

(** The steps of a draw: what each sends, read off the cache the draw starts
    from, and the device before the draw call. *)
Lemma Draw_steps fbo shader vao p d :
  let d1 := snd (SetFBO fbo d) in
  let d2 := snd (SetViewport fbo d1) in
  let b1 := snd (SetBlending (dp_sourceBlend p) (dp_destBlend p) d2) in
  let b2 := snd (SetScissorTest (dp_useScissorTest p) (dp_scissorStartX p)
                   (dp_scissorStartY p) (dp_scissorWidth p) (dp_scissorHeight p) b1) in
  let b3 := snd (SetFaceCulling (dp_faceCulling p) b2) in
  let d3 := snd (SetDrawParameters p d2) in
  let d4 := snd (SetShader shader d3) in
  let d5 := snd (SetVAO vao d4) in
  emitted (SetFBO fbo) d = framebuffer_calls (boundFBO d) fbo
  /\ emitted (SetViewport fbo) d1
     = viewport_calls (viewportFBO d) (viewportWidth d) (viewportHeight d) fbo
         (default FBOData.default (fboMap d !! fbo))
  /\ emitted (SetBlending (dp_sourceBlend p) (dp_destBlend p)) d2
     = blending_calls (currentSourceBlend d) (currentDestBlend d)
         (dp_sourceBlend p) (dp_destBlend p)
  /\ emitted (SetScissorTest (dp_useScissorTest p) (dp_scissorStartX p)
                (dp_scissorStartY p) (dp_scissorWidth p) (dp_scissorHeight p)) b1
     = scissor_calls (scissorTestEnabled d) (dp_useScissorTest p) (dp_scissorStartX p)
         (dp_scissorStartY p) (dp_scissorWidth p) (dp_scissorHeight p)
  /\ emitted (SetFaceCulling (dp_faceCulling p)) b2
     = culling_calls (currentFaceCulling d) (dp_faceCulling p)
  /\ emitted (SetDepthTest (dp_shouldWriteDepth p) (dp_depthFunc p)) b3
     = depth_calls (shouldWriteDepth d) (currentDepthFunc d)
         (dp_shouldWriteDepth p) (dp_depthFunc p)
  /\ emitted (SetShader shader) d3 = program_calls (boundShader d) shader
  /\ emitted (SetVAO vao) d4 = vertex_array_calls (boundVAO d) vao
  /\ d5 = drawn fbo shader vao p (calls d5) d.
Proof.
  intros d1 d2 b1 b2 b3 d3 d4 d5.
  destruct (SetFBO_effect fbo d) as [l1 H1]. fold d1 in H1.
  destruct (SetViewport_effect fbo d1) as [l2 H2]. cbn zeta in H2. fold d2 in H2.
  destruct (SetBlending_effect (dp_sourceBlend p) (dp_destBlend p) d2) as [l3 H3].
  fold b1 in H3.
  destruct (SetScissorTest_effect (dp_useScissorTest p) (dp_scissorStartX p)
              (dp_scissorStartY p) (dp_scissorWidth p) (dp_scissorHeight p) b1) as [l4 H4].
  fold b2 in H4.
  destruct (SetFaceCulling_effect (dp_faceCulling p) b2) as [l5 H5]. fold b3 in H5.
  destruct (SetDepthTest_effect (dp_shouldWriteDepth p) (dp_depthFunc p) b3) as [l6 H6].
  assert (H6' : d3 = snd (SetDepthTest (dp_shouldWriteDepth p) (dp_depthFunc p) b3))
    by apply SetDrawParameters_snd.
  rewrite <- H6' in H6. clear H6'.
  destruct (SetShader_effect shader d3) as [l7 H7]. fold d4 in H7.
  destruct (SetVAO_effect vao d4) as [l8 H8]. fold d5 in H8.
  rewrite SetFBO_emitted, SetViewport_emitted, SetBlending_emitted, SetScissorTest_emitted,
    SetFaceCulling_emitted, SetDepthTest_emitted, SetShader_emitted, SetVAO_emitted.
  cbn zeta.
  clearbody d1 d2 b1 b2 b3 d3 d4 d5. subst d5 d4 d3 b3 b2 b1 d2 d1.
  unfold framebuffer_calls, program_calls, vertex_array_calls, drawn.
  repeat apply conj; destruct d; fields; reflexivity.
Qed.

Lemma Draw_effect fbo shader vao dp numInstances numElements d :
  numInstances <> 0 ->
  exists l, snd (Draw fbo shader vao dp numInstances numElements d)
            = drawn fbo shader vao dp l d.
Proof.
  intros Hn. unfold Draw.
  destruct (Z.eqb_spec numInstances 0) as [|_]; [contradiction|].
  rewrite !seq_snd.
  destruct (Draw_steps fbo shader vao dp d) as (_ & _ & _ & _ & _ & _ & _ & _ & H).
  cbn zeta in H. rewrite H.
  destruct (numInstances =? 1); eexists; unfold gl, modify, drawn; cbn [snd];
    destruct d; fields; reflexivity.
Qed.

Lemma Draw_emitted fbo shader vao p numInstances numElements d :
  numInstances <> 0 ->
  emitted (Draw fbo shader vao p numInstances numElements) d
  = Draw_calls fbo shader vao p numInstances numElements d.
Proof.
  intros Hn. unfold Draw, Draw_calls.
  destruct (Z.eqb_spec numInstances 0) as [|_]; [contradiction|].
  pose proof SetFBO_emits as F. pose proof SetViewport_emits as V.
  pose proof SetDrawParameters_emits as P. pose proof SetShader_emits as S.
  pose proof SetVAO_emits as A.
  destruct (Draw_steps fbo shader vao p d) as (H1 & H2 & H3 & H4 & H5 & H6 & H7 & H8 & _).
  cbn zeta in *.
  rewrite emitted_bind by (intros; eauto 20 using emits_extends with trace).
  rewrite emitted_bind by (intros; eauto 20 using emits_extends with trace).
  rewrite emitted_bind by (intros; eauto 20 using emits_extends with trace).
  rewrite emitted_bind by (intros; eauto 20 using emits_extends with trace).
  rewrite emitted_bind by (intros; eauto 20 using emits_extends with trace).
  rewrite SetDrawParameters_emitted. cbn zeta.
  rewrite H1, H2, H3, H4, H5, H6, H7, H8, <- !app_assoc.
  do 8 f_equal. unfold draw_call.
  destruct (numInstances =? 1); (apply emitted_intro; reflexivity).
Qed.

(** ** The viewport of a target that has no record *)

Lemma SetViewport_fboMap fbo d :
  fboMap (snd (SetViewport fbo d)) =
  match fboMap d !! fbo with
  | Some _ => fboMap d
  | None => <[fbo := FBOData.default]> (fboMap d)
  end.
Proof.
  unfold SetViewport, fboMap_at. run.
  destruct (fboMap d !! fbo) as [data|]; cbn;
    match goal with |- context [if ?c then _ else _] => destruct c end; reflexivity.
Qed.

Lemma Draw_fboMap fbo shader vao dp numInstances numElements d :
  fboMap (snd (Draw fbo shader vao dp numInstances numElements d)) =
  if numInstances =? 0 then fboMap d else fboMap (snd (SetViewport fbo d)).
Proof.
  unfold Draw. destruct (numInstances =? 0); [reflexivity|].
  assert (Hrest : forall d2,
    fboMap (snd ((SetDrawParameters dp ;; SetShader shader ;; SetVAO vao ;;
                  if numInstances =? 1
                  then gl (glDrawElements (dp_primitiveType dp) (to_int32 numElements)
                             GL_UNSIGNED_INT 0)
                  else gl (glDrawElementsInstanced (dp_primitiveType dp)
                             (to_int32 numElements) GL_UNSIGNED_INT 0 numInstances)) d2))
    = fboMap d2).
  { pose proof SetDrawParameters_fboMap. pose proof SetShader_fboMap.
    pose proof SetVAO_fboMap.
    assert (Hp : preserves fboMap
      (SetDrawParameters dp ;; SetShader shader ;; SetVAO vao ;;
       if numInstances =? 1
       then gl (glDrawElements (dp_primitiveType dp) (to_int32 numElements)
                  GL_UNSIGNED_INT 0)
       else gl (glDrawElementsInstanced (dp_primitiveType dp) (to_int32 numElements)
                  GL_UNSIGNED_INT 0 numInstances)))
      by eauto 20 with trace.
    exact Hp. }
  unfold bind at 1 2.
  pose proof (SetFBO_fboMap fbo d) as H1.
  destruct (SetFBO fbo d) as [[] d1]. cbn in H1.
  pose proof (SetViewport_fboMap fbo d1) as H2.
  pose proof (SetViewport_fboMap fbo d) as H3.
  destruct (SetViewport fbo d1) as [[] d2]. cbn in H2.
  rewrite Hrest, H2, H3, H1. reflexivity.
Qed.

(** Goes through the cases of a list of calls given by tests. *)
Ltac cases :=
  repeat match goal with |- context [if ?c then _ else _] => destruct c end;
  repeat constructor.

(** C10 (as amended). For a handle with no record in the registry,
    [SetViewport] inserts a record of 0 by 0 for it. It emits
    [glViewport(0, 0, 0, 0)] unless the cached viewport is already that of
    this handle at 0 by 0, in which case nothing is emitted; either way the
    cached viewport is this handle at 0 by 0 afterwards. [Draw] on such a
    handle with an instance count other than 0 does the same: it leaves the
    same record behind, the viewport calls among those it sends are that one
    [glViewport(0, 0, 0, 0)] or none, by the same test on the cache, and the
    cached viewport is this handle at 0 by 0 afterwards. With an instance
    count of 0 it returns the device as it was. *)
Theorem SetViewport_unregistered (fbo : Z) (d : Device) :
  fboMap d !! fbo = None ->
  let d' := snd (SetViewport fbo d) in
  let sent :=
    if (fbo =? viewportFBO d) && (0 =? viewportWidth d) && (0 =? viewportHeight d)
    then [] else [glViewport 0 0 0 0] in
  fboMap d' = <[fbo := FBOData.mk 0 0]> (fboMap d)
  /\ emitted (SetViewport fbo) d = sent
  /\ (viewportFBO d', viewportWidth d', viewportHeight d') = (fbo, 0, 0)
  /\ forall shader vao drawParameters numInstances numElements,
       let draw_ := Draw fbo shader vao drawParameters numInstances numElements in
       let d'' := snd (draw_ d) in
       if numInstances =? 0 then draw_ d = (tt, d)
       else fboMap d'' = <[fbo := FBOData.mk 0 0]> (fboMap d)
            /\ List.filter is_viewport (emitted draw_ d) = sent
            /\ (viewportFBO d'', viewportWidth d'', viewportHeight d'') = (fbo, 0, 0).
Proof.
  intros Hnone d' sent. subst d' sent.
  assert (Hmap : fboMap (snd (SetViewport fbo d)) = <[fbo := FBOData.mk 0 0]> (fboMap d))
    by (rewrite SetViewport_fboMap, Hnone; reflexivity).
  repeat apply conj.
  - exact Hmap.
  - rewrite SetViewport_emitted, Hnone. reflexivity.
  - unfold SetViewport, fboMap_at. run. rewrite Hnone. run.
    destruct (fbo =? viewportFBO d) eqn:E1; [|reflexivity].
    destruct (0 =? viewportWidth d) eqn:E2; [|reflexivity].
    destruct (0 =? viewportHeight d) eqn:E3; [|reflexivity].
    apply Z.eqb_eq in E1, E2, E3. cbn. now rewrite <- E1, <- E2, <- E3.
  - intros shader vao p numInstances numElements. cbn zeta.
    destruct (Z.eqb_spec numInstances 0) as [->|Hn]; [reflexivity|].
    destruct (Draw_effect fbo shader vao p numInstances numElements d Hn) as [l Hl].
    rewrite Hl, (Draw_emitted fbo shader vao p numInstances numElements d Hn).
    unfold drawn. rewrite Hnone. repeat apply conj.
    + destruct d; reflexivity.
    + unfold Draw_calls. rewrite Hnone, !List.filter_app.
      assert (quiet : forall l', Forall (fun c => is_viewport c = false) l' ->
                                 List.filter is_viewport l' = []).
      { induction 1 as [|c l' Hc _ IH]; cbn; [reflexivity | now rewrite Hc]. }
      rewrite (quiet (framebuffer_calls _ _)) by (unfold framebuffer_calls; cases).
      rewrite (quiet (blending_calls _ _ _ _)) by (unfold blending_calls; cases).
      rewrite (quiet (scissor_calls _ _ _ _ _ _)) by (unfold scissor_calls; cases).
      rewrite (quiet (culling_calls _ _)) by (unfold culling_calls; cases).
      rewrite (quiet (depth_calls _ _ _ _)) by (unfold depth_calls; cases).
      rewrite (quiet (program_calls _ _)) by (unfold program_calls; cases).
      rewrite (quiet (vertex_array_calls _ _)) by (unfold vertex_array_calls; cases).
      rewrite (quiet [draw_call _ _ _]) by (unfold draw_call; cases).
      rewrite app_nil_r. unfold viewport_calls. cbn -[Z.eqb].
      now destruct ((fbo =? viewportFBO d) && (0 =? viewportWidth d)
                    && (0 =? viewportHeight d)).
    + destruct d; reflexivity.
Qed.

(** ** The draw dispatcher *)

(** C8. With an instance count of 0, [Draw] returns at once: nothing is
    sent to the driver and the device (cache, registries, trace) is what it
    was. Otherwise it binds the target, sets the viewport, applies the draw
    parameters (blending, scissor, face culling, depth, in that order), binds
    the shader and binds the vertex array, and then sends exactly one draw
    call, the last call of all: [glDrawElements] when the count is 1,
    [glDrawElementsInstanced] with the count otherwise. Each of the eight
    steps sends the transition from what the cache held when [Draw] was
    called to what was asked for (the bind of the target, program or vertex
    array unless it was the cached one, the viewport of the target's record
    unless it was the cached one, and so on), and before the draw call the
    cache holds the target, its size as viewport, the draw parameters, the
    shader and the vertex array, with nothing else of the device changed but
    the record that the viewport lookup inserts for an unknown target. *)
Theorem Draw_dispatch (fbo shader vao : Z) (drawParameters : DrawParameters)
    (numInstances numElements : Z) (d : Device) :
  let draw_ := Draw fbo shader vao drawParameters numInstances numElements in
  if numInstances =? 0 then draw_ d = (tt, d) /\ emitted draw_ d = []
  else
    let p := drawParameters in
    let d1 := snd (SetFBO fbo d) in
    let d2 := snd (SetViewport fbo d1) in
    let b1 := snd (SetBlending (dp_sourceBlend p) (dp_destBlend p) d2) in
    let b2 := snd (SetScissorTest (dp_useScissorTest p) (dp_scissorStartX p)
                     (dp_scissorStartY p) (dp_scissorWidth p) (dp_scissorHeight p) b1) in
    let b3 := snd (SetFaceCulling (dp_faceCulling p) b2) in
    let d3 := snd (SetDrawParameters drawParameters d2) in
    let d4 := snd (SetShader shader d3) in
    let d5 := snd (SetVAO vao d4) in
    let stateCalls :=
      emitted (SetFBO fbo) d ++ emitted (SetViewport fbo) d1
      ++ emitted (SetDrawParameters drawParameters) d2
      ++ emitted (SetShader shader) d3 ++ emitted (SetVAO vao) d4 in
    let drawCall :=
      if numInstances =? 1
      then glDrawElements (dp_primitiveType drawParameters) (to_int32 numElements)
             GL_UNSIGNED_INT 0
      else glDrawElementsInstanced (dp_primitiveType drawParameters) (to_int32 numElements)
             GL_UNSIGNED_INT 0 numInstances in
    draw_ d = (tt, set_calls (calls d5 ++ [drawCall]) d5)
    /\ emitted draw_ d = stateCalls ++ [drawCall]
    /\ Forall (fun c => is_draw c = false) stateCalls
    /\ is_draw drawCall = true
    /\ emitted (SetDrawParameters p) d2 =
       emitted (SetBlending (dp_sourceBlend p) (dp_destBlend p)) d2
       ++ emitted (SetScissorTest (dp_useScissorTest p) (dp_scissorStartX p)
                     (dp_scissorStartY p) (dp_scissorWidth p) (dp_scissorHeight p)) b1
       ++ emitted (SetFaceCulling (dp_faceCulling p)) b2
       ++ emitted (SetDepthTest (dp_shouldWriteDepth p) (dp_depthFunc p)) b3
    /\ emitted (SetFBO fbo) d
       = (if fbo =? boundFBO d then [] else [glBindFramebuffer GL_FRAMEBUFFER fbo])
    /\ emitted (SetViewport fbo) d1
       = viewport_calls (viewportFBO d) (viewportWidth d) (viewportHeight d) fbo
           (default FBOData.default (fboMap d !! fbo))
    /\ emitted (SetBlending (dp_sourceBlend p) (dp_destBlend p)) d2
       = blending_calls (currentSourceBlend d) (currentDestBlend d)
           (dp_sourceBlend p) (dp_destBlend p)
    /\ emitted (SetScissorTest (dp_useScissorTest p) (dp_scissorStartX p)
                  (dp_scissorStartY p) (dp_scissorWidth p) (dp_scissorHeight p)) b1
       = scissor_calls (scissorTestEnabled d) (dp_useScissorTest p) (dp_scissorStartX p)
           (dp_scissorStartY p) (dp_scissorWidth p) (dp_scissorHeight p)
    /\ emitted (SetFaceCulling (dp_faceCulling p)) b2
       = culling_calls (currentFaceCulling d) (dp_faceCulling p)
    /\ emitted (SetDepthTest (dp_shouldWriteDepth p) (dp_depthFunc p)) b3
       = depth_calls (shouldWriteDepth d) (currentDepthFunc d)
           (dp_shouldWriteDepth p) (dp_depthFunc p)
    /\ emitted (SetShader shader) d3
       = (if shader =? boundShader d then [] else [glUseProgram shader])
    /\ emitted (SetVAO vao) d4
       = (if vao =? boundVAO d then [] else [glBindVertexArray vao])
    /\ d5 = drawn fbo shader vao p (calls d ++ stateCalls) d
    /\ (boundFBO d5, boundShader d5, boundVAO d5) = (fbo, shader, vao).
Proof.
  intros draw_. subst draw_. destruct (numInstances =? 0) eqn:E0.
  - unfold Draw. rewrite E0. split; [reflexivity|].
    apply emitted_intro. cbn. now rewrite app_nil_r.
  - intros p d1 d2 b1 b2 b3 d3 d4 d5 stateCalls drawCall.
    assert (Hrun : Draw fbo shader vao drawParameters numInstances numElements d
                   = (tt, set_calls (calls d5 ++ [drawCall]) d5)).
    { unfold Draw. rewrite E0. unfold bind. subst d5 d4 d3 d2 d1 drawCall.
      destruct (SetFBO fbo d) as [[] e1]; cbn [snd].
      destruct (SetViewport fbo e1) as [[] e2]; cbn [snd].
      destruct (SetDrawParameters drawParameters e2) as [[] e3]; cbn [snd].
      destruct (SetShader shader e3) as [[] e4]; cbn [snd].
      destruct (SetVAO vao e4) as [[] e5]; cbn [snd].
      destruct (numInstances =? 1); reflexivity. }
    assert (Hcalls : calls d5 = calls d ++ stateCalls).
    { subst d5 d4 d3 d2 d1 stateCalls.
      rewrite (emitted_spec _ _ _ (SetVAO_emits vao)).
      rewrite (emitted_spec _ _ _ (SetShader_emits shader)).
      rewrite (emitted_spec _ _ _ (SetDrawParameters_emits drawParameters)).
      rewrite (emitted_spec _ _ _ (SetViewport_emits fbo)).
      rewrite (emitted_spec _ _ _ (SetFBO_emits fbo)).
      now rewrite <- !app_assoc. }
    destruct (Draw_steps fbo shader vao p d)
      as (H1 & H2 & H3 & H4 & H5 & H6 & H7 & H8 & Hd5).
    cbn zeta in H1, H2, H3, H4, H5, H6, H7, H8, Hd5.
    fold d1 d2 in H2, H3, H4, H5, H6, H7, H8, Hd5. fold b1 in H4, H5, H6. fold b2 in H5, H6.
    fold b3 in H6. fold d3 d4 d5 in H7, H8, Hd5.
    repeat apply conj.
    + exact Hrun.
    + apply emitted_intro. rewrite Hrun. cbn. now rewrite Hcalls, <- app_assoc.
    + subst stateCalls. repeat apply Forall_app_2.
      * apply (emitted_Forall _ _ _ (SetFBO_emits fbo)).
      * apply (emitted_Forall _ _ _ (SetViewport_emits fbo)).
      * apply (emitted_Forall _ _ _ (SetDrawParameters_emits drawParameters)).
      * apply (emitted_Forall _ _ _ (SetShader_emits shader)).
      * apply (emitted_Forall _ _ _ (SetVAO_emits vao)).
    + subst drawCall. destruct (numInstances =? 1); reflexivity.
    + apply SetDrawParameters_emitted.
    + exact H1.
    + exact H2.
    + exact H3.
    + exact H4.
    + exact H5.
    + exact H6.
    + exact H7.
    + exact H8.
    + rewrite <- Hcalls. exact Hd5.
    + replace d5 with (drawn fbo shader vao p (calls d5) d) by (symmetry; exact Hd5).
      unfold drawn. generalize (calls d5). intros l. destruct d; reflexivity.
Qed.

(** ** Vertex array buffers *)

Lemma SetVAO_vaoMap vao : preserves vaoMap (SetVAO vao).
Proof. emits_of SetVAO. Qed.

(** C6. For a registered vertex array (0 is the null vertex array, which
    the driver never hands out) and a buffer index inside its two arrays,
    [UpdateVertexArrayBuffer] returns, and the capacity recorded for that
    buffer is afterwards the old one when [dataSize] fits in it (the record
    is then untouched altogether) and exactly [dataSize] when it does not; so
    it never decreases. The capacities recorded for the other buffers stay as
    they were. *)
Theorem UpdateVertexArrayBuffer_capacity (vao bufferIndex : Z) (data : Ptr) (dataSize : Z)
    (d : Device) (vaoData : VertexArray.t) (buffer capacity : Z) :
  vao <> 0 ->
  vaoMap d !! vao = Some vaoData ->
  VertexArray.buffers vaoData !! Z.to_nat bufferIndex = Some buffer ->
  VertexArray.bufferSizes vaoData !! Z.to_nat bufferIndex = Some capacity ->
  exists d' vaoData',
    UpdateVertexArrayBuffer vao bufferIndex data dataSize d = Some (tt, d')
    /\ vaoMap d' !! vao = Some vaoData'
    /\ VertexArray.bufferSizes vaoData' !! Z.to_nat bufferIndex =
       Some (if dataSize <=? capacity then capacity else dataSize)
    /\ (dataSize <= capacity -> vaoData' = vaoData)
    /\ capacity <= (if dataSize <=? capacity then capacity else dataSize)
    /\ (forall j, j <> Z.to_nat bufferIndex ->
          VertexArray.bufferSizes vaoData' !! j = VertexArray.bufferSizes vaoData !! j).
Proof.
  intros Hvao Hreg Hbuf Hcap.
  unfold UpdateVertexArrayBuffer.
  destruct (vao =? 0) eqn:E0; [apply Z.eqb_eq in E0; contradiction|].
  rewrite Hreg. cbn [mbind option_bind]. rewrite Hbuf, Hcap. cbn [mbind option_bind].
  pose proof (SetVAO_vaoMap vao d) as Hframe. unfold bind at 1.
  destruct (SetVAO vao d) as [[] d1]. cbn [snd] in Hframe.
  destruct (dataSize <=? capacity) eqn:E.
  - exists (set_calls ((calls d1 ++ [glBindBuffer GL_ARRAY_BUFFER buffer])
                       ++ [glBufferSubData GL_ARRAY_BUFFER 0 dataSize data]) d1), vaoData.
    split; [reflexivity|]. split; [cbn; now rewrite Hframe|].
    split; [exact Hcap|]. split; [reflexivity|]. split; [lia | reflexivity].
  - eexists _, _. split; [reflexivity|]. cbn -[Z.leb].
    rewrite lookup_insert_eq. split; [reflexivity|]. cbn.
    repeat apply conj.
    + apply list_lookup_insert_eq. eapply lookup_lt_Some; eauto.
    + apply Z.leb_gt in E. lia.
    + apply Z.leb_gt in E. lia.
    + intros j Hj. now apply list_lookup_insert_ne.
Qed.

(** ** Attribute slots *)

Definition is_attribute_call (c : GLCall) : bool :=
  match c with
  | glEnableVertexAttribArray _ | glVertexAttribPointer _ _ _ _ _ _
  | glVertexAttribDivisor _ _ => true
  | _ => false
  end.

(** The packing as the specification words it: [n / 4] slots four floats
    wide, then one slot for the [n mod 4] floats left over, if any. *)
Definition slot_widths (n : Z) : list Z :=
  replicate (Z.to_nat (n / 4)) 4 ++ (if n mod 4 =? 0 then [] else [n mod 4]).

(** What the specification expects for slot [k] of a component whose first
    slot is number [first]: the slot is enabled and described (its floats
    start [16 * k] bytes into the element), and for an instance component it
    is set to advance once per instance. *)
Definition slot_calls (elementSize : Z) (instanced : bool) (first : Z) (k : nat) (width : Z)
    : list GLCall :=
  let attribute := wrap32 (first + Z.of_nat k) in
  [glEnableVertexAttribArray attribute;
   glVertexAttribPointer attribute width GL_FLOAT false (wrap64 (elementSize * 4))
     (wrap64 (16 * Z.of_nat k))]
  ++ (if instanced then [glVertexAttribDivisor attribute 1] else []).

Definition component_slots (elementSize : Z) (instanced : bool) (first : Z) : list GLCall :=
  concat (imap (slot_calls elementSize instanced first) (slot_widths elementSize)).

(** The slots of the components [sizes], the first of which is component
    number [i] and starts at slot [first]: consecutive slot numbers, and
    component [i] is an instance component from [numVertexComponents] on. *)
Fixpoint attribute_calls (numVertexComponents : Z) (sizes : list Z) (i first : Z)
    : list GLCall :=
  match sizes with
  | [] => []
  | n :: rest =>
      component_slots n (numVertexComponents <=? i) first
      ++ attribute_calls numVertexComponents rest (i + 1)
           (wrap32 (first + Z.of_nat (length (slot_widths n))))
  end.

Lemma slot_widths_length n : 0 <= n -> Z.of_nat (length (slot_widths n)) = (n + 3) / 4.
Proof.
  intros Hn. unfold slot_widths. rewrite length_app, length_replicate.
  pose proof (Z.div_mod n 4 ltac:(lia)) as Hdm.
  pose proof (Z.mod_pos_bound n 4 ltac:(lia)) as Hm.
  assert (0 <= n / 4) by (apply Z.div_pos; lia).
  destruct (n mod 4 =? 0) eqn:E; cbn [length].
  - apply Z.eqb_eq in E. rewrite Nat.add_0_r, Z2Nat.id by lia.
    apply (Z.div_unique _ 4 (n / 4) 3); lia.
  - apply Z.eqb_neq in E. rewrite Nat2Z.inj_add, Z2Nat.id by lia.
    apply (Z.div_unique _ 4 (n / 4 + 1) (n mod 4 - 1)); lia.
Qed.

Lemma set_calls_nil d : set_calls (calls d ++ []) d = d.
Proof. destruct d; cbn. now rewrite app_nil_r. Qed.

Lemma attributeSlot_run attribute size elementSize pointer inInstancedMode d :
  attributeSlot attribute size elementSize pointer inInstancedMode d =
  (wrap32 (attribute + 1),
   set_calls
     (calls d
      ++ [glEnableVertexAttribArray attribute;
          glVertexAttribPointer attribute size GL_FLOAT false
            (wrap64 (elementSize * sizeof_float)) pointer]
      ++ (if inInstancedMode then [glVertexAttribDivisor attribute 1] else [])) d).
Proof.
  unfold attributeSlot. destruct inInstancedMode; run; now rewrite <- !app_assoc.
Qed.

Lemma wrap32_succ a : wrap32 (wrap32 a + 1) = wrap32 (a + 1).
Proof. unfold wrap32. now rewrite Zplus_mod_idemp_l. Qed.

Lemma full_slots_run elementSize inInstancedMode first count : forall s d,
  for_fold (Z.of_nat s) count
    (fun j attribute =>
       attributeSlot attribute 4 elementSize (wrap64 (sizeof_float * j * 4)) inInstancedMode)
    (wrap32 (first + Z.of_nat s)) d =
  (wrap32 (first + Z.of_nat (s + count)),
   set_calls
     (calls d
      ++ concat (imap (fun t => slot_calls elementSize inInstancedMode first (s + t))
                   (replicate count 4))) d).
Proof.
  induction count as [|k IH]; intros s d.
  - cbn. now rewrite Nat.add_0_r, set_calls_nil.
  - cbn [for_fold]. unfold bind. rewrite attributeSlot_run.
    rewrite wrap32_succ.
    replace (first + Z.of_nat s + 1) with (first + Z.of_nat (S s)) by lia.
    replace (Z.of_nat s + 1) with (Z.of_nat (S s)) by lia.
    rewrite IH. f_equal; [f_equal; lia|].
    change (set_calls ?l (set_calls ?l' d)) with (set_calls l d). cbn [calls set_calls].
    f_equal. cbn [replicate]. rewrite imap_cons. cbn [concat].
    rewrite <- app_assoc. f_equal. f_equal.
    + unfold slot_calls, sizeof_float. rewrite Nat.add_0_r. cbn [app].
      do 3 f_equal. f_equal. lia.
    + f_equal. apply imap_ext. intros t w _. unfold compose.
      now replace (S s + t)%nat with (s + S t)%nat by lia.
Qed.

Lemma wrap32_bound z : 0 <= wrap32 z < 2 ^ 32.
Proof. unfold wrap32. apply Z.mod_pos_bound. lia. Qed.

Lemma componentAttributes_run elementSize inInstancedMode attribute d :
  0 <= elementSize -> 0 <= attribute < 2 ^ 32 ->
  componentAttributes elementSize inInstancedMode attribute d =
  (wrap32 (attribute + Z.of_nat (length (slot_widths elementSize))),
   set_calls (calls d ++ component_slots elementSize inInstancedMode attribute) d).
Proof.
  intros Hn Ha. unfold componentAttributes, component_slots, slot_widths.
  assert (Hdiv : 0 <= elementSize / 4) by (apply Z.div_pos; lia).
  assert (Ha0 : wrap32 (attribute + 0) = attribute)
    by (unfold wrap32; rewrite Z.add_0_r, Z.mod_small; lia).
  pose proof (full_slots_run elementSize inInstancedMode attribute
                (Z.to_nat (elementSize / 4)) 0%nat d) as Hloop.
  change (Z.of_nat 0) with 0 in Hloop. cbn [Nat.add] in Hloop. rewrite Ha0 in Hloop.
  unfold bind at 1. rewrite Hloop.
  rewrite length_app, length_replicate, imap_app, concat_app, length_replicate.
  destruct (elementSize mod 4 =? 0); cbn [negb].
  - cbn. rewrite Nat.add_0_r, app_nil_r. reflexivity.
  - rewrite attributeSlot_run.
    change (set_calls ?l (set_calls ?l' d)) with (set_calls l d). cbn [calls set_calls].
    f_equal.
    + rewrite wrap32_succ. f_equal. cbn [length]. lia.
    + f_equal. rewrite <- app_assoc. do 2 f_equal.
      cbn [imap concat]. rewrite app_nil_r. unfold slot_calls, sizeof_float.
      rewrite Nat.add_0_r. cbn [app]. do 3 f_equal. f_equal.
      rewrite Z2Nat.id by lia. lia.
Qed.

Lemma component_slots_attribute n instanced first :
  List.filter is_attribute_call (component_slots n instanced first)
  = component_slots n instanced first.
Proof.
  unfold component_slots.
  assert (Hf : forall k w, List.filter is_attribute_call (slot_calls n instanced first k w)
                           = slot_calls n instanced first k w)
    by (intros; unfold slot_calls; destruct instanced; reflexivity).
  revert Hf. generalize (slot_calls n instanced first).
  induction (slot_widths n) as [|w ws IH]; intros f Hf; [reflexivity|].
  rewrite imap_cons. cbn [concat]. rewrite List.filter_app, Hf, IH; [reflexivity|].
  intros. apply Hf.
Qed.

Lemma componentLoop_spec vertexData sizes numVertexComponents numVertices usage buffers :
  Forall (fun n => 0 <= n) sizes ->
  (forall pointers, vertexData = Some pointers ->
                    (Z.to_nat numVertexComponents <= length pointers)%nat) ->
  forall count i attribute bufferSizes d,
    0 <= attribute < 2 ^ 32 ->
    (i + count <= length sizes)%nat ->
    (i + count <= length buffers)%nat ->
    exists st' d' l,
      componentLoop vertexData sizes numVertexComponents numVertices usage buffers
        (Z.of_nat i) count (attribute, bufferSizes) d = Some (st', d')
      /\ calls d' = calls d ++ l
      /\ List.filter is_attribute_call l =
         attribute_calls numVertexComponents (take count (drop i sizes)) (Z.of_nat i)
           attribute.
Proof.
  intros Hsizes Hdata. induction count as [|k IH]; intros i attribute bufferSizes d Ha Hs Hb.
  - exists (attribute, bufferSizes), d, []. cbn. now rewrite app_nil_r.
  - destruct (lookup_lt_is_Some_2 sizes i ltac:(lia)) as [n Hn].
    destruct (lookup_lt_is_Some_2 buffers i ltac:(lia)) as [buffer Hbuf].
    assert (Hn0 : 0 <= n) by (rewrite Forall_lookup in Hsizes; eapply Hsizes; eauto).
    cbn [componentLoop]. unfold componentBuffer.
    rewrite Nat2Z.id, Hn, Hbuf. cbn [mbind option_bind].
    set (inInstancedMode := numVertexComponents <=? Z.of_nat i).
    assert (Hptr : exists bufferData,
      (if inInstancedMode then Some nullptr
       else match vertexData with
            | Some pointers => pointers !! i
            | None => Some nullptr
            end) = Some bufferData).
    { destruct inInstancedMode eqn:E; [eauto|].
      destruct vertexData as [pointers|]; [|eauto].
      apply Z.leb_gt in E. apply lookup_lt_is_Some_2.
      specialize (Hdata pointers eq_refl). lia. }
    destruct Hptr as [bufferData Hptr]. rewrite Hptr. cbn [mbind option_bind].
    unfold bind at 1 2 3. cbn [gl modify fst snd].
    rewrite componentAttributes_run by (cbn; auto).
    cbn [ret calls set_calls].
    change (set_calls ?l (set_calls ?l' d)) with (set_calls l d).
    replace (Z.of_nat i + 1) with (Z.of_nat (S i)) by lia.
    edestruct (IH (S i)) as (st' & d' & l & Hrun & Hcalls & Hfilter);
      [apply wrap32_bound | lia | lia |].
    exists st', d'. eexists. split; [exact Hrun|]. split.
    + rewrite Hcalls. cbn [calls set_calls]. rewrite <- !app_assoc. reflexivity.
    + rewrite !List.filter_app, Hfilter, component_slots_attribute.
      rewrite (drop_S _ _ _ Hn). cbn [take attribute_calls List.filter is_attribute_call app].
      replace (Z.of_nat i + 1) with (Z.of_nat (S i)) by lia. reflexivity.
Qed.

(** C7. [CreateVertexArray], given one element size per component (and
    vertex data, if any, for each vertex component), returns, and the
    attribute calls it has made are, component after component, those of the
    packing: a component of [n] floats takes [n / 4] slots four floats wide
    and then, when [n mod 4] is not 0, one slot of [n mod 4] floats, that is
    the ceiling of [n / 4] slots, numbered consecutively from where the
    component before it stopped; each slot of an instance component is also
    given the divisor 1. So 5 floats take two slots of widths 4 and 1,
    8 floats two slots of width 4, and 4 floats one slot. *)
Theorem CreateVertexArray_attribute_slots (drv : Driver) (vertexData : option (list Ptr))
    (vertexElementSizes : list Z)
    (numVertexComponents numInstanceComponents numVertices : Z) (indices : Ptr)
    (numIndices usage : Z) (d : Device) :
  0 <= numVertexComponents ->
  0 <= numInstanceComponents ->
  numVertexComponents + numInstanceComponents + 1 < 2 ^ 32 ->
  Z.of_nat (length vertexElementSizes) = numVertexComponents + numInstanceComponents ->
  Forall (fun n => 0 <= n) vertexElementSizes ->
  (forall pointers, vertexData = Some pointers ->
                    numVertexComponents <= Z.of_nat (length pointers)) ->
  exists vao d',
    CreateVertexArray drv vertexData vertexElementSizes numVertexComponents
      numInstanceComponents numVertices indices numIndices usage d = Some (vao, d')
    /\ List.filter is_attribute_call (drop (length (calls d)) (calls d')) =
       attribute_calls numVertexComponents vertexElementSizes 0 0
    /\ Forall (fun n => Z.of_nat (length (slot_widths n)) = (n + 3) / 4) vertexElementSizes
    /\ slot_widths 5 = [4; 1] /\ slot_widths 8 = [4; 4] /\ slot_widths 4 = [4].
Proof.
  intros Hnv Hni Hlt Hlen Hsizes Hdata.
  unfold CreateVertexArray.
  assert (Hnb : wrap32 (numVertexComponents + numInstanceComponents + 1)
                = numVertexComponents + numInstanceComponents + 1)
    by (unfold wrap32; apply Z.mod_small; lia).
  rewrite Hnb.
  assert (Hcount : wrap32 (numVertexComponents + numInstanceComponents + 1 - 1)
                   = numVertexComponents + numInstanceComponents)
    by (unfold wrap32; rewrite Z.mod_small; lia).
  rewrite Hcount.
  set (numBuffers := numVertexComponents + numInstanceComponents + 1).
  set (count := Z.to_nat (numVertexComponents + numInstanceComponents)).
  cbn [gl_ask].
  set (vao := drv_glGenVertexArrays drv (calls d)).
  set (d1 := set_calls (calls d ++ [glGenVertexArrays 1]) d).
  pose proof (emitted_spec _ _ d1 (SetVAO_emits vao)) as Hvao.
  pose proof (SetVAO_emitted vao d1) as Hbind.
  destruct (SetVAO vao d1) as [[] d2]. cbn [snd] in Hvao.
  set (buffers := drv_glGenBuffers drv (calls d2) <$> seq 0 (Z.to_nat numBuffers)).
  set (d3 := set_calls (calls d2 ++ [glGenBuffers numBuffers]) d2).
  assert (Hbuffers : length buffers = Z.to_nat numBuffers)
    by (subst buffers; now rewrite length_fmap, length_seq).
  destruct (componentLoop_spec vertexData vertexElementSizes numVertexComponents numVertices
              usage buffers Hsizes
              ltac:(intros ps Hps; specialize (Hdata ps Hps); lia)
              count 0%nat 0 (replicate (Z.to_nat numBuffers) 0) d3
              ltac:(lia) ltac:(subst count; lia) ltac:(subst count numBuffers; lia))
    as ([attribute bufferSizes] & d4 & l & Hrun & Hcalls & Hfilter).
  change (Z.of_nat 0) with 0 in Hrun, Hfilter. rewrite Hrun. cbn [mbind option_bind].
  destruct (lookup_lt_is_Some_2 buffers count ltac:(subst count numBuffers; lia))
    as [indexBuffer Hindex].
  rewrite Hindex. cbn [mbind option_bind].
  eexists _, _. split; [reflexivity|]. split; [|split].
  - cbn [snd bind gl modify ret calls set_calls].
    rewrite Hcalls. subst d3. cbn [calls set_calls]. rewrite Hvao. subst d1.
    cbn [calls set_calls set_vaoMap]. rewrite <- !app_assoc, drop_app_length.
    rewrite !List.filter_app, Hfilter, Hbind.
    rewrite drop_0, take_ge by (subst count; lia).
    destruct (vao =? boundVAO _); cbn; now rewrite app_nil_r.
  - eapply Forall_impl; [exact Hsizes|]. intros n Hn. now apply slot_widths_length.
  - repeat split.
Qed.

(** ** The version directive *)

(** [pattern] occurs in [s] at position [i]. *)
Definition occurs_at (pattern s : string) (i : nat) : Prop :=
  exists before after,
    s = (before ++ pattern ++ after)%string /\ String.length before = i.

(** The text has a version directive: an occurrence of ["#version"] with a
    line feed somewhere after it. *)
Definition has_version_directive (s : string) : Prop :=
  exists i j, occurs_at "#version" s i /\ (i <= j)%nat /\ occurs_at LF s j.

Lemma starts_with_sound pattern : forall s,
  starts_with pattern s = true -> exists after, s = (pattern ++ after)%string.
Proof.
  induction pattern as [|a p IH]; intros s H; cbn in H.
  - exists s. reflexivity.
  - destruct s as [|b s']; [discriminate|].
    apply andb_prop in H as [Hab Hrest]. apply Ascii.eqb_eq in Hab. subst b.
    destruct (IH s' Hrest) as [after ->]. exists after. reflexivity.
Qed.

Lemma keep_skip n : forall s, (keep n s ++ skip n s)%string = s.
Proof.
  induction n as [|n IH]; intros s; [reflexivity|].
  destruct s as [|a s']; [reflexivity|].
  change (String a (keep n s' ++ skip n s')%string = String a s').
  f_equal. apply IH.
Qed.

Lemma keep_length n : forall s, (n <= String.length s)%nat -> String.length (keep n s) = n.
Proof.
  induction n as [|n IH]; intros s H; [reflexivity|].
  destruct s as [|a s']; cbn in *; [lia|]. rewrite IH; lia.
Qed.

Lemma skip_length n : forall s, String.length (skip n s) = (String.length s - n)%nat.
Proof.
  induction n as [|n IH]; intros s; cbn; [lia|].
  destruct s as [|a s']; cbn; [reflexivity | apply IH].
Qed.

Lemma find_in_sound pattern : forall s at_ i,
  find_in pattern s at_ = Some i ->
  exists k, i = (at_ + k)%nat /\ (k <= String.length s)%nat
            /\ starts_with pattern (skip k s) = true.
Proof.
  induction s as [|a s' IH]; intros at_ i H; cbn [find_in] in H.
  - destruct (starts_with pattern "") eqn:E; [|discriminate].
    inversion H; subst. exists 0%nat. cbn [skip]. repeat split; [lia | lia | exact E].
  - destruct (starts_with pattern (String a s')) eqn:E.
    + inversion H; subst. exists 0%nat. cbn [skip]. repeat split; [lia | lia | exact E].
    + destruct (IH _ _ H) as (k & -> & Hk & Hs). exists (S k).
      repeat split; [lia | cbn; lia | exact Hs].
Qed.

Lemma skip_skip n : forall m s, skip n (skip m s) = skip (m + n) s.
Proof.
  intros m. induction m as [|m IH]; intros s; [reflexivity|].
  destruct s as [|a s']; cbn.
  - destruct n; reflexivity.
  - apply IH.
Qed.

(** When [find] finds, the pattern occurs where it says, not before [pos]. *)
Lemma find_sound s pattern pos :
  0 <= pos -> find s pattern pos <> npos ->
  exists i, find s pattern pos = Z.of_nat i /\ (Z.to_nat pos <= i)%nat
            /\ occurs_at pattern s i.
Proof.
  intros Hpos Hfound. unfold find in *.
  destruct (Z.of_nat (String.length s) <? pos) eqn:E; [contradiction|].
  apply Z.ltb_ge in E.
  destruct (find_in pattern (skip (Z.to_nat pos) s) (Z.to_nat pos)) as [i|] eqn:F;
    [|contradiction].
  destruct (find_in_sound _ _ _ _ F) as (k & -> & Hk & Hs).
  rewrite skip_skip in Hs. rewrite skip_length in Hk.
  exists (Z.to_nat pos + k)%nat. repeat split; [lia|].
  destruct (starts_with_sound _ _ Hs) as [after Hafter].
  exists (keep (Z.to_nat pos + k) s), after. split.
  - rewrite <- Hafter. symmetry. apply keep_skip.
  - apply keep_length. lia.
Qed.

Lemma find_from_npos s pattern :
  Z.of_nat (String.length s) < npos -> find s pattern npos = npos.
Proof.
  intros H. unfold find. destruct (Z.of_nat (String.length s) <? npos) eqn:E; [reflexivity|].
  apply Z.ltb_ge in E. lia.
Qed.

Lemma find_nonneg s pattern pos : 0 <= find s pattern pos.
Proof.
  unfold find. destruct (_ <? _); [unfold npos; lia|].
  destruct (find_in _ _ _); [lia | unfold npos; lia].
Qed.

Lemma missing_version_directive shaderText :
  Z.of_nat (String.length shaderText) < npos ->
  ~ has_version_directive shaderText ->
  find shaderText LF (find shaderText "#version" 0) = npos.
Proof.
  intros Hlen Hno.
  destruct (Z.eq_dec (find shaderText LF (find shaderText "#version" 0)) npos) as [|Hfound];
    [assumption|].
  exfalso. apply Hno.
  destruct (Z.eq_dec (find shaderText "#version" 0) npos) as [Hv|Hv].
  - rewrite Hv, find_from_npos in Hfound by assumption. contradiction.
  - destruct (find_sound _ _ 0 ltac:(lia) Hv) as (i & Hi & _ & Hocc).
    destruct (find_sound _ _ _ (find_nonneg _ _ _) Hfound) as (j & _ & Hj & Hnl).
    exists i, j. rewrite Hi, Nat2Z.id in Hj. auto.
Qed.

(** C5. For a source text with no version directive, [CreateShaderProgram]
    returns the sentinel, the largest [unsigned int]. The one call it has sent
    to the driver is [glCreateProgram]: no shader is created or compiled. It
    has written one line to the error stream, and the device is otherwise
    what it was: no program record is registered. *)
Theorem CreateShaderProgram_missing_version (drv : Driver) (shaderText : string)
    (d : Device) :
  Z.of_nat (String.length shaderText) < npos ->
  ~ has_version_directive shaderText ->
  CreateShaderProgram drv shaderText d =
  (INVALID_HANDLE,
   set_cerr
     (cerr d
      ++ [if drv_glCreateProgram drv (calls d) =? 0
          then [text "Error creating shader program."]
          else [text "Error: Shader program is missing #version directive."]])
     (set_calls (calls d ++ [glCreateProgram]) d))
  /\ INVALID_HANDLE = 4294967295
  /\ emitted (CreateShaderProgram drv shaderText) d = [glCreateProgram]
  /\ shaderProgramMap (snd (CreateShaderProgram drv shaderText d)) = shaderProgramMap d.
Proof.
  intros Hlen Hno.
  assert (Hrun : CreateShaderProgram drv shaderText d =
    (INVALID_HANDLE,
     set_cerr
       (cerr d
        ++ [if drv_glCreateProgram drv (calls d) =? 0
            then [text "Error creating shader program."]
            else [text "Error: Shader program is missing #version directive."]])
       (set_calls (calls d ++ [glCreateProgram]) d))).
  { unfold CreateShaderProgram. unfold bind at 1. cbn [gl_ask].
    destruct (drv_glCreateProgram drv (calls d) =? 0); [reflexivity|].
    rewrite (missing_version_directive _ Hlen Hno), Z.eqb_refl. reflexivity. }
  split; [exact Hrun|]. split; [reflexivity|]. split.
  - apply emitted_intro. rewrite Hrun. reflexivity.
  - rewrite Hrun. reflexivity.
Qed.

(** ** Reflection of the uniforms *)

(** The loop over the plain uniforms is bounded by [numUniforms], which is 0:
    the sampler map comes back as it went in. *)
Lemma AddShaderUniforms_samplerMap drv shaderProgram uniformMap samplerMap d :
  snd (fst (AddShaderUniforms drv shaderProgram uniformMap samplerMap d)) = samplerMap.
Proof.
  unfold AddShaderUniforms. unfold bind at 1. cbn [gl_ask].
  unfold bind at 1.
  destruct (for_fold 0 _ (addUniformBlock drv shaderProgram) uniformMap _) as [blocks d1].
  reflexivity.
Qed.

(** C1, as the code has it. Whenever [CreateShaderProgram] returns a handle
    other than the sentinel, the program is registered under that handle and
    the sampler table of its record is empty, whatever uniforms the driver
    reports as active: no sampler-2D uniform is ever recorded. *)
Theorem CreateShaderProgram_samplerMap_empty (drv : Driver) (shaderText : string)
    (d : Device) :
  let result := CreateShaderProgram drv shaderText d in
  fst result <> INVALID_HANDLE ->
  exists record,
    shaderProgramMap (snd result) !! fst result = Some record
    /\ ShaderProgram.samplerMap record = ∅.
Proof.
  intros result.
  assert (Hresult : CreateShaderProgram drv shaderText d = result) by reflexivity.
  clearbody result. revert Hresult.
  unfold CreateShaderProgram. unfold bind at 1. cbn [gl_ask].
  destruct (_ =? 0); [intros <- H; now contradiction H|].
  destruct (_ =? npos); [intros <- H; now contradiction H|].
  unfold bind at 1.
  destruct (AddShader drv _ _ GL_VERTEX_SHADER [] _) as [[ok1 shaders1] d1].
  destruct ok1; cbn [negb]; [|intros <- H; now contradiction H].
  unfold bind at 1.
  destruct (AddShader drv _ _ GL_FRAGMENT_SHADER shaders1 d1) as [[ok2 shaders2] d2].
  destruct ok2; cbn [negb]; [|intros <- H; now contradiction H].
  unfold bind at 1 2. unfold gl at 1, modify at 1. cbn beta iota.
  destruct (CheckShaderError drv _ GL_LINK_STATUS true _ _) as [failed1 d3].
  destruct failed1; [intros <- H; now contradiction H|].
  unfold bind at 1 2. unfold gl at 1, modify at 1. cbn beta iota.
  destruct (CheckShaderError drv _ GL_VALIDATE_STATUS true _ _) as [failed2 d4].
  destruct failed2; [intros <- H; now contradiction H|].
  unfold bind at 1 2 3.
  destruct (GetVersion drv d4) as [version_ d5].
  destruct (AddAllAttributes drv _ version_ d5) as [[] d6].
  pose proof (AddShaderUniforms_samplerMap drv (drv_glCreateProgram drv (calls d)) ∅ ∅ d6)
    as Hsampler.
  destruct (AddShaderUniforms drv _ ∅ ∅ d6) as [[uniformMap samplerMap] d7].
  cbn in Hsampler. subst samplerMap. intros <- _.
  eexists. split.
  - cbn. apply lookup_insert_eq.
  - reflexivity.
Qed.

(** ** Version detection *)

Lemma to_string_nonempty n : to_string n <> ""%string.
Proof.
  unfold to_string, NilZero.string_of_uint.
  destruct (N.to_uint (Z.to_N n)); discriminate.
Qed.

Lemma GetShaderVersion_cached drv d :
  shaderVersion d <> ""%string -> GetShaderVersion drv d = (shaderVersion d, d).
Proof.
  intros H. unfold GetShaderVersion. run.
  destruct (String.eqb_spec (shaderVersion d) ""); [contradiction | reflexivity].
Qed.

Lemma GetVersion_memoized drv d : version d <> 0 -> GetVersion drv d = (version d, d).
Proof.
  intros H. unfold GetVersion. run.
  destruct (Z.eqb_spec (version d) 0); [contradiction | reflexivity].
Qed.

Lemma GetVersion_shaderVersion drv d :
  shaderVersion (snd (GetVersion drv d)) = shaderVersion d.
Proof. unfold GetVersion. run. destruct (version d =? 0); reflexivity. Qed.

(** What [GetShaderVersion] stores and returns for the version [v]. *)
Definition version_table (v : Z) : string :=
  if 330 <=? v then to_string v
  else if 320 <=? v then "150"
  else if 310 <=? v then "140"
  else if 300 <=? v then "130"
  else if 210 <=? v then "120"
  else if 200 <=? v then "110"
  else "".

Lemma GetShaderVersion_run drv d :
  shaderVersion d = ""%string ->
  let v := fst (GetVersion drv d) in
  let d1 := snd (GetVersion drv d) in
  GetShaderVersion drv d =
  if 200 <=? v then (version_table v, set_shaderVersion (version_table v) d1)
  else (""%string,
        set_cerr
          (cerr d1
           ++ [[text "Error: OpenGL Version "; number (v / 100); text ".";
                number ((v / 10) mod 10); text "does not support shaders."]]) d1).
Proof.
  intros Hempty. cbn zeta. unfold GetShaderVersion. unfold bind at 1.
  cbn [get]. rewrite Hempty. cbn [String.eqb negb]. unfold bind at 1.
  destruct (GetVersion drv d) as [v d1]. cbn [fst snd]. unfold version_table.
  destruct (330 <=? v) eqn:E1; [replace (200 <=? v) with true by lia; reflexivity|].
  destruct (320 <=? v) eqn:E2; [replace (200 <=? v) with true by lia; reflexivity|].
  destruct (310 <=? v) eqn:E3; [replace (200 <=? v) with true by lia; reflexivity|].
  destruct (300 <=? v) eqn:E4; [replace (200 <=? v) with true by lia; reflexivity|].
  destruct (210 <=? v) eqn:E5; [replace (200 <=? v) with true by lia; reflexivity|].
  destruct (200 <=? v) eqn:E6; reflexivity.
Qed.

(** C9. With nothing memoized yet, [GetShaderVersion] maps the version [v]
    that [GetVersion] returns (the memoized one, if there is one) through the
    thresholds: the decimal numeral of [v] from 330 on (so "330" for 330),
    "150" from 320 on (so for 320), "140" from 310 on, "130" from 300 on,
    "120" from 210 on, "110" from 200 on, and below 200 (so for 190) the empty
    string, with one line written to the error stream and nothing memoized.
    From 200 on the result is not empty, and a result that is not empty is
    memoized: every later call returns it, whatever the driver says then, and
    changes nothing. *)
Theorem GetShaderVersion_table (drv : Driver) (d : Device) :
  shaderVersion d = ""%string ->
  let v := fst (GetVersion drv d) in
  let d1 := snd (GetVersion drv d) in
  let s := fst (GetShaderVersion drv d) in
  let d' := snd (GetShaderVersion drv d) in
  (version d <> 0 -> v = version d)
  /\ (330 <= v -> s = to_string v)
  /\ (v = 330 -> s = "330"%string)
  /\ (v = 320 -> s = "150"%string)
  /\ (320 <= v < 330 -> s = "150"%string)
  /\ (310 <= v < 320 -> s = "140"%string)
  /\ (300 <= v < 310 -> s = "130"%string)
  /\ (210 <= v < 300 -> s = "120"%string)
  /\ (200 <= v < 210 -> s = "110"%string)
  /\ (v < 200 ->
      s = ""%string /\ shaderVersion d' = ""%string
      /\ cerr d' =
         cerr d1 ++ [[text "Error: OpenGL Version "; number (v / 100); text ".";
                      number ((v / 10) mod 10); text "does not support shaders."]])
  /\ (v = 190 -> s = ""%string)
  /\ (200 <= v -> s <> ""%string)
  /\ (s <> ""%string ->
      shaderVersion d' = s /\ forall drv', GetShaderVersion drv' d' = (s, d')).
Proof.
  intros Hempty v d1 s d'. subst s d'.
  rewrite (GetShaderVersion_run drv d Hempty). fold v d1.
  assert (Hlow : v < 200 -> (200 <=? v) = false) by lia.
  assert (Hhigh : 200 <= v -> (200 <=? v) = true) by lia.
  repeat apply conj.
  - intros Hv. subst v. now rewrite GetVersion_memoized.
  - intros Hv. rewrite Hhigh by lia. cbn [fst]. unfold version_table.
    now replace (330 <=? v) with true by lia.
  - intros Hv. rewrite Hv. reflexivity.
  - intros Hv. rewrite Hv. reflexivity.
  - intros Hv. rewrite Hhigh by lia. cbn [fst]. unfold version_table.
    replace (330 <=? v) with false by lia. now replace (320 <=? v) with true by lia.
  - intros Hv. rewrite Hhigh by lia. cbn [fst]. unfold version_table.
    replace (330 <=? v) with false by lia. replace (320 <=? v) with false by lia.
    now replace (310 <=? v) with true by lia.
  - intros Hv. rewrite Hhigh by lia. cbn [fst]. unfold version_table.
    replace (330 <=? v) with false by lia. replace (320 <=? v) with false by lia.
    replace (310 <=? v) with false by lia. now replace (300 <=? v) with true by lia.
  - intros Hv. rewrite Hhigh by lia. cbn [fst]. unfold version_table.
    replace (330 <=? v) with false by lia. replace (320 <=? v) with false by lia.
    replace (310 <=? v) with false by lia. replace (300 <=? v) with false by lia.
    now replace (210 <=? v) with true by lia.
  - intros Hv. rewrite Hhigh by lia. cbn [fst]. unfold version_table.
    replace (330 <=? v) with false by lia. replace (320 <=? v) with false by lia.
    replace (310 <=? v) with false by lia. replace (300 <=? v) with false by lia.
    replace (210 <=? v) with false by lia. now replace (200 <=? v) with true by lia.
  - intros Hv. rewrite (Hlow Hv). repeat split.
    cbn. subst d1. now rewrite GetVersion_shaderVersion.
  - intros Hv. rewrite Hv. reflexivity.
  - intros Hv. rewrite Hhigh by lia. cbn [fst]. unfold version_table.
    destruct (330 <=? v); [apply to_string_nonempty|].
    destruct (320 <=? v); [discriminate|]. destruct (310 <=? v); [discriminate|].
    destruct (300 <=? v); [discriminate|]. destruct (210 <=? v); [discriminate|].
    destruct (200 <=? v) eqn:E; [discriminate | lia].
  - destruct (200 <=? v); cbn [fst snd]; [|intros H; now contradiction H].
    intros Hs. split; [destruct d1; reflexivity|].
    intros drv'. rewrite GetShaderVersion_cached; destruct d1; cbn; [reflexivity | exact Hs].
Qed.

End Header.

(** * A concrete header, driver and device

    The properties above hold for any header. The instances below fix one:
    the enumerators that stand for "none" are 0 and the others are the
    OpenGL constants they are named after. *)

Module Sample.

Definition FACE_CULL_NONE : Z := 0.
Definition BLEND_FUNC_NONE : Z := 0.
Definition USAGE_DYNAMIC_DRAW : Z := 35048.
Definition DRAW_FUNC_ALWAYS : Z := 519.
Definition STENCIL_KEEP : Z := 7680.

Lemma blockNameLength : 1 <= 9.
Proof. discriminate. Qed.

Lemma attribNameLength : 0 <= 9 /\ (0 < 1 -> 1 <= 9).
Proof. split; [|intros _]; discriminate. Qed.

(** A driver that reports OpenGL [major].[minor], hands out fresh positive
    names, compiles, links and validates every program, and reports for each
    program one uniform block, "Matrices", and one active uniform, the
    sampler-2D "diffuse" at location 3. *)
Definition driver (major minor : Z) : Driver :=
  {| drv_glGenBuffers := fun h i => Z.of_nat (length h) + Z.of_nat i + 1;
     drv_glGenVertexArrays := fun h => Z.of_nat (length h) + 1;
     drv_glGenTextures := fun h => Z.of_nat (length h) + 1;
     drv_glMapBuffer := fun _ => 4096;
     drv_glCreateProgram := fun h => Z.of_nat (length h) + 1;
     drv_glCreateShader := fun h _ => Z.of_nat (length h) + 1;
     drv_glGetShaderiv := fun _ _ _ => 1;
     drv_glGetShaderInfoLog := fun _ _ => ""%string;
     drv_glGetProgramiv := fun _ _ pname =>
       match pname with
       | GL_ACTIVE_UNIFORMS | GL_ACTIVE_UNIFORM_BLOCKS | GL_ACTIVE_ATTRIBUTES => 1
       | GL_ACTIVE_ATTRIBUTE_MAX_LENGTH => 9
       | _ => 1
       end;
     drv_glGetProgramInfoLog := fun _ _ => ""%string;
     drv_glGetActiveAttrib := fun _ _ _ => mkActiveInfo 8 1 GL_FLOAT_VEC3 "position";
     drv_glGetActiveUniformBlockiv := fun _ _ _ _ => 9;
     drv_glGetActiveUniformBlockName := fun _ _ _ => "Matrices"%string;
     drv_glGetUniformBlockIndex := fun _ _ _ => 0;
     drv_glGetActiveUniform := fun _ _ _ => mkActiveInfo 7 1 GL_SAMPLER_2D "diffuse";
     drv_glGetUniformLocation := fun _ _ _ => 3;
     drv_glGetIntegerv := fun _ pname =>
       match pname with
       | GL_MAJOR_VERSION => major
       | GL_MINOR_VERSION => minor
       | _ => 0
       end;
     drv_blockNameLength := fun _ _ _ => blockNameLength;
     drv_attribNameLength := fun _ _ => attribNameLength |}.

(** The device of a 640 by 480 window. *)
Definition device : Device :=
  OpenGLRenderDevice_new FACE_CULL_NONE BLEND_FUNC_NONE DRAW_FUNC_ALWAYS STENCIL_KEEP
    640 480 0 0.

Definition shaderText : string :=
  ("#version 330" ++ LF ++ "uniform sampler2D diffuse;" ++ LF ++ "void main() {}" ++ LF)%string.

Definition drawParameters : DrawParameters :=
  {| dp_primitiveType := 4;
     dp_faceCulling := FACE_CULL_NONE;
     dp_depthFunc := DRAW_FUNC_ALWAYS;
     dp_shouldWriteDepth := false;
     dp_useScissorTest := false;
     dp_scissorStartX := 0;
     dp_scissorStartY := 0;
     dp_scissorWidth := 0;
     dp_scissorHeight := 0;
     dp_sourceBlend := BLEND_FUNC_NONE;
     dp_destBlend := BLEND_FUNC_NONE |}.

(** The device after a render target of 1024 by 768 has been created: it is
    handle 5. *)
Definition device_with_target : Device :=
  snd (CreateRenderTarget (driver 3 3) 9 1024 768 36064 0 0 device).

(** The device after a vertex array has been created with two vertex
    components of 5 and 8 floats, one instance component of 4 floats, 3
    vertices and 6 indices: it is handle 5. *)
Definition device_with_array : Device :=
  match CreateVertexArray USAGE_DYNAMIC_DRAW (driver 3 3) None [5; 8; 4] 2 1 3 0 6 35044
          device with
  | Some (_, d) => d
  | None => device
  end.

End Sample.

(** ** Instances and counterexamples *)

Lemma starts_with_app pattern after : starts_with pattern (pattern ++ after)%string = true.
Proof.
  induction pattern as [|a p IH]; [reflexivity|].
  change (starts_with (String a p) (String a (p ++ after)%string) = true).
  cbn [starts_with]. now rewrite Ascii.eqb_refl, IH.
Qed.

(** A pattern that occurs somewhere is found by the search from the start. *)
Lemma occurs_at_found pattern s i : occurs_at pattern s i -> find_in pattern s 0 <> None.
Proof.
  intros (before & after & -> & _). generalize 0%nat.
  induction before as [|a b IH]; intros at_.
  - change (find_in pattern (pattern ++ after)%string at_ <> None).
    pose proof (starts_with_app pattern after) as Hstart.
    destruct (pattern ++ after)%string; cbn [find_in]; rewrite Hstart; discriminate.
  - change (find_in pattern (String a (b ++ pattern ++ after)%string) at_ <> None).
    cbn [find_in]. destruct (starts_with pattern _); [discriminate | apply IH].
Qed.

(** The sample program is built and registered as handle 5; the driver
    reports one active uniform, the sampler-2D "diffuse": the sampler table of
    the record is empty all the same. *)
Lemma CreateShaderProgram_samplerMap_empty_witness :
  let result := CreateShaderProgram (Sample.driver 3 3) Sample.shaderText Sample.device in
  fst result <> INVALID_HANDLE
  /\ exists record,
       shaderProgramMap (snd result) !! fst result = Some record
       /\ ShaderProgram.samplerMap record = ∅.
Proof.
  split.
  - vm_compute. discriminate.
  - apply (CreateShaderProgram_samplerMap_empty (Sample.driver 3 3) Sample.shaderText
             Sample.device).
    vm_compute. discriminate.
Defined.

(** The failing input of C1 spelled out: the driver reports one active
    uniform for program 5, of type sampler-2D and named "diffuse", and the
    record registered for program 5 has no entry for "diffuse". *)
Example CreateShaderProgram_drops_sampler :
  let result := CreateShaderProgram (Sample.driver 3 3) Sample.shaderText Sample.device in
  fst result = 5
  /\ drv_glGetProgramiv (Sample.driver 3 3) (calls (snd result)) 5 GL_ACTIVE_UNIFORMS = 1
  /\ activeType (drv_glGetActiveUniform (Sample.driver 3 3) (calls (snd result)) 5 0)
     = GL_SAMPLER_2D
  /\ (ShaderProgram.samplerMap <$> shaderProgramMap (snd result) !! 5) = Some ∅.
Proof. vm_compute. repeat split. Qed.

(** C2 as stated fails: with handle 0, [UpdateRenderTarget] changes the
    record of the default target, here from 640 by 480 to 800 by 600, and
    [UpdateUniformBuffer] sends four calls to the driver. *)
Lemma handle_zero_counterexample :
  fboMap Sample.device !! 0 = Some (FBOData.mk 640 480)
  /\ fboMap (snd (UpdateRenderTarget 0 800 600 Sample.device)) !! 0
     = Some (FBOData.mk 800 600)
  /\ snd (UpdateRenderTarget 0 800 600 Sample.device) <> Sample.device
  /\ emitted (UpdateUniformBuffer (Sample.driver 3 3) 0 8192 64) Sample.device
     = [glBindBuffer GL_UNIFORM_BUFFER 0; glMapBuffer GL_UNIFORM_BUFFER GL_WRITE_ONLY;
        memcpy 4096 8192 64; glUnmapBuffer GL_UNIFORM_BUFFER].
Proof.
  repeat apply conj; try (vm_compute; reflexivity).
  intros H. apply (f_equal (fun d => fboMap d !! 0)) in H. vm_compute in H. discriminate.
Qed.

(** C3 as stated fails for the scissor test: after
    [SetScissorTest(true, 0, 0, 10, 10)], the same call again leaves the
    cache as it is but sends [glScissor] to the driver once more. *)
Lemma scissor_repeated_counterexample :
  let d := snd (SetScissorTest true 0 0 10 10 Sample.device) in
  scissorTestEnabled d = true
  /\ emitted (SetScissorTest true 0 0 10 10) d = [glScissor 0 0 10 10]
  /\ SetScissorTest true 0 0 10 10 d <> (tt, d).
Proof.
  repeat apply conj; try (vm_compute; reflexivity).
  intros H. apply (f_equal (fun r => length (calls (snd r)))) in H.
  vm_compute in H. discriminate.
Qed.

(** Handle 5 is a render target of 1024 by 768; [UpdateRenderTarget] called
    with it writes handle 0 and leaves handle 5 alone. *)
Lemma UpdateRenderTarget_writes_default_witness :
  5 <> 0
  /\ let d' := snd (UpdateRenderTarget 5 800 600 Sample.device_with_target) in
     fboMap d' !! 0 = Some (FBOData.mk 800 600)
     /\ fboMap d' !! 5 = fboMap Sample.device_with_target !! 5
     /\ d' = set_fboMap (fboMap d') Sample.device_with_target
     /\ emitted (UpdateRenderTarget 5 800 600) Sample.device_with_target = [].
Proof.
  split; [discriminate|].
  apply (UpdateRenderTarget_writes_default 5 800 600 5 Sample.device_with_target).
  discriminate.
Defined.

(** A text with line feeds but no version directive. *)
Lemma CreateShaderProgram_missing_version_witness :
  let shaderText := ("void main() {}" ++ LF)%string in
  Z.of_nat (String.length shaderText) < npos
  /\ ~ has_version_directive shaderText
  /\ CreateShaderProgram (Sample.driver 3 3) shaderText Sample.device =
     (INVALID_HANDLE,
      set_cerr [[text "Error: Shader program is missing #version directive."]]
        (set_calls (calls Sample.device ++ [glCreateProgram]) Sample.device)).
Proof.
  assert (Hlen : Z.of_nat (String.length ("void main() {}" ++ LF)%string) < npos)
    by (vm_compute; reflexivity).
  assert (Hno : ~ has_version_directive ("void main() {}" ++ LF)%string).
  { intros (i & j & Hi & _). apply occurs_at_found in Hi. apply Hi.
    vm_compute. reflexivity. }
  split; [exact Hlen|]. split; [exact Hno|].
  exact (proj1 (CreateShaderProgram_missing_version (Sample.driver 3 3) _ Sample.device
                  Hlen Hno)).
Defined.

(** Buffer 0 of vertex array 5 has a capacity of 60 bytes; an update of 100
    bytes raises the recorded capacity to 100. *)
Lemma UpdateVertexArrayBuffer_capacity_witness :
  let vaoData := VertexArray.mk [7; 8; 9; 10] [60; 96; 16; 24] 4 6 35044 2 in
  5 <> 0
  /\ vaoMap Sample.device_with_array !! 5 = Some vaoData
  /\ VertexArray.buffers vaoData !! Z.to_nat 0 = Some 7
  /\ VertexArray.bufferSizes vaoData !! Z.to_nat 0 = Some 60
  /\ exists d' vaoData',
       UpdateVertexArrayBuffer Sample.USAGE_DYNAMIC_DRAW 5 0 8192 100
         Sample.device_with_array = Some (tt, d')
       /\ vaoMap d' !! 5 = Some vaoData'
       /\ VertexArray.bufferSizes vaoData' !! Z.to_nat 0 = Some 100.
Proof.
  assert (H5 : 5 <> 0) by discriminate.
  assert (Hreg : vaoMap Sample.device_with_array !! 5
                 = Some (VertexArray.mk [7; 8; 9; 10] [60; 96; 16; 24] 4 6 35044 2))
    by (vm_compute; reflexivity).
  repeat apply conj; try assumption; try reflexivity.
  destruct (UpdateVertexArrayBuffer_capacity Sample.USAGE_DYNAMIC_DRAW 5 0 8192 100
              Sample.device_with_array _ 7 60 H5 Hreg eq_refl eq_refl)
    as (d' & vaoData' & Hrun & Hmap & Hcap & _).
  exists d', vaoData'. auto.
Defined.

(** Two vertex components of 5 and 8 floats and an instance component of 4
    floats: slots 0 and 1 (widths 4 and 1), slots 2 and 3 (width 4 each) and
    slot 4 (width 4), which advances once per instance. *)
Lemma CreateVertexArray_attribute_slots_witness :
  0 <= 2 /\ 0 <= 1 /\ 2 + 1 + 1 < 2 ^ 32
  /\ Z.of_nat (length [5; 8; 4]) = 2 + 1
  /\ Forall (fun n => 0 <= n) [5; 8; 4]
  /\ exists vao d',
       CreateVertexArray Sample.USAGE_DYNAMIC_DRAW (Sample.driver 3 3) None [5; 8; 4] 2 1 3
         0 6 35044 Sample.device = Some (vao, d')
       /\ List.filter is_attribute_call (drop (length (calls Sample.device)) (calls d')) =
          [glEnableVertexAttribArray 0; glVertexAttribPointer 0 4 GL_FLOAT false 20 0;
           glEnableVertexAttribArray 1; glVertexAttribPointer 1 1 GL_FLOAT false 20 16;
           glEnableVertexAttribArray 2; glVertexAttribPointer 2 4 GL_FLOAT false 32 0;
           glEnableVertexAttribArray 3; glVertexAttribPointer 3 4 GL_FLOAT false 32 16;
           glEnableVertexAttribArray 4; glVertexAttribPointer 4 4 GL_FLOAT false 16 0;
           glVertexAttribDivisor 4 1].
Proof.
  assert (Hsizes : Forall (fun n => 0 <= n) [5; 8; 4]) by (repeat constructor; lia).
  repeat apply conj; try lia; try reflexivity; try exact Hsizes.
  destruct (CreateVertexArray_attribute_slots Sample.USAGE_DYNAMIC_DRAW (Sample.driver 3 3)
              None [5; 8; 4] 2 1 3 0 6 35044 Sample.device
              ltac:(lia) ltac:(lia) ltac:(lia) eq_refl Hsizes ltac:(discriminate))
    as (vao & d' & Hrun & Hslots & _).
  exists vao, d'. split; [exact Hrun|]. rewrite Hslots. vm_compute. reflexivity.
Defined.

(** Versions 3.3, 3.2, 3.1, 3.0, 2.1, 2.0 and 1.9. *)
Lemma GetShaderVersion_table_witness :
  shaderVersion Sample.device = ""%string
  /\ fst (GetShaderVersion (Sample.driver 3 3) Sample.device) = "330"%string
  /\ fst (GetShaderVersion (Sample.driver 3 2) Sample.device) = "150"%string
  /\ fst (GetShaderVersion (Sample.driver 3 1) Sample.device) = "140"%string
  /\ fst (GetShaderVersion (Sample.driver 3 0) Sample.device) = "130"%string
  /\ fst (GetShaderVersion (Sample.driver 2 1) Sample.device) = "120"%string
  /\ fst (GetShaderVersion (Sample.driver 2 0) Sample.device) = "110"%string
  /\ fst (GetShaderVersion (Sample.driver 1 9) Sample.device) = ""%string
  /\ (forall drv',
        GetShaderVersion drv' (snd (GetShaderVersion (Sample.driver 3 2) Sample.device))
        = ("150"%string, snd (GetShaderVersion (Sample.driver 3 2) Sample.device))).
Proof.
  assert (Hempty : shaderVersion Sample.device = ""%string) by reflexivity.
  split; [exact Hempty|].
  destruct (GetShaderVersion_table (Sample.driver 3 3) Sample.device Hempty)
    as (_ & _ & H330 & _).
  destruct (GetShaderVersion_table (Sample.driver 3 2) Sample.device Hempty)
    as (_ & _ & _ & H320 & _ & _ & _ & _ & _ & _ & _ & _ & Hmemo).
  destruct (GetShaderVersion_table (Sample.driver 3 1) Sample.device Hempty)
    as (_ & _ & _ & _ & _ & H310 & _).
  destruct (GetShaderVersion_table (Sample.driver 3 0) Sample.device Hempty)
    as (_ & _ & _ & _ & _ & _ & H300 & _).
  destruct (GetShaderVersion_table (Sample.driver 2 1) Sample.device Hempty)
    as (_ & _ & _ & _ & _ & _ & _ & H210 & _).
  destruct (GetShaderVersion_table (Sample.driver 2 0) Sample.device Hempty)
    as (_ & _ & _ & _ & _ & _ & _ & _ & H200 & _).
  destruct (GetShaderVersion_table (Sample.driver 1 9) Sample.device Hempty)
    as (_ & _ & _ & _ & _ & _ & _ & _ & _ & _ & H190 & _).
  split; [apply H330; vm_compute; reflexivity|].
  split; [apply H320; vm_compute; reflexivity|].
  split; [apply H310; vm_compute; split; [discriminate | reflexivity]|].
  split; [apply H300; vm_compute; split; [discriminate | reflexivity]|].
  split; [apply H210; vm_compute; split; [discriminate | reflexivity]|].
  split; [apply H200; vm_compute; split; [discriminate | reflexivity]|].
  split; [apply H190; vm_compute; reflexivity|].
  intros drv'. rewrite <- (H320 ltac:(vm_compute; reflexivity)).
  apply Hmemo. rewrite (H320 ltac:(vm_compute; reflexivity)). discriminate.
Defined.

(** Handle 5 has no record in the fresh device. *)
Lemma SetViewport_unregistered_witness :
  fboMap Sample.device !! 5 = None
  /\ let d' := snd (SetViewport 5 Sample.device) in
     fboMap d' = <[5 := FBOData.mk 0 0]> (fboMap Sample.device)
     /\ emitted (SetViewport 5) Sample.device = [glViewport 0 0 0 0]
     /\ (viewportFBO d', viewportWidth d', viewportHeight d') = (5, 0, 0).
Proof.
  assert (Hnone : fboMap Sample.device !! 5 = None) by reflexivity.
  split; [exact Hnone|].
  destruct (SetViewport_unregistered Sample.FACE_CULL_NONE Sample.BLEND_FUNC_NONE 5
              Sample.device Hnone) as (Hmap & Hemitted & Hcache & _).
  repeat apply conj; [exact Hmap | exact Hemitted | exact Hcache].
Defined.

(** C10 as stated fails in two places. Once the viewport has been set for
    handle 5 and the handle released, handle 5 has no record again, and
    [SetViewport] for it inserts the record but applies no viewport: the
    cached one is already handle 5 at 0 by 0. And [Draw] on an unregistered
    handle with an instance count of 0 inserts nothing. *)
Lemma SetViewport_unregistered_counterexample :
  let d1 := snd (SetViewport 5 Sample.device) in
  let d2 := snd (ReleaseRenderTarget 5 d1) in
  fboMap d2 !! 5 = None
  /\ emitted (SetViewport 5) d2 = []
  /\ fboMap (snd (SetViewport 5 d2)) !! 5 = Some (FBOData.mk 0 0)
  /\ fboMap (snd (Draw Sample.FACE_CULL_NONE Sample.BLEND_FUNC_NONE 5 0 0
                    Sample.drawParameters 0 6 Sample.device)) !! 5 = None.
Proof. vm_compute. repeat split. Qed.

(** * Further properties of the device

    What follows covers the methods and the paths of the device that the
    properties above leave out. The header's enumerators are abstract again. *)

Section Further.

Variable FACE_CULL_NONE : Z.
Variable BLEND_FUNC_NONE : Z.
Variable USAGE_DYNAMIC_DRAW : Z.

Ltac run :=
  unfold bind, ret, get, modify, gl, gl_ask, log, when; cbn -[Z.eqb Z.leb Z.ltb].

(** Rewrites the comparisons that are known or trivial. *)
Ltac settle :=
  repeat (progress
    (repeat match goal with
            | H : ?c = true |- context [?c] => rewrite H
            | H : ?c = false |- context [?c] => rewrite H
            end;
     rewrite ?Z.eqb_refl, ?Bool.eqb_reflx; cbn -[Z.eqb Z.leb Z.ltb])).

(** ** A [Set] repeated *)

Lemma SetFBO_twice fbo d : SetFBO fbo (snd (SetFBO fbo d)) = (tt, snd (SetFBO fbo d)).
Proof. unfold SetFBO. run. destruct (fbo =? boundFBO d) eqn:E; settle; reflexivity. Qed.

Lemma SetVAO_twice vao d : SetVAO vao (snd (SetVAO vao d)) = (tt, snd (SetVAO vao d)).
Proof. unfold SetVAO. run. destruct (vao =? boundVAO d) eqn:E; settle; reflexivity. Qed.

Lemma SetShader_twice shader d :
  SetShader shader (snd (SetShader shader d)) = (tt, snd (SetShader shader d)).
Proof.
  unfold SetShader. run. destruct (shader =? boundShader d) eqn:E; settle; reflexivity.
Qed.

Lemma SetStencilWriteMask_twice mask d :
  SetStencilWriteMask mask (snd (SetStencilWriteMask mask d))
  = (tt, snd (SetStencilWriteMask mask d)).
Proof.
  unfold SetStencilWriteMask. run.
  destruct (currentStencilWriteMask d =? mask) eqn:E; settle; reflexivity.
Qed.

Lemma SetFaceCulling_twice faceCulling d :
  SetFaceCulling FACE_CULL_NONE faceCulling (snd (SetFaceCulling FACE_CULL_NONE faceCulling d))
  = (tt, snd (SetFaceCulling FACE_CULL_NONE faceCulling d)).
Proof.
  unfold SetFaceCulling. run.
  destruct (faceCulling =? currentFaceCulling d) eqn:E; settle; [reflexivity|].
  destruct (faceCulling =? FACE_CULL_NONE); [settle; reflexivity|].
  destruct (currentFaceCulling d =? FACE_CULL_NONE); settle; reflexivity.
Qed.

Lemma SetBlending_twice sourceBlend destinationBlend d :
  SetBlending BLEND_FUNC_NONE sourceBlend destinationBlend
    (snd (SetBlending BLEND_FUNC_NONE sourceBlend destinationBlend d))
  = (tt, snd (SetBlending BLEND_FUNC_NONE sourceBlend destinationBlend d)).
Proof.
  unfold SetBlending. run.
  destruct ((sourceBlend =? currentSourceBlend d) && (destinationBlend =? currentDestBlend d))
    eqn:E; settle; [reflexivity|].
  destruct ((sourceBlend =? BLEND_FUNC_NONE) || (destinationBlend =? BLEND_FUNC_NONE));
    [settle; reflexivity|].
  destruct ((currentSourceBlend d =? BLEND_FUNC_NONE) || (currentDestBlend d =? BLEND_FUNC_NONE));
    settle; reflexivity.
Qed.

Lemma SetDepthTest_twice shouldWrite depthFunc d :
  SetDepthTest shouldWrite depthFunc (snd (SetDepthTest shouldWrite depthFunc d))
  = (tt, snd (SetDepthTest shouldWrite depthFunc d)).
Proof.
  unfold SetDepthTest. run.
  destruct (Bool.eqb shouldWrite (shouldWriteDepth d)) eqn:E1; cbn -[Z.eqb];
    destruct (depthFunc =? currentDepthFunc d) eqn:E2; settle; reflexivity.
Qed.

Lemma SetStencilTest_twice enable stencilFunc stencilTestMask stencilWriteMask
    stencilComparisonVal stencilFail stencilPassButDepthFail stencilPass d :
  let set_ := SetStencilTest enable stencilFunc stencilTestMask stencilWriteMask
                stencilComparisonVal stencilFail stencilPassButDepthFail stencilPass in
  set_ (snd (set_ d)) = (tt, snd (set_ d)).
Proof.
  cbn zeta. unfold SetStencilTest, SetStencilWriteMask. run.
  destruct d as [? ? ? ? ? ? ? ? ? ? ? ? cFunc cTestMask cWriteMask cVal cFail cPassDepthFail
                   cPass ? ? enabled ? ? ? ? ? ? ? ?].
  cbn -[Z.eqb].
  destruct enable, enabled; cbn -[Z.eqb];
    destruct (negb (stencilFunc =? cFunc) || negb (stencilTestMask =? cTestMask)
              || negb (stencilComparisonVal =? cVal)) eqn:E2;
    cbn -[Z.eqb];
    destruct (negb (stencilFail =? cFail) || negb (stencilPass =? cPass)
              || negb (stencilPassButDepthFail =? cPassDepthFail)) eqn:E3;
    cbn -[Z.eqb];
    destruct (cWriteMask =? stencilWriteMask) eqn:E4;
    settle; reflexivity.
Qed.

Lemma SetViewport_twice fbo d :
  SetViewport fbo (snd (SetViewport fbo d)) = (tt, snd (SetViewport fbo d)).
Proof.
  unfold SetViewport, fboMap_at. run.
  destruct (fboMap d !! fbo) as [data|] eqn:Hdata; cbn -[Z.eqb].
  - destruct ((fbo =? viewportFBO d) && (FBOData.width data =? viewportWidth d)
              && (FBOData.height data =? viewportHeight d)) eqn:E; cbn -[Z.eqb];
      rewrite Hdata; settle; reflexivity.
  - destruct ((fbo =? viewportFBO d) && (0 =? viewportWidth d) && (0 =? viewportHeight d))
      eqn:E; cbn -[Z.eqb]; rewrite lookup_insert_eq; settle; reflexivity.
Qed.

Lemma SetScissorTest_twice enable startX startY width height d :
  let d' := snd (SetScissorTest enable startX startY width height d) in
  SetScissorTest enable startX startY width height d' =
  (tt, if enable then set_calls (calls d' ++ [glScissor startX startY width height]) d'
       else d').
Proof.
  cbn zeta. unfold SetScissorTest. run.
  destruct d as [? ? ? ? ? ? ? ? ? ? ? ? ? ? ? ? ? ? ? ? ? ? enabled ? ? ? ? ? ? ?].
  destruct enable, enabled; reflexivity.
Qed.

(** X1. A [Set] called twice in a row with the same arguments: from any
    state, the second call sends nothing to the driver and changes nothing,
    for the framebuffer, viewport, vertex array, shader, face culling, depth,
    blending, stencil and stencil write mask. For the scissor test the second
    call changes nothing in the cache, and sends [glScissor] again when it
    enables. *)
Theorem Set_repeated (d : Device) (fbo vao shader mask faceCulling depthFunc sourceBlend
    destinationBlend stencilFunc stencilTestMask stencilWriteMask stencilComparisonVal
    stencilFail stencilPassButDepthFail stencilPass startX startY width height : Z)
    (shouldWrite enable : bool) :
  let twice (m : M unit) := m (snd (m d)) = (tt, snd (m d)) in
  twice (SetFBO fbo)
  /\ twice (SetViewport fbo)
  /\ twice (SetVAO vao)
  /\ twice (SetShader shader)
  /\ twice (SetFaceCulling FACE_CULL_NONE faceCulling)
  /\ twice (SetDepthTest shouldWrite depthFunc)
  /\ twice (SetBlending BLEND_FUNC_NONE sourceBlend destinationBlend)
  /\ twice (SetStencilTest enable stencilFunc stencilTestMask stencilWriteMask
              stencilComparisonVal stencilFail stencilPassButDepthFail stencilPass)
  /\ twice (SetStencilWriteMask mask)
  /\ (let d' := snd (SetScissorTest enable startX startY width height d) in
      SetScissorTest enable startX startY width height d' =
      (tt, if enable
           then set_calls (calls d' ++ [glScissor startX startY width height]) d'
           else d')).
Proof.
  cbn zeta. repeat apply conj.
  - apply SetFBO_twice.
  - apply SetViewport_twice.
  - apply SetVAO_twice.
  - apply SetShader_twice.
  - apply SetFaceCulling_twice.
  - apply SetDepthTest_twice.
  - apply SetBlending_twice.
  - apply SetStencilTest_twice.
  - apply SetStencilWriteMask_twice.
  - apply SetScissorTest_twice.
Qed.

(** ** The state of the driver

    The calls that set a piece of the context's state, read as the OpenGL
    reference describes them: each writes the registers named after its
    parameters, and the last write stands. The other calls write none of
    these registers. Every call is taken to be accepted: the three binding
    registers hold the name the driver was last asked to bind, which is its
    binding where it accepts the name. (A core-profile driver refuses a
    framebuffer name that [glGenFramebuffers] did not hand out, and
    [CreateRenderTarget] takes its names from [glGenBuffers].) *)

Inductive Register : Set :=
  | BoundFramebuffer | BoundVertexArray | CurrentProgram
  | ViewportX | ViewportY | ViewportW | ViewportH
  | Enabled (cap : GLenum)
  | CullFaceMode | BlendSrc | BlendDst
  | ScissorX | ScissorY | ScissorW | ScissorH
  | DepthWriteMask | DepthFunc
  | StencilFunc | StencilRef | StencilValueMask
  | StencilFail | StencilPassDepthFail | StencilPassDepthPass | StencilWriteMask
  | PixelStore (pname : GLenum).

Definition written (c : GLCall) (r : Register) : option Z :=
  match c with
  | glBindFramebuffer _ framebuffer =>
      match r with BoundFramebuffer => Some framebuffer | _ => None end
  | glBindVertexArray array =>
      match r with BoundVertexArray => Some array | _ => None end
  | glUseProgram program =>
      match r with CurrentProgram => Some program | _ => None end
  | glViewport x y w h =>
      match r with
      | ViewportX => Some x | ViewportY => Some y | ViewportW => Some w | ViewportH => Some h
      | _ => None
      end
  | glEnable cap =>
      match r with
      | Enabled cap' => if bool_decide (cap = cap') then Some 1 else None
      | _ => None
      end
  | glDisable cap =>
      match r with
      | Enabled cap' => if bool_decide (cap = cap') then Some 0 else None
      | _ => None
      end
  | glCullFace mode => match r with CullFaceMode => Some mode | _ => None end
  | glBlendFunc sfactor dfactor =>
      match r with BlendSrc => Some sfactor | BlendDst => Some dfactor | _ => None end
  | glScissor x y w h =>
      match r with
      | ScissorX => Some x | ScissorY => Some y | ScissorW => Some w | ScissorH => Some h
      | _ => None
      end
  | glDepthMask flag => match r with DepthWriteMask => Some (Z.b2z flag) | _ => None end
  | glDepthFunc func => match r with DepthFunc => Some func | _ => None end
  | glStencilFunc func ref mask =>
      match r with
      | StencilFunc => Some func | StencilRef => Some ref | StencilValueMask => Some mask
      | _ => None
      end
  | glStencilOp fail zfail zpass =>
      match r with
      | StencilFail => Some fail | StencilPassDepthFail => Some zfail
      | StencilPassDepthPass => Some zpass
      | _ => None
      end
  | glStencilMask mask => match r with StencilWriteMask => Some mask | _ => None end
  | glPixelStorei pname param =>
      match r with
      | PixelStore pname' => if bool_decide (pname = pname') then Some param else None
      | _ => None
      end
  | _ => None
  end.

(** The driver's registers after it has processed the calls [cs]. *)
Fixpoint replay (cs : list GLCall) (g : Register -> Z) : Register -> Z :=
  match cs with
  | [] => g
  | c :: cs' => replay cs' (fun r => default (g r) (written c r))
  end.

Lemma replay_app cs1 cs2 g : replay (cs1 ++ cs2) g = replay cs2 (replay cs1 g).
Proof. revert g. induction cs1 as [|c cs IH]; intros g; [reflexivity | apply IH]. Qed.

(** What a register holds after the calls [cs] depends on what it held
    before, not on the other registers, and not even on that once one of the
    calls has written it. *)
Lemma replay_local cs r g g' : g r = g' r -> replay cs g r = replay cs g' r.
Proof.
  revert g g'. induction cs as [|c cs IH]; intros g g' H; [exact H|].
  cbn [replay]. apply IH. now rewrite H.
Qed.

Lemma replay_overwritten cs r g g' :
  Exists (fun c => is_Some (written c r)) cs -> replay cs g r = replay cs g' r.
Proof.
  intros H. revert g g'. induction H as [c cs [v Hv]|c cs _ IH]; intros g g'.
  - cbn [replay]. apply replay_local. now rewrite Hv.
  - cbn [replay]. apply IH.
Qed.

(** Modelled from the OpenGL reference: the state of a context that has
    just been made current on a window of [width] by [height]. Nothing is
    bound; the viewport and the scissor box are the window; of the
    capabilities the device switches none is enabled; the cull mode is
    [GL_BACK], the blend factors are [GL_ONE] and [GL_ZERO], depth writes are
    on and the depth comparison is [GL_LESS]; the stencil comparison is
    [GL_ALWAYS] against 0 under a mask of all ones, the stencil operations are
    [GL_KEEP] and the stencil write mask is all ones; both alignments are 4. *)
Definition initial_registers (width height : Z) : Register -> Z := fun r =>
  match r with
  | BoundFramebuffer | BoundVertexArray | CurrentProgram => 0
  | ViewportX | ViewportY | ScissorX | ScissorY => 0
  | ViewportW | ScissorW => width
  | ViewportH | ScissorH => height
  | Enabled _ => 0
  | CullFaceMode => 1029
  | BlendSrc => 1
  | BlendDst => 0
  | DepthWriteMask => 1
  | DepthFunc => 513
  | StencilFunc => 519
  | StencilRef => 0
  | StencilValueMask => 4294967295
  | StencilFail | StencilPassDepthFail | StencilPassDepthPass => 7680
  | StencilWriteMask => 4294967295
  | PixelStore _ => 4
  end.

(** ** The cache and the driver

    The state the cache mirrors falls into parts that are set, and tested,
    independently of each other. For each part, what it means that the cache
    agrees with the driver's registers:
    - the bound framebuffer, vertex array and program are the cached ones;
    - the viewport is the cached width and height at the origin;
    - culling and blending are on in the driver exactly when the cached mode
      or pair has no "none" in it, and only then do the cached mode and
      factors have to be the driver's;
    - the scissor test is on exactly when the cache says so (the rectangle
      is not cached);
    - the depth write mask and comparison are the cached ones;
    - the stencil test is on exactly when the cache says so, and the
      comparison function, the three operations and the write mask are the
      cached ones;
    - a cached pack or unpack alignment is the driver's, unless it is 0: the
      constructor caches 0, which is no alignment, for "not set yet".
    The reference value and the mask of the stencil comparison belong to no
    part: the device hands [glStencilFunc] its test mask where the reference
    value goes and its comparison value where the mask goes, and caches them
    under its own names. *)
Inductive Aspect : Set :=
  | BoundObjects | Viewport | FaceCulling | Blending | ScissorTest | DepthTest
  | StencilTest | PixelAlignment.

Definition agrees (asp : Aspect) (g : Register -> Z) (d : Device) : Prop :=
  match asp with
  | BoundObjects =>
      g BoundFramebuffer = boundFBO d
      /\ g BoundVertexArray = boundVAO d
      /\ g CurrentProgram = boundShader d
  | Viewport =>
      (g ViewportX, g ViewportY, g ViewportW, g ViewportH)
      = (0, 0, viewportWidth d, viewportHeight d)
  | FaceCulling =>
      g (Enabled GL_CULL_FACE) = Z.b2z (negb (currentFaceCulling d =? FACE_CULL_NONE))
      /\ (currentFaceCulling d <> FACE_CULL_NONE -> g CullFaceMode = currentFaceCulling d)
  | Blending =>
      g (Enabled GL_BLEND)
      = Z.b2z (negb ((currentSourceBlend d =? BLEND_FUNC_NONE)
                     || (currentDestBlend d =? BLEND_FUNC_NONE)))
      /\ (currentSourceBlend d <> BLEND_FUNC_NONE -> currentDestBlend d <> BLEND_FUNC_NONE ->
          g BlendSrc = currentSourceBlend d /\ g BlendDst = currentDestBlend d)
  | ScissorTest => g (Enabled GL_SCISSOR_TEST) = Z.b2z (scissorTestEnabled d)
  | DepthTest =>
      g DepthWriteMask = Z.b2z (shouldWriteDepth d) /\ g DepthFunc = currentDepthFunc d
  | StencilTest =>
      g (Enabled GL_STENCIL_TEST) = Z.b2z (stencilTestEnabled d)
      /\ g StencilFunc = currentStencilFunc d
      /\ g StencilFail = currentStencilFail d
      /\ g StencilPassDepthFail = currentStencilPassButDepthFail d
      /\ g StencilPassDepthPass = currentStencilPass d
      /\ g StencilWriteMask = currentStencilWriteMask d
  | PixelAlignment =>
      (currentPackAlignment d <> 0 ->
       g (PixelStore GL_PACK_ALIGNMENT) = currentPackAlignment d)
      /\ (currentUnpackAlignment d <> 0 ->
          g (PixelStore GL_UNPACK_ALIGNMENT) = currentUnpackAlignment d)
  end.

Lemma coherent_emitted {A} (m : M A) d l asp g :
  calls (snd (m d)) = calls d ++ l ->
  agrees asp (replay l g) (snd (m d)) ->
  agrees asp (replay (emitted m d) g) (snd (m d)).
Proof. intros Hl H. now rewrite (emitted_intro m d l Hl). Qed.

Ltac trace_eq :=
  cbn -[Z.eqb]; first [symmetry; apply app_nil_r | rewrite <- ?app_assoc; reflexivity].

(** Turns the comparisons in the context into equations and closes a goal
    about the registers. *)
Ltac registers :=
  repeat match goal with
         | H : _ && _ = true |- _ => apply andb_prop in H; destruct H
         | H : _ || _ = false |- _ => apply orb_false_elim in H; destruct H
         | H : negb _ = true |- _ => apply negb_true_iff in H
         | H : negb _ = false |- _ => apply negb_false_iff in H
         | H : (_ =? _) = true |- _ => apply Z.eqb_eq in H
         | H : (_ =? _) = false |- _ => apply Z.eqb_neq in H
         end;
  repeat match goal with
         | E : ?c = _, H : context [Z.b2z ?c] |- _ => rewrite E in H
         | E : ?c = _ |- context [Z.b2z ?c] => rewrite E
         end;
  cbn -[Z.eqb] in *;
  repeat match goal with
         | |- context [?a =? ?b] => destruct (Z.eqb_spec a b); cbn -[Z.eqb] in *
         | H : context [?a =? ?b] |- _ => destruct (Z.eqb_spec a b); cbn -[Z.eqb] in *
         end;
  try solve [intuition (auto; try congruence)].

Ltac coherent_case op :=
  eapply coherent_emitted;
  [ unfold op; run; settle; trace_eq
  | unfold op; run; settle;
    match goal with H : agrees ?x _ _ |- _ => destruct x; unfold agrees in H |- * end;
    cbn -[Z.eqb] in *; registers ].

Lemma SetFBO_coherent fbo asp g d :
  agrees asp g d -> agrees asp (replay (emitted (SetFBO fbo) d) g) (snd (SetFBO fbo d)).
Proof. intros H. destruct (fbo =? boundFBO d) eqn:E; coherent_case SetFBO. Qed.

Lemma SetVAO_coherent vao asp g d :
  agrees asp g d -> agrees asp (replay (emitted (SetVAO vao) d) g) (snd (SetVAO vao d)).
Proof. intros H. destruct (vao =? boundVAO d) eqn:E; coherent_case SetVAO. Qed.

Lemma SetShader_coherent shader asp g d :
  agrees asp g d ->
  agrees asp (replay (emitted (SetShader shader) d) g) (snd (SetShader shader d)).
Proof. intros H. destruct (shader =? boundShader d) eqn:E; coherent_case SetShader. Qed.

Lemma SetStencilWriteMask_coherent mask asp g d :
  agrees asp g d ->
  agrees asp (replay (emitted (SetStencilWriteMask mask) d) g)
    (snd (SetStencilWriteMask mask d)).
Proof.
  intros H. destruct (currentStencilWriteMask d =? mask) eqn:E;
    coherent_case SetStencilWriteMask.
Qed.

Lemma SetViewport_coherent fbo asp g d :
  agrees asp g d ->
  agrees asp (replay (emitted (SetViewport fbo) d) g) (snd (SetViewport fbo d)).
Proof.
  intros H. rewrite SetViewport_emitted. cbn zeta.
  unfold SetViewport, fboMap_at. run.
  destruct (fboMap d !! fbo) as [data|]; cbn -[Z.eqb];
    match goal with |- context [if ?c then _ else _] => destruct c eqn:E end;
    destruct asp; unfold agrees in *; cbn -[Z.eqb] in *; registers.
Qed.

Lemma SetFaceCulling_coherent faceCulling asp g d :
  agrees asp g d ->
  agrees asp (replay (emitted (SetFaceCulling FACE_CULL_NONE faceCulling) d) g)
    (snd (SetFaceCulling FACE_CULL_NONE faceCulling d)).
Proof.
  intros H. destruct (faceCulling =? currentFaceCulling d) eqn:E1;
    [coherent_case SetFaceCulling|].
  destruct (faceCulling =? FACE_CULL_NONE) eqn:E2; [coherent_case SetFaceCulling|].
  destruct (currentFaceCulling d =? FACE_CULL_NONE) eqn:E3; coherent_case SetFaceCulling.
Qed.

Lemma SetBlending_coherent sourceBlend destinationBlend asp g d :
  agrees asp g d ->
  agrees asp (replay (emitted (SetBlending BLEND_FUNC_NONE sourceBlend destinationBlend) d) g)
    (snd (SetBlending BLEND_FUNC_NONE sourceBlend destinationBlend d)).
Proof.
  intros H.
  destruct ((sourceBlend =? currentSourceBlend d) && (destinationBlend =? currentDestBlend d))
    eqn:E1; [coherent_case SetBlending|].
  destruct ((sourceBlend =? BLEND_FUNC_NONE) || (destinationBlend =? BLEND_FUNC_NONE))
    eqn:E2; [coherent_case SetBlending|].
  destruct ((currentSourceBlend d =? BLEND_FUNC_NONE)
            || (currentDestBlend d =? BLEND_FUNC_NONE)) eqn:E3; coherent_case SetBlending.
Qed.

Lemma SetScissorTest_coherent enable startX startY width height asp g d :
  agrees asp g d ->
  agrees asp (replay (emitted (SetScissorTest enable startX startY width height) d) g)
    (snd (SetScissorTest enable startX startY width height d)).
Proof.
  intros H. destruct enable, (scissorTestEnabled d) eqn:E; coherent_case SetScissorTest.
Qed.

Lemma SetDepthTest_coherent shouldWrite depthFunc asp g d :
  agrees asp g d ->
  agrees asp (replay (emitted (SetDepthTest shouldWrite depthFunc) d) g)
    (snd (SetDepthTest shouldWrite depthFunc d)).
Proof.
  intros H.
  destruct shouldWrite, (shouldWriteDepth d) eqn:E1;
    destruct (depthFunc =? currentDepthFunc d) eqn:E2; coherent_case SetDepthTest.
Qed.

(** A method keeps the cache in agreement with the driver: on every part on
    which they agreed before, they agree once the driver has processed what
    the method sent. *)
Definition keeps_coherent {A} (m : M A) : Prop :=
  forall asp g d, agrees asp g d -> agrees asp (replay (emitted m d) g) (snd (m d)).

Lemma keeps_coherent_bind {A B} (m : M A) (k : A -> M B) :
  emits any_call m -> (forall a, emits any_call (k a)) ->
  keeps_coherent m -> (forall a, keeps_coherent (k a)) -> keeps_coherent (bind m k).
Proof.
  intros Em Ek Hm Hk asp g d H. rewrite emitted_bind, replay_app by assumption.
  unfold bind. specialize (Hm asp g d H). destruct (m d) as [a d1]. cbn [fst snd] in *.
  now apply Hk.
Qed.

(** A call that writes none of the registers. *)
Definition untracked (c : GLCall) : Prop := forall r, written c r = None.

Lemma replay_untracked l g : Forall untracked l -> forall r, replay l g r = g r.
Proof.
  intros Hl. revert g. induction Hl as [|c l Hc _ IH]; intros g r; [reflexivity|].
  cbn [replay]. rewrite IH. now rewrite Hc.
Qed.

Lemma coherent_ext asp g g' d : (forall r, g' r = g r) -> agrees asp g d -> agrees asp g' d.
Proof. intros Hg H. destruct asp; unfold agrees in *; now rewrite !Hg. Qed.

(** A method that sends only such calls and leaves the device's data members
    alone keeps the agreement. *)
Lemma keeps_coherent_untracked {A} (m : M A) :
  emits untracked m ->
  (forall d, set_cerr (cerr d) (set_calls (calls d) (snd (m d))) = d) ->
  keeps_coherent m.
Proof.
  intros Hm Hd asp g d H.
  apply (coherent_ext asp g); [apply replay_untracked, (emitted_Forall _ m d Hm)|].
  specialize (Hd d). destruct (snd (m d)), d.
  cbn in Hd. inversion Hd; subst. exact H.
Qed.

Lemma keeps_coherent_quiet {A} (m : M A) :
  (forall d, calls (snd (m d)) = calls d) ->
  (forall asp g d, agrees asp g d -> agrees asp g (snd (m d))) ->
  keeps_coherent m.
Proof.
  intros Hc Hd asp g d H. rewrite (emitted_intro m d []); [now apply Hd|].
  now rewrite Hc, app_nil_r.
Qed.

Lemma keeps_coherent_ret {A} (a : A) : keeps_coherent (ret a).
Proof. apply keeps_coherent_quiet; auto. Qed.

Lemma keeps_coherent_get {A} (f : Device -> A) : keeps_coherent (get f).
Proof. apply keeps_coherent_quiet; auto. Qed.

Lemma keeps_coherent_log line : keeps_coherent (log line).
Proof. apply keeps_coherent_quiet; [reflexivity | intros asp g [] H; exact H]. Qed.

Lemma keeps_coherent_gl c : untracked c -> keeps_coherent (gl c).
Proof.
  intros Hc. apply keeps_coherent_untracked; [now apply emits_gl | intros []; reflexivity].
Qed.

Lemma keeps_coherent_gl_ask {A} (answer : list GLCall -> A) c :
  untracked c -> keeps_coherent (gl_ask answer c).
Proof.
  intros Hc. apply keeps_coherent_untracked; [now apply emits_gl_ask | intros []; reflexivity].
Qed.

Lemma keeps_coherent_when b m : keeps_coherent m -> keeps_coherent (when b m).
Proof. intros Hm. destruct b; [exact Hm | apply keeps_coherent_ret]. Qed.

Create HintDb trace discriminated.
#[local] Hint Resolve emits_ret emits_get emits_log emits_bind emits_when emits_for_fold
  emits_for_range : trace.
#[local] Hint Extern 1 (emits _ (gl _)) =>
  (apply emits_gl; first [exact I | reflexivity | intros ?; reflexivity]) : trace.
#[local] Hint Extern 1 (emits _ (gl_ask _ _)) =>
  (apply emits_gl_ask; first [exact I | reflexivity | intros ?; reflexivity]) : trace.
#[local] Hint Extern 1 (emits _ (modify _)) =>
  (apply emits_modify; intros []; reflexivity) : trace.
#[local] Hint Extern 2 (emits _ (if ?b then _ else _)) => destruct b : trace.
#[local] Hint Extern 2 (emits _ (match ?o with Some _ => _ | None => _ end)) =>
  destruct o : trace.
#[local] Hint Extern 2 (emits _ (let (_, _) := ?p in _)) => destruct p : trace.
#[local] Hint Extern 2 (emits _ (match ?f with FORMAT_R => _ | _ => _ end)) =>
  destruct f : trace.

Ltac emits_of f := unfold f; intros; eauto 40 with trace.

Lemma SetPixelAlignment_emits p u : emits any_call (SetPixelAlignment p u).
Proof. emits_of SetPixelAlignment. Qed.

Lemma SetStencilWriteMask_emits mask : emits any_call (SetStencilWriteMask mask).
Proof. emits_of SetStencilWriteMask. Qed.

Lemma SetStencilTest_emits enable a b c e f h i :
  emits any_call (SetStencilTest enable a b c e f h i).
Proof. pose proof SetStencilWriteMask_emits. emits_of SetStencilTest. Qed.

#[local] Hint Resolve SetPixelAlignment_emits SetStencilWriteMask_emits SetStencilTest_emits
  : trace.
#[local] Hint Extern 1 (emits any_call (SetFBO _)) =>
  exact (emits_extends _ _ (SetFBO_emits _)) : trace.
#[local] Hint Extern 1 (emits any_call (SetViewport _)) =>
  exact (emits_extends _ _ (SetViewport_emits _)) : trace.
#[local] Hint Extern 1 (emits any_call (SetVAO _)) =>
  exact (emits_extends _ _ (SetVAO_emits _)) : trace.
#[local] Hint Extern 1 (emits any_call (SetShader _)) =>
  exact (emits_extends _ _ (SetShader_emits _)) : trace.
#[local] Hint Extern 1 (emits any_call (SetBlending _ _ _)) =>
  exact (emits_extends _ _ (SetBlending_emits _ _ _)) : trace.
#[local] Hint Extern 1 (emits any_call (SetScissorTest _ _ _ _ _)) =>
  exact (emits_extends _ _ (SetScissorTest_emits _ _ _ _ _)) : trace.
#[local] Hint Extern 1 (emits any_call (SetFaceCulling _ _)) =>
  exact (emits_extends _ _ (SetFaceCulling_emits _ _)) : trace.
#[local] Hint Extern 1 (emits any_call (SetDepthTest _ _)) =>
  exact (emits_extends _ _ (SetDepthTest_emits _ _)) : trace.
#[local] Hint Extern 1 (emits any_call (SetDrawParameters _ _ _)) =>
  exact (emits_extends _ _ (SetDrawParameters_emits _ _ _)) : trace.

(** [SetStencilTest] is four settings in a row, each one guarded by its own
    comparison with the cache. *)
Lemma coherent_bind_get {A B} (f : Device -> A) (k : A -> M B) asp g d :
  agrees asp (replay (emitted (k (f d)) d) g) (snd (k (f d) d)) ->
  agrees asp (replay (emitted (bind (get f) k) d) g) (snd (bind (get f) k d)).
Proof. intros H. exact H. Qed.

Lemma coherent_seq {A B} (m : M A) (k : M B) asp g d :
  emits any_call m -> emits any_call k ->
  agrees asp (replay (emitted m d) g) (snd (m d)) -> keeps_coherent k ->
  agrees asp (replay (emitted (m ;; k) d) g) (snd ((m ;; k) d)).
Proof.
  intros Em Ek Hm Hk. rewrite emitted_bind, replay_app by (intros; assumption).
  unfold bind. destruct (m d) as [a d1]. cbn [fst snd] in *. now apply Hk.
Qed.

Lemma stencil_enable_coherent (enable : bool) asp g d :
  let m := when (negb (Bool.eqb enable (stencilTestEnabled d)))
             ((if enable then gl (glEnable GL_STENCIL_TEST)
               else gl (glDisable GL_STENCIL_TEST)) ;;
              modify (set_stencilTestEnabled enable)) in
  agrees asp g d -> agrees asp (replay (emitted m d) g) (snd (m d)).
Proof.
  cbn zeta. intros H.
  destruct enable, (stencilTestEnabled d) eqn:E;
    (eapply coherent_emitted;
     [run; trace_eq | run; destruct asp; unfold agrees in H |- *; cbn -[Z.eqb] in *; registers]).
Qed.

Lemma stencil_func_coherent (b : bool) stencilFunc stencilTestMask stencilComparisonVal asp g d :
  let m := when b
             (gl (glStencilFunc stencilFunc stencilTestMask stencilComparisonVal) ;;
              modify (set_currentStencilComparisonVal stencilComparisonVal) ;;
              modify (set_currentStencilTestMask stencilTestMask) ;;
              modify (set_currentStencilFunc stencilFunc)) in
  agrees asp g d -> agrees asp (replay (emitted m d) g) (snd (m d)).
Proof.
  cbn zeta. intros H.
  destruct b;
    (eapply coherent_emitted;
     [run; trace_eq | run; destruct asp; unfold agrees in H |- *; cbn -[Z.eqb] in *; registers]).
Qed.

Lemma stencil_op_coherent (b : bool) stencilFail stencilPassButDepthFail stencilPass asp g d :
  let m := when b
             (gl (glStencilOp stencilFail stencilPassButDepthFail stencilPass) ;;
              modify (set_currentStencilFail stencilFail) ;;
              modify (set_currentStencilPass stencilPass) ;;
              modify (set_currentStencilPassButDepthFail stencilPassButDepthFail)) in
  agrees asp g d -> agrees asp (replay (emitted m d) g) (snd (m d)).
Proof.
  cbn zeta. intros H.
  destruct b;
    (eapply coherent_emitted;
     [run; trace_eq | run; destruct asp; unfold agrees in H |- *; cbn -[Z.eqb] in *; registers]).
Qed.

Lemma SetStencilTest_coherent enable stencilFunc stencilTestMask stencilWriteMask
    stencilComparisonVal stencilFail stencilPassButDepthFail stencilPass asp g d :
  let set_ := SetStencilTest enable stencilFunc stencilTestMask stencilWriteMask
                stencilComparisonVal stencilFail stencilPassButDepthFail stencilPass in
  agrees asp g d -> agrees asp (replay (emitted set_ d) g) (snd (set_ d)).
Proof.
  cbn zeta. intros H. unfold SetStencilTest.
  apply coherent_bind_get; cbn beta.
  apply coherent_seq;
    [eauto 40 with trace | eauto 40 with trace | apply stencil_enable_coherent, H|].
  clear asp g d H. intros asp g d H. do 3 (apply coherent_bind_get; cbn beta).
  apply coherent_seq;
    [eauto 40 with trace | eauto 40 with trace | apply stencil_func_coherent, H|].
  clear asp g d H. intros asp g d H. do 3 (apply coherent_bind_get; cbn beta).
  apply coherent_seq;
    [eauto 40 with trace | eauto 40 with trace | apply stencil_op_coherent, H|].
  clear asp g d H. intros asp g d H. now apply SetStencilWriteMask_coherent.
Qed.

Lemma SetPixelAlignment_coherent packAlignment unpackAlignment asp g d :
  agrees asp g d ->
  agrees asp (replay (emitted (SetPixelAlignment packAlignment unpackAlignment) d) g)
    (snd (SetPixelAlignment packAlignment unpackAlignment d)).
Proof.
  intros H.
  destruct (packAlignment =? currentPackAlignment d) eqn:E1;
    destruct (unpackAlignment =? currentUnpackAlignment d) eqn:E2;
    coherent_case SetPixelAlignment.
Qed.

(** Takes a method apart into the parts whose coherence is known. *)
Ltac coherent_basic :=
  lazymatch goal with
  | |- keeps_coherent (ret _) => apply keeps_coherent_ret
  | |- keeps_coherent (get _) => apply keeps_coherent_get
  | |- keeps_coherent (log _) => apply keeps_coherent_log
  | |- keeps_coherent (when _ _) => apply keeps_coherent_when
  | |- keeps_coherent (gl _) => apply keeps_coherent_gl; intros ?; reflexivity
  | |- keeps_coherent (gl_ask _ _) => apply keeps_coherent_gl_ask; intros ?; reflexivity
  | |- keeps_coherent (modify _) =>
      apply keeps_coherent_quiet; [intros []; reflexivity | intros ? ? [] ?; assumption]
  | |- keeps_coherent (bind _ _) =>
      apply keeps_coherent_bind;
      [eauto 40 with trace | intros; eauto 40 with trace | | intros]
  | |- keeps_coherent (if ?b then _ else _) => destruct b
  | |- keeps_coherent (match ?o with Some _ => _ | None => _ end) => destruct o
  | |- keeps_coherent (let (_, _) := ?p in _) => destruct p
  | |- keeps_coherent (SetFBO _) => intros ? ? ? ?; apply SetFBO_coherent; assumption
  | |- keeps_coherent (SetVAO _) => intros ? ? ? ?; apply SetVAO_coherent; assumption
  | |- keeps_coherent (SetShader _) => intros ? ? ? ?; apply SetShader_coherent; assumption
  | |- keeps_coherent (SetViewport _) => intros ? ? ? ?; apply SetViewport_coherent; assumption
  | |- keeps_coherent (SetFaceCulling _ _) =>
      intros ? ? ? ?; apply SetFaceCulling_coherent; assumption
  | |- keeps_coherent (SetBlending _ _ _) =>
      intros ? ? ? ?; apply SetBlending_coherent; assumption
  | |- keeps_coherent (SetScissorTest _ _ _ _ _) =>
      intros ? ? ? ?; apply SetScissorTest_coherent; assumption
  | |- keeps_coherent (SetDepthTest _ _) =>
      intros ? ? ? ?; apply SetDepthTest_coherent; assumption
  | |- keeps_coherent (SetStencilTest _ _ _ _ _ _ _ _) =>
      intros ? ? ? ?; apply SetStencilTest_coherent; assumption
  | |- keeps_coherent (SetStencilWriteMask _) =>
      intros ? ? ? ?; apply SetStencilWriteMask_coherent; assumption
  | |- keeps_coherent (SetPixelAlignment _ _) =>
      intros ? ? ? ?; apply SetPixelAlignment_coherent; assumption
  end.

Ltac coherent_step := coherent_basic.

Ltac coherent_of f := unfold f; intros; repeat coherent_step.
Lemma SetDrawParameters_coherent dp :
  keeps_coherent (SetDrawParameters FACE_CULL_NONE BLEND_FUNC_NONE dp).
Proof. coherent_of SetDrawParameters. Qed.

Lemma Draw_emits fbo shader vao dp numInstances numElements :
  emits any_call (Draw FACE_CULL_NONE BLEND_FUNC_NONE fbo shader vao dp numInstances
                    numElements).
Proof. emits_of Draw. Qed.

Lemma Draw_coherent fbo shader vao dp numInstances numElements :
  keeps_coherent (Draw FACE_CULL_NONE BLEND_FUNC_NONE fbo shader vao dp numInstances
                    numElements).
Proof.
  unfold Draw. repeat first [apply SetDrawParameters_coherent | coherent_step].
Qed.

Lemma GetOpenGLFormat_emits format : emits any_call (GetOpenGLFormat format).
Proof. destruct format; emits_of GetOpenGLFormat. Qed.

Lemma GetOpenGLInternalFormat_emits format compress :
  emits any_call (GetOpenGLInternalFormat format compress).
Proof. destruct format, compress; emits_of GetOpenGLInternalFormat. Qed.

Lemma GetOpenGLFormat_coherent format : keeps_coherent (GetOpenGLFormat format).
Proof. destruct format; coherent_of GetOpenGLFormat. Qed.

Lemma GetOpenGLInternalFormat_coherent format compress :
  keeps_coherent (GetOpenGLInternalFormat format compress).
Proof. destruct format, compress; coherent_of GetOpenGLInternalFormat. Qed.

#[local] Hint Resolve GetOpenGLFormat_emits GetOpenGLInternalFormat_emits Draw_emits : trace.

Ltac coherent_step ::=
  first
    [ coherent_basic
    | lazymatch goal with
      | |- keeps_coherent (SetDrawParameters _ _ _) => apply SetDrawParameters_coherent
      | |- keeps_coherent (Draw _ _ _ _ _ _ _ _) => apply Draw_coherent
      | |- keeps_coherent (GetOpenGLFormat _) => apply GetOpenGLFormat_coherent
      | |- keeps_coherent (GetOpenGLInternalFormat _ _) => apply GetOpenGLInternalFormat_coherent
      end ].

(** ** Sequences of calls *)

(** The calls on the device that set state, draw, or create and fill
    textures, render targets and uniform buffers. *)
Inductive Command : Type :=
  | CallSetFBO (fbo : Z)
  | CallSetViewport (fbo : Z)
  | CallSetVAO (vao : Z)
  | CallSetShader (shader : Z)
  | CallSetFaceCulling (faceCulling : Z)
  | CallSetDepthTest (shouldWrite : bool) (depthFunc : Z)
  | CallSetBlending (sourceBlend destinationBlend : Z)
  | CallSetStencilTest (enable : bool) (stencilFunc stencilTestMask stencilWriteMask
      stencilComparisonVal stencilFail stencilPassButDepthFail stencilPass : Z)
  | CallSetStencilWriteMask (mask : Z)
  | CallSetScissorTest (enable : bool) (startX startY width height : Z)
  | CallSetDrawParameters (drawParameters : DrawParameters)
  | CallDraw (fbo shader vao : Z) (drawParameters : DrawParameters)
      (numInstances numElements : Z)
  | CallUpdateRenderTarget (fbo width height : Z)
  | CallCreateRenderTarget (texture width height attachment attachmentNumber mipLevel : Z)
  | CallCreateTexture2D (width height : Z) (data : Ptr) (dataFormat internalFormat : PixelFormat)
      (generateMipmaps compress : bool) (packAlignment unpackAlignment : Z)
  | CallSetShaderSampler (shader : Z) (samplerName : string) (texture sampler unit_ : Z)
  | CallCreateUniformBuffer (data : Ptr) (dataSize usage : Z)
  | CallUpdateUniformBuffer (buffer : Z) (data : Ptr) (dataSize : Z).

Definition perform (drv : Driver) (c : Command) : M unit :=
  match c with
  | CallSetFBO fbo => SetFBO fbo
  | CallSetViewport fbo => SetViewport fbo
  | CallSetVAO vao => SetVAO vao
  | CallSetShader shader => SetShader shader
  | CallSetFaceCulling faceCulling => SetFaceCulling FACE_CULL_NONE faceCulling
  | CallSetDepthTest shouldWrite depthFunc => SetDepthTest shouldWrite depthFunc
  | CallSetBlending s t => SetBlending BLEND_FUNC_NONE s t
  | CallSetStencilTest enable f tm wm v sf spdf sp => SetStencilTest enable f tm wm v sf spdf sp
  | CallSetStencilWriteMask mask => SetStencilWriteMask mask
  | CallSetScissorTest enable x y w h => SetScissorTest enable x y w h
  | CallSetDrawParameters dp => SetDrawParameters FACE_CULL_NONE BLEND_FUNC_NONE dp
  | CallDraw fbo shader vao dp n e => Draw FACE_CULL_NONE BLEND_FUNC_NONE fbo shader vao dp n e
  | CallUpdateRenderTarget fbo w h => UpdateRenderTarget fbo w h
  | CallCreateRenderTarget t w h a n m => CreateRenderTarget drv t w h a n m ;; ret tt
  | CallCreateTexture2D w h data df f gm c p u =>
      CreateTexture2D drv w h data df f gm c p u ;; ret tt
  | CallSetShaderSampler shader name t s u => SetShaderSampler shader name t s u
  | CallCreateUniformBuffer data size usage => CreateUniformBuffer drv data size usage ;; ret tt
  | CallUpdateUniformBuffer buffer data size => UpdateUniformBuffer drv buffer data size
  end.

Fixpoint perform_all (drv : Driver) (cs : list Command) : M unit :=
  match cs with
  | [] => ret tt
  | c :: cs' => perform drv c ;; perform_all drv cs'
  end.

Lemma perform_emits drv c : emits any_call (perform drv c).
Proof.
  destruct c; cbn [perform]; eauto with trace;
    unfold UpdateRenderTarget, CreateRenderTarget, CreateTexture2D, SetShaderSampler,
      samplerLocation_at, CreateUniformBuffer, UpdateUniformBuffer, fboMap_at;
    eauto 40 with trace.
Qed.

Lemma perform_coherent drv c : keeps_coherent (perform drv c).
Proof.
  destruct c; cbn [perform];
    unfold UpdateRenderTarget, CreateRenderTarget, CreateTexture2D, SetShaderSampler,
      samplerLocation_at, CreateUniformBuffer, UpdateUniformBuffer, fboMap_at;
    repeat coherent_step.
Qed.

Lemma perform_all_emits drv cs : emits any_call (perform_all drv cs).
Proof.
  induction cs as [|c cs IH]; cbn [perform_all]; [apply emits_ret|].
  apply emits_bind; [apply perform_emits | intros _; exact IH].
Qed.


(** ** The device as constructed *)

Section Construction.

Variable DRAW_FUNC_ALWAYS : Z.
Variable STENCIL_KEEP : Z.

(** X18. The cache the constructor sets up agrees with a driver that
    started from the initial state of OpenGL on the window and has received
    the constructor's four calls: on the bound objects, face culling,
    blending, the scissor test, the depth test (function and mask are the
    ones it has just sent) and the pixel alignments (it caches none); on the
    stencil test when [DRAW_FUNC_ALWAYS] and [STENCIL_KEEP] are the values of
    [GL_ALWAYS] and [GL_KEEP]; and on the viewport only when the two fields
    the constructor leaves uninitialised happen to hold the size of the
    window. The driver has the depth test enabled. *)
Theorem OpenGLRenderDevice_new_agrees (asp : Aspect)
    (windowWidth windowHeight viewportWidth0 viewportHeight0 : Z) :
  let d :=
    OpenGLRenderDevice_new FACE_CULL_NONE BLEND_FUNC_NONE DRAW_FUNC_ALWAYS STENCIL_KEEP
      windowWidth windowHeight viewportWidth0 viewportHeight0 in
  let g := replay (calls d) (initial_registers windowWidth windowHeight) in
  (asp = Viewport -> (viewportWidth0, viewportHeight0) = (windowWidth, windowHeight)) ->
  (asp = StencilTest -> DRAW_FUNC_ALWAYS = 519 /\ STENCIL_KEEP = 7680) ->
  agrees asp g d /\ g (Enabled GL_DEPTH_TEST) = 1.
Proof.
  cbn zeta. intros Hv Hs. split; [|reflexivity].
  destruct asp; unfold agrees; cbn -[Z.eqb].
  - repeat split.
  - specialize (Hv eq_refl). injection Hv as -> ->. reflexivity.
  - rewrite Z.eqb_refl. split; [reflexivity | intros H; now contradiction H].
  - rewrite Z.eqb_refl. split; [reflexivity | intros H; now contradiction H].
  - reflexivity.
  - split; reflexivity.
  - destruct (Hs eq_refl) as [-> ->]. repeat split.
  - split; intros H; now contradiction H.
Qed.

End Construction.

(** ** The state in which a draw call is issued *)

(** The viewport agrees once [glViewport] has been sent, whatever the
    driver held. *)
Lemma viewport_set {A} (m : M A) g d :
  keeps_coherent m ->
  agrees Viewport g d \/ Exists (fun c => is_viewport c = true) (emitted m d) ->
  agrees Viewport (replay (emitted m d) g) (snd (m d)).
Proof.
  intros Hm [H|H]; [now apply Hm|].
  pose (g0 := fun r => match r with
                       | ViewportX | ViewportY => 0
                       | ViewportW => viewportWidth d
                       | ViewportH => viewportHeight d
                       | _ => g r
                       end).
  assert (H0 : agrees Viewport g0 d) by reflexivity.
  apply Hm in H0. cbn [agrees] in H0 |- *. rewrite <- H0.
  assert (Hr : forall r, r = ViewportX \/ r = ViewportY \/ r = ViewportW \/ r = ViewportH ->
                         replay (emitted m d) g r = replay (emitted m d) g0 r).
  { intros r Hr. apply replay_overwritten. eapply Exists_impl; [exact H|].
    intros c Hc. destruct c; try discriminate.
    destruct Hr as [-> | [-> | [-> | ->]]]; eexists; reflexivity. }
  rewrite (Hr ViewportX), (Hr ViewportY), (Hr ViewportW), (Hr ViewportH) by auto.
  reflexivity.
Qed.

Lemma SetViewport_keeps fbo : keeps_coherent (SetViewport fbo).
Proof. intros asp g d H. now apply SetViewport_coherent. Qed.

(** [SetViewport] leaves the driver with the viewport it caches, provided
    the driver has the cached viewport in the one case in which nothing is
    sent. *)
Lemma SetViewport_viewport fbo g d :
  let target := default FBOData.default (fboMap d !! fbo) in
  ((viewportFBO d, viewportWidth d, viewportHeight d)
   = (fbo, FBOData.width target, FBOData.height target) -> agrees Viewport g d) ->
  agrees Viewport (replay (emitted (SetViewport fbo) d) g) (snd (SetViewport fbo d)).
Proof.
  cbn zeta. intros H. apply viewport_set; [apply SetViewport_keeps|].
  rewrite SetViewport_emitted. cbn zeta.
  destruct ((fbo =? viewportFBO d) && _ && _) eqn:E.
  - left. apply H. apply andb_prop in E as [E E3]. apply andb_prop in E as [E1 E2].
    apply Z.eqb_eq in E1, E2, E3. now rewrite <- E1, <- E2, <- E3.
  - right. now constructor.
Qed.

Lemma Draw_viewport fbo shader vao dp numInstances numElements g d :
  let draw := Draw FACE_CULL_NONE BLEND_FUNC_NONE fbo shader vao dp numInstances numElements in
  let target := default FBOData.default (fboMap d !! fbo) in
  numInstances <> 0 ->
  ((viewportFBO d, viewportWidth d, viewportHeight d)
   = (fbo, FBOData.width target, FBOData.height target) -> agrees Viewport g d) ->
  agrees Viewport (replay (emitted draw d) g) (snd (draw d)).
Proof.
  cbn zeta. intros Hn H. apply viewport_set; [apply Draw_coherent|].
  rewrite Draw_emitted by exact Hn. unfold Draw_calls, viewport_calls.
  destruct ((fbo =? viewportFBO d) && _ && _) eqn:E.
  - left. apply H. apply andb_prop in E as [E E3]. apply andb_prop in E as [E1 E2].
    apply Z.eqb_eq in E1, E2, E3. now rewrite <- E1, <- E2, <- E3.
  - right. apply Exists_app. right. apply Exists_app. left. now constructor.
Qed.


(** ** The scissor box

    The device caches no scissor rectangle, so what the driver holds has to
    be read off the calls. *)
Definition scissor_box (g : Register -> Z) : Z * Z * Z * Z :=
  (g ScissorX, g ScissorY, g ScissorW, g ScissorH).

Definition leaves_scissor_box (c : GLCall) : Prop :=
  forall g, scissor_box (fun r => default (g r) (written c r)) = scissor_box g.

Lemma replay_leaves_scissor_box l g :
  Forall leaves_scissor_box l -> scissor_box (replay l g) = scissor_box g.
Proof.
  intros Hl. revert g. induction Hl as [|c l Hc _ IH]; intros g; [reflexivity|].
  cbn [replay]. now rewrite IH.
Qed.

Lemma SetFaceCulling_scissor_box faceCulling :
  emits leaves_scissor_box (SetFaceCulling FACE_CULL_NONE faceCulling).
Proof. emits_of SetFaceCulling. Qed.

Lemma SetDepthTest_scissor_box shouldWrite depthFunc :
  emits leaves_scissor_box (SetDepthTest shouldWrite depthFunc).
Proof. emits_of SetDepthTest. Qed.

Lemma SetShader_scissor_box shader : emits leaves_scissor_box (SetShader shader).
Proof. emits_of SetShader. Qed.

Lemma SetVAO_scissor_box vao : emits leaves_scissor_box (SetVAO vao).
Proof. emits_of SetVAO. Qed.

Lemma SetScissorTest_box startX startY width height g d :
  scissor_box (replay (emitted (SetScissorTest true startX startY width height) d) g)
  = (startX, startY, width, height).
Proof.
  destruct (scissorTestEnabled d) eqn:E.
  - rewrite (emitted_intro _ d [glScissor startX startY width height]); [reflexivity|].
    unfold SetScissorTest. run. settle. reflexivity.
  - rewrite (emitted_intro _ d [glEnable GL_SCISSOR_TEST;
                                glScissor startX startY width height]); [reflexivity|].
    unfold SetScissorTest. run. settle. now rewrite <- app_assoc.
Qed.


(** ** A resize *)


(** ** Fields a method leaves alone *)

Lemma preserves_for_range {B} (f : Device -> B) (body : Z -> M unit) count :
  (forall i, preserves f (body i)) -> forall start, preserves f (for_range start count body).
Proof.
  intros Hbody. induction count as [|count IH]; intros start; cbn [for_range].
  - apply preserves_ret.
  - apply preserves_bind; [apply Hbody | intros _; apply IH].
Qed.

Lemma preserves_for_fold {A B} (f : Device -> B) (body : Z -> A -> M A) count :
  (forall i a, preserves f (body i a)) ->
  forall start a, preserves f (for_fold start count body a).
Proof.
  intros Hbody. induction count as [|count IH]; intros start a; cbn [for_fold].
  - apply preserves_ret.
  - apply preserves_bind; [apply Hbody | intros a'; apply IH].
Qed.

(** Takes a method apart along its syntax; what is left are the methods it
    calls, for which the context has to hold a lemma. *)
Ltac structure_step :=
  lazymatch goal with
  | |- emits _ (ret _) => apply emits_ret
  | |- emits _ (get _) => apply emits_get
  | |- emits _ (log _) => apply emits_log
  | |- emits _ (when _ _) => apply emits_when
  | |- emits _ (gl _) =>
      apply emits_gl; first [exact I | reflexivity | intros ?; reflexivity]
  | |- emits _ (gl_ask _ _) =>
      apply emits_gl_ask; first [exact I | reflexivity | intros ?; reflexivity]
  | |- emits _ (modify _) => apply emits_modify; intros []; reflexivity
  | |- emits _ (bind _ _) => apply emits_bind; [|intros]
  | |- emits _ (for_fold _ _ _ _) => apply emits_for_fold; intros
  | |- emits _ (for_range _ _ _) => apply emits_for_range; intros
  | |- preserves _ (ret _) => apply preserves_ret
  | |- preserves _ (get _) => apply preserves_get
  | |- preserves _ (when _ _) => apply preserves_when
  | |- preserves _ (gl _) => apply preserves_modify; intros []; reflexivity
  | |- preserves _ (log _) => apply preserves_modify; intros []; reflexivity
  | |- preserves _ (gl_ask _ _) => apply preserves_gl_ask; intros ? []; reflexivity
  | |- preserves _ (modify _) => apply preserves_modify; intros []; reflexivity
  | |- preserves _ (bind _ _) => apply preserves_bind; [|intros]
  | |- preserves _ (for_fold _ _ _ _) => apply preserves_for_fold; intros
  | |- preserves _ (for_range _ _ _) => apply preserves_for_range; intros
  | |- _ _ (if ?b then _ else _) => destruct b
  | |- _ _ (match ?o with Some _ => _ | None => _ end) => destruct o
  | |- _ _ (let (_, _) := ?p in _) => destruct p
  | |- _ => solve [auto 2 with nocore]
  end.

Ltac structure f := unfold f; intros; repeat structure_step.

(** ** Releasing *)

Lemma ReleaseShaderProgram_loop shader shaders d :
  foldr (fun it rest => gl (glDetachShader shader it) ;; gl (glDeleteShader it) ;; rest)
    (ret tt) shaders d
  = (tt, set_calls (calls d ++ flat_map (fun it => [glDetachShader shader it;
                                                    glDeleteShader it]) shaders) d).
Proof.
  revert d. induction shaders as [|it shaders IH]; intros d.
  - cbn. rewrite app_nil_r. now destruct d.
  - cbn [foldr flat_map]. unfold bind at 1 2, gl at 1 2, modify. cbn [snd fst].
    rewrite IH. destruct d; cbn. now rewrite <- !app_assoc.
Qed.

(** What a release does, by the case it falls in. *)
Definition released {K V} `{Countable K} (handle : K) (registry : gmap K V)
    (calls_ : V -> list GLCall) (update : gmap K V -> list GLCall -> Device) (d : Device)
    : Device :=
  match registry !! handle with
  | Some record => update (delete handle registry) (calls d ++ calls_ record)
  | None => d
  end.

Lemma ReleaseRenderTarget_run fbo d :
  ReleaseRenderTarget fbo d =
  (0, if fbo =? 0 then d
      else released fbo (fboMap d) (fun _ => [glDeleteFramebuffers [fbo]])
             (fun m l => set_fboMap m (set_calls l d)) d).
Proof.
  unfold ReleaseRenderTarget, released. destruct (fbo =? 0); [reflexivity|].
  run. now destruct (fboMap d !! fbo).
Qed.

Lemma ReleaseVertexArray_run vao d :
  ReleaseVertexArray vao d =
  (0, if vao =? 0 then d
      else released vao (vaoMap d)
             (fun vaoData =>
                [glDeleteVertexArrays [vao];
                 glDeleteBuffers (take (Z.to_nat (VertexArray.numBuffers vaoData))
                                    (VertexArray.buffers vaoData))])
             (fun m l => set_vaoMap m (set_calls l d)) d).
Proof.
  unfold ReleaseVertexArray, released. destruct (vao =? 0); [reflexivity|].
  run. destruct (vaoMap d !! vao); [|reflexivity]. cbn. now rewrite <- app_assoc.
Qed.

Lemma ReleaseShaderProgram_run shader d :
  ReleaseShaderProgram shader d =
  (0, if shader =? 0 then d
      else released shader (shaderProgramMap d)
             (fun shaderProgram =>
                flat_map (fun it => [glDetachShader shader it; glDeleteShader it])
                  (ShaderProgram.shaders shaderProgram)
                ++ [glDeleteProgram shader])
             (fun m l => set_shaderProgramMap m (set_calls l d)) d).
Proof.
  unfold ReleaseShaderProgram, released. destruct (shader =? 0); [reflexivity|].
  unfold bind at 1, get. destruct (shaderProgramMap d !! shader); [|reflexivity].
  unfold bind at 1. rewrite ReleaseShaderProgram_loop. run. now rewrite <- app_assoc.
Qed.

(** X6. The three releases that go through a registry (render target,
    vertex array, shader program) return 0 for every handle and every device,
    and a release repeated does nothing: the second call sends nothing to the
    driver and leaves the device as the first left it. *)
Theorem Release_repeated (handle : Z) (d : Device) :
  let settled (m : M Z) :=
    fst (m d) = 0 /\ m (snd (m d)) = (0, snd (m d)) in
  settled (ReleaseRenderTarget handle)
  /\ settled (ReleaseVertexArray handle)
  /\ settled (ReleaseShaderProgram handle).
Proof.
  cbv beta zeta.
  rewrite !ReleaseRenderTarget_run, !ReleaseVertexArray_run, !ReleaseShaderProgram_run.
  cbn [fst snd]. unfold released.
  destruct (handle =? 0); [repeat apply conj; reflexivity|].
  repeat apply conj; try reflexivity; f_equal.
  - destruct (fboMap d !! handle) eqn:E; cbn; [now rewrite lookup_delete_eq | now rewrite E].
  - destruct (vaoMap d !! handle) eqn:E; cbn; [now rewrite lookup_delete_eq | now rewrite E].
  - destruct (shaderProgramMap d !! handle) eqn:E; cbn;
      [now rewrite lookup_delete_eq | now rewrite E].
Qed.

(** X7. A release leaves the cached bindings alone: after the render target,
    vertex array or program that the cache names as bound has been released,
    the cache still names it, so that binding the released handle again sends
    nothing to the driver. *)
Theorem Release_bound (d : Device) :
  let d1 := snd (ReleaseRenderTarget (boundFBO d) d) in
  let d2 := snd (ReleaseVertexArray (boundVAO d) d) in
  let d3 := snd (ReleaseShaderProgram (boundShader d) d) in
  (boundFBO d1 = boundFBO d /\ SetFBO (boundFBO d) d1 = (tt, d1))
  /\ (boundVAO d2 = boundVAO d /\ SetVAO (boundVAO d) d2 = (tt, d2))
  /\ (boundShader d3 = boundShader d /\ SetShader (boundShader d) d3 = (tt, d3)).
Proof.
  cbv beta zeta.
  rewrite ReleaseRenderTarget_run, ReleaseVertexArray_run, ReleaseShaderProgram_run.
  cbn [snd]. unfold released.
  assert (F : forall fbo d', boundFBO d' = fbo -> SetFBO fbo d' = (tt, d')).
  { intros fbo d' <-. unfold SetFBO. run. now rewrite Z.eqb_refl. }
  assert (V : forall vao d', boundVAO d' = vao -> SetVAO vao d' = (tt, d')).
  { intros vao d' <-. unfold SetVAO. run. now rewrite Z.eqb_refl. }
  assert (S : forall shader d', boundShader d' = shader -> SetShader shader d' = (tt, d')).
  { intros shader d' <-. unfold SetShader. run. now rewrite Z.eqb_refl. }
  repeat apply conj; try apply F; try apply V; try apply S;
    repeat match goal with |- context [if ?c then _ else _] => destruct c end;
    repeat match goal with |- context [match ?o with Some _ => _ | None => _ end] =>
             destruct o end;
    destruct d; reflexivity.
Qed.

(** ** Shader objects over the life of a program *)

Definition attach_of (c : GLCall) : option (Z * Z) :=
  match c with glAttachShader program shader => Some (program, shader) | _ => None end.

Definition detach_of (c : GLCall) : option (Z * Z) :=
  match c with glDetachShader program shader => Some (program, shader) | _ => None end.

Definition deleted_shader_of (c : GLCall) : option Z :=
  match c with glDeleteShader shader => Some shader | _ => None end.

Definition is_deletion (c : GLCall) : bool :=
  match c with
  | glDeleteShader _ | glDeleteProgram _ | glDetachShader _ _ => true
  | _ => false
  end.

Lemma omap_quiet {A} (f : GLCall -> option A) l :
  Forall (fun c => f c = None) l -> omap f l = [].
Proof. induction 1 as [|c l Hc _ IH]; cbn; [reflexivity | now rewrite Hc]. Qed.

(** [AddShader] attaches the shader it returns, and only on success. *)
Lemma AddShader_attach drv shaderProgram text_ type shaders d :
  let '((ok, shaders'), d') := AddShader drv shaderProgram text_ type shaders d in
  exists l, calls d' = calls d ++ l
    /\ if ok then exists shader, shaders' = shaders ++ [shader]
                   /\ omap attach_of l = [(shaderProgram, shader)]
       else omap attach_of l = [].
Proof.
  unfold AddShader. run.
  destruct (_ =? 0); cbn.
  - exists [glCreateShader type]. now rewrite <- ?app_assoc.
  - destruct (_ =? 0); cbn; eexists; (split; [rewrite <- !app_assoc; reflexivity|]).
    + reflexivity.
    + eexists. split; reflexivity.
Qed.

Section ShaderCalls.

(** A property of calls that holds of every call but, possibly, the calls
    that attach, detach or delete. *)
Variable P : GLCall -> Prop.
Hypothesis P_other : forall c, attach_of c = None -> is_deletion c = false -> P c.

Ltac other := apply P_other; reflexivity.

Lemma CheckShaderError_calls drv shader flag isProgram errorMessage :
  emits P (CheckShaderError drv shader flag isProgram errorMessage).
Proof.
  unfold CheckShaderError.
  repeat first [apply emits_gl_ask; other | structure_step].
Qed.

Lemma GetVersion_calls drv : emits P (GetVersion drv).
Proof. unfold GetVersion. repeat first [apply emits_gl_ask; other | structure_step]. Qed.

Lemma AddAllAttributes_calls drv program version :
  emits P (AddAllAttributes drv program version).
Proof.
  unfold AddAllAttributes.
  repeat first [apply emits_gl_ask; other | apply emits_gl; other | structure_step].
Qed.

Lemma AddShaderUniforms_calls drv shaderProgram uniformMap samplerMap :
  emits P (AddShaderUniforms drv shaderProgram uniformMap samplerMap).
Proof.
  unfold AddShaderUniforms, addUniform, addUniformBlock.
  repeat first [apply emits_gl_ask; other | apply emits_gl; other | structure_step].
Qed.

End ShaderCalls.

Lemma AddShader_shaderProgramMap drv shaderProgram text_ type shaders :
  preserves shaderProgramMap (AddShader drv shaderProgram text_ type shaders).
Proof. structure AddShader. Qed.

Lemma CheckShaderError_shaderProgramMap drv shader flag isProgram errorMessage :
  preserves shaderProgramMap (CheckShaderError drv shader flag isProgram errorMessage).
Proof. structure CheckShaderError. Qed.

Lemma GetVersion_shaderProgramMap drv : preserves shaderProgramMap (GetVersion drv).
Proof. structure GetVersion. Qed.

Lemma AddAllAttributes_shaderProgramMap drv program version :
  preserves shaderProgramMap (AddAllAttributes drv program version).
Proof. structure AddAllAttributes. Qed.

Lemma AddShaderUniforms_shaderProgramMap drv shaderProgram uniformMap samplerMap :
  preserves shaderProgramMap (AddShaderUniforms drv shaderProgram uniformMap samplerMap).
Proof. unfold AddShaderUniforms, addUniform, addUniformBlock. repeat structure_step. Qed.

Lemma AddShader_calls (P : GLCall -> Prop) drv shaderProgram text_ type shaders :
  (forall c, is_deletion c = false -> P c) ->
  emits P (AddShader drv shaderProgram text_ type shaders).
Proof.
  intros HP. unfold AddShader.
  repeat first [apply emits_gl_ask; apply HP; reflexivity
               | apply emits_gl; apply HP; reflexivity | structure_step].
Qed.

Lemma CreateShaderProgram_calls (P : GLCall -> Prop) drv shaderText :
  (forall c, is_deletion c = false -> P c) ->
  emits P (CreateShaderProgram drv shaderText).
Proof.
  intros HP.
  pose proof (AddShader_calls P drv) as H1.
  pose proof (CheckShaderError_calls P (fun c _ => HP c) drv) as H2.
  pose proof (GetVersion_calls P (fun c _ => HP c) drv) as H3.
  pose proof (AddAllAttributes_calls P (fun c _ => HP c) drv) as H4.
  pose proof (AddShaderUniforms_calls P (fun c _ => HP c) drv) as H5.
  unfold CreateShaderProgram.
  repeat first [apply emits_gl_ask; apply HP; reflexivity
               | apply emits_gl; apply HP; reflexivity
               | apply H1; exact HP
               | structure_step].
Qed.

(** The two ways in which [CreateShaderProgram] returns: with the sentinel
    and the registry as it was, or with the driver's handle and a record of
    the two shaders it attached. *)
Lemma CreateShaderProgram_outcome drv shaderText d :
  let result := CreateShaderProgram drv shaderText d in
  (fst result = INVALID_HANDLE /\ shaderProgramMap (snd result) = shaderProgramMap d)
  \/ (fst result = drv_glCreateProgram drv (calls d)
      /\ fst result <> 0
      /\ exists vertex fragment uniformMap l,
           shaderProgramMap (snd result)
           = <[fst result := ShaderProgram.mk [vertex; fragment] uniformMap ∅]>
               (shaderProgramMap d)
           /\ calls (snd result) = calls d ++ l
           /\ omap attach_of l = [(fst result, vertex); (fst result, fragment)]).
Proof.
  intros result.
  assert (Hresult : CreateShaderProgram drv shaderText d = result) by reflexivity.
  clearbody result. revert Hresult.
  pose proof (CheckShaderError_calls (fun c => attach_of c = None) (fun c H _ => H) drv)
    as CheckShaderError_attach.
  pose proof (GetVersion_calls (fun c => attach_of c = None) (fun c H _ => H) drv)
    as GetVersion_attach.
  pose proof (AddAllAttributes_calls (fun c => attach_of c = None) (fun c H _ => H) drv)
    as AddAllAttributes_attach.
  pose proof (AddShaderUniforms_calls (fun c => attach_of c = None) (fun c H _ => H) drv)
    as AddShaderUniforms_attach.
  unfold CreateShaderProgram. unfold bind at 1. cbn [gl_ask].
  set (program := drv_glCreateProgram drv (calls d)).
  destruct (Z.eqb_spec program 0) as [|Hprogram];
    [intros <-; left; split; [reflexivity | now destruct d]|].
  destruct (_ =? npos); [intros <-; left; split; [reflexivity | now destruct d]|].
  unfold bind at 1.
  match goal with |- context [AddShader drv program ?t ?ty ?s ?x] =>
    pose proof (AddShader_attach drv program t ty s x) as H1;
    pose proof (AddShader_shaderProgramMap drv program t ty s x) as M1;
    destruct (AddShader drv program t ty s x) as [[ok1 shaders1] d1] end.
  destruct H1 as (l1 & C1 & H1). cbn in M1, C1.
  destruct ok1; cbn [negb]; [|intros <-; left; split; [reflexivity | exact M1]].
  destruct H1 as (vertex & -> & A1).
  unfold bind at 1.
  match goal with |- context [AddShader drv program ?t ?ty ?s ?x] =>
    pose proof (AddShader_attach drv program t ty s x) as H2;
    pose proof (AddShader_shaderProgramMap drv program t ty s x) as M2;
    destruct (AddShader drv program t ty s x) as [[ok2 shaders2] d2] end.
  destruct H2 as (l2 & C2 & H2). cbn [snd] in M2. rewrite M1 in M2.
  destruct ok2; cbn [negb]; [|intros <-; left; split; [reflexivity | exact M2]].
  destruct H2 as (fragment & -> & A2).
  unfold bind at 1 2. unfold gl at 1, modify at 1. cbn beta iota.
  match goal with |- context [CheckShaderError drv program ?f ?p ?e ?x] =>
    destruct (CheckShaderError_attach program f p e x) as (l3 & C3 & A3);
    pose proof (CheckShaderError_shaderProgramMap drv program f p e x) as M3;
    destruct (CheckShaderError drv program f p e x) as [failed1 d3] end.
  cbn in C3, M3. rewrite M2 in M3.
  destruct failed1; [intros <-; left; split; [reflexivity | exact M3]|].
  unfold bind at 1 2. unfold gl at 1, modify at 1. cbn beta iota.
  match goal with |- context [CheckShaderError drv program ?f ?p ?e ?x] =>
    destruct (CheckShaderError_attach program f p e x) as (l4 & C4 & A4);
    pose proof (CheckShaderError_shaderProgramMap drv program f p e x) as M4;
    destruct (CheckShaderError drv program f p e x) as [failed2 d4] end.
  cbn in C4, M4. rewrite M3 in M4.
  destruct failed2; [intros <-; left; split; [reflexivity | exact M4]|].
  unfold bind at 1 2 3.
  destruct (GetVersion_attach d4) as (l5 & C5 & A5).
  pose proof (GetVersion_shaderProgramMap drv d4) as M5.
  destruct (GetVersion drv d4) as [version_ d5]. cbn [snd] in C5, M5.
  destruct (AddAllAttributes_attach program version_ d5) as (l6 & C6 & A6).
  pose proof (AddAllAttributes_shaderProgramMap drv program version_ d5) as M6.
  destruct (AddAllAttributes drv program version_ d5) as [[] d6]. cbn [snd] in C6, M6.
  destruct (AddShaderUniforms_attach program ∅ ∅ d6) as (l7 & C7 & A7).
  pose proof (AddShaderUniforms_shaderProgramMap drv program ∅ ∅ d6) as M7.
  pose proof (AddShaderUniforms_samplerMap drv program ∅ ∅ d6) as Hsampler.
  destruct (AddShaderUniforms drv program ∅ ∅ d6) as [[uniformMap samplerMap] d7].
  cbn [fst snd] in C7, M7, Hsampler. subst samplerMap. intros <-. right.
  cbn [fst snd modify ret bind].
  repeat apply conj; [reflexivity | exact Hprogram |].
  exists vertex, fragment, uniformMap,
    ([glCreateProgram] ++ l1 ++ l2 ++ [glLinkProgram program] ++ l3
     ++ [glValidateProgram program] ++ l4 ++ l5 ++ l6 ++ l7).
  repeat apply conj.
  - destruct d7; cbn in *. now rewrite M7, M6, M5, M4.
  - destruct d7; cbn in *. rewrite C7, C6, C5, C4, C3, C2, C1.
    now rewrite <- !app_assoc.
  - rewrite !omap_app, A1, A2. cbn.
    rewrite !(omap_quiet attach_of) by assumption. reflexivity.
Qed.

(** X8. A program that [CreateShaderProgram] returned is taken apart in full
    by [ReleaseShaderProgram]: the shaders it detaches from the program, and
    the shaders it deletes, are the shaders the creation attached, in the
    order of attachment (vertex, then fragment); its last call deletes the
    program; and the registry is left without the handle. *)
Theorem CreateShaderProgram_then_release (drv : Driver) (shaderText : string) (d : Device) :
  let created := CreateShaderProgram drv shaderText d in
  let handle := fst created in
  let attached := omap attach_of (emitted (CreateShaderProgram drv shaderText) d) in
  let release := emitted (ReleaseShaderProgram handle) (snd created) in
  handle <> INVALID_HANDLE ->
  length attached = 2%nat
  /\ omap detach_of release = attached
  /\ omap deleted_shader_of release = snd <$> attached
  /\ last release = Some (glDeleteProgram handle)
  /\ shaderProgramMap (snd (ReleaseShaderProgram handle (snd created)))
     = delete handle (shaderProgramMap d).
Proof.
  cbv beta zeta. intros Hhandle.
  destruct (CreateShaderProgram_outcome drv shaderText d)
    as [[Hfail _] | (_ & Hnull & vertex & fragment & uniformMap & l & Hmap & Hcalls & Hl)];
    [contradiction|].
  rewrite (emitted_intro _ d l Hcalls), Hl.
  set (created := CreateShaderProgram drv shaderText d) in *.
  set (handle := fst created) in *. set (d1 := snd created) in *.
  assert (Hrelease : emitted (ReleaseShaderProgram handle) d1
                     = [glDetachShader handle vertex; glDeleteShader vertex;
                        glDetachShader handle fragment; glDeleteShader fragment;
                        glDeleteProgram handle]).
  { apply emitted_intro. rewrite ReleaseShaderProgram_run. cbn [snd].
    destruct (Z.eqb_spec handle 0); [contradiction|].
    unfold released. rewrite Hmap, lookup_insert_eq. destruct d1; reflexivity. }
  rewrite Hrelease. repeat apply conj; try reflexivity.
  rewrite ReleaseShaderProgram_run. cbn [snd].
  destruct (Z.eqb_spec handle 0); [contradiction|].
  unfold released. rewrite Hmap, lookup_insert_eq.
  destruct d1; cbn. apply delete_insert_eq.
Qed.

(** X9. [CreateShaderProgram] never deletes or detaches anything, and when
    it fails it leaves the registry as it was: a creation that fails after
    the driver has handed out a program (and shaders) releases none of them
    and keeps no record from which they could be released later. *)
Theorem CreateShaderProgram_failure (drv : Driver) (shaderText : string) (d : Device) :
  let result := CreateShaderProgram drv shaderText d in
  let sent := emitted (CreateShaderProgram drv shaderText) d in
  drv_glCreateProgram drv (calls d) <> INVALID_HANDLE ->
  fst result = INVALID_HANDLE ->
  shaderProgramMap (snd result) = shaderProgramMap d
  /\ head sent = Some glCreateProgram
  /\ Forall (fun c => is_deletion c = false) sent.
Proof.
  cbv beta zeta. intros Hdrv Hfail. repeat apply conj.
  - destruct (CreateShaderProgram_outcome drv shaderText d)
      as [[_ Hmap] | (Hhandle & _)]; [exact Hmap | congruence].
  - unfold CreateShaderProgram. rewrite emitted_bind.
    + now rewrite (emitted_intro (gl_ask _ _) d [glCreateProgram]).
    + apply emits_gl_ask. exact I.
    + intros program.
      pose proof (AddShader_calls any_call drv) as H1.
      pose proof (CheckShaderError_calls any_call (fun _ _ _ => I) drv) as H2.
      pose proof (GetVersion_calls any_call (fun _ _ _ => I) drv) as H3.
      pose proof (AddAllAttributes_calls any_call (fun _ _ _ => I) drv) as H4.
      pose proof (AddShaderUniforms_calls any_call (fun _ _ _ => I) drv) as H5.
      repeat first [apply H1; intros; exact I | structure_step].
  - apply emitted_Forall. apply CreateShaderProgram_calls. auto.
Qed.

(** ** The version *)

(** X10. The driver is asked for the version until it gives one other than
    0: whatever the device, after a call of [GetVersion] the result is the
    memoized version; if it is not 0, a further call returns it again and
    sends nothing; if it is 0 (a driver reporting 0.0), a further call asks
    the driver again, for the major and then the minor version. *)
Theorem GetVersion_repeated (drv : Driver) (d : Device) :
  let first := GetVersion drv d in
  let d1 := snd first in
  fst first = version d1
  /\ if version d1 =? 0 then
       emitted (GetVersion drv) d1
       = [glGetIntegerv GL_MAJOR_VERSION; glGetIntegerv GL_MINOR_VERSION]
     else GetVersion drv d1 = (version d1, d1).
Proof.
  cbv beta zeta. split.
  - unfold GetVersion. run. destruct (version d =? 0); reflexivity.
  - destruct (Z.eqb_spec (version (snd (GetVersion drv d))) 0) as [E|E].
    + apply emitted_intro. revert E. generalize (snd (GetVersion drv d)). intros d1 E.
      unfold GetVersion. run. rewrite E. cbn. now rewrite <- app_assoc.
    + now apply GetVersion_memoized.
Qed.

(** ** Attribute locations *)

Definition bound_location_of (c : GLCall) : option (Z * Z) :=
  match c with
  | glBindAttribLocation program index _ => Some (program, index)
  | _ => None
  end.

Lemma bindAttributes_locations (body : Z -> M unit) program count :
  (forall i, emits any_call (body i)) ->
  (forall i d, omap bound_location_of (emitted (body i) d) = [(program, i)]) ->
  forall start d,
    omap bound_location_of (emitted (for_range start count body) d)
    = (fun i => (program, start + Z.of_nat i)) <$> seq 0 count.
Proof.
  intros Hemits Hbody. induction count as [|count IH]; intros start d.
  - cbn. rewrite (emitted_intro _ d []); [reflexivity | cbn; now rewrite app_nil_r].
  - cbn [for_range]. rewrite emitted_bind;
      [|apply Hemits | intros _; now apply emits_for_range].
    rewrite omap_app, Hbody, IH. cbn [seq fmap list_fmap app]. rewrite Z.add_0_r.
    f_equal. rewrite <- fmap_S_seq, <- list_fmap_compose. apply list_fmap_ext.
    intros _ i _. cbn. f_equal. lia.
Qed.

(** The calls that bind the attributes [first], [first + 1], ... of the
    driver's list, [count] of them, after the calls [h]: each attribute is
    asked for, and bound to its index under the name the driver has just
    given for it, as far as the name fits the buffer. *)
Fixpoint attribute_bindings (drv : Driver) (program maxLength : Z) (h : list GLCall)
    (first : Z) (count : nat) : list GLCall :=
  match count with
  | O => []
  | S count' =>
      let query := glGetActiveAttrib program first maxLength in
      let name := activeName (drv_glGetActiveAttrib drv h program first) in
      let binding := glBindAttribLocation program first (c_str_in maxLength name) in
      query :: binding
      :: attribute_bindings drv program maxLength (h ++ [query; binding]) (first + 1) count'
  end.

Lemma bindAttributes_emitted drv program maxLength count :
  forall first d,
    emitted
      (for_range first count
         (fun attribute =>
            info <- gl_ask (fun h => drv_glGetActiveAttrib drv h program attribute)
                      (glGetActiveAttrib program attribute maxLength) ;;
            gl (glBindAttribLocation program attribute
                  (c_str_in maxLength (activeName info))))) d
    = attribute_bindings drv program maxLength (calls d) first count.
Proof.
  induction count as [|count IH]; intros first d.
  - cbn. rewrite (emitted_intro _ d []); [reflexivity | cbn; now rewrite app_nil_r].
  - cbn [for_range attribute_bindings].
    rewrite emitted_bind;
      [|repeat structure_step | intros _; apply emits_for_range; intros;
                                  repeat structure_step].
    rewrite IH. unfold emitted at 1. run. rewrite <- app_assoc, drop_app_length.
    reflexivity.
Qed.

(** X11. From version 320 on [AddAllAttributes] sends nothing. Below, it
    asks the driver for the count of active attributes and for the greatest
    length of their names, and then, for each index below the count in
    increasing order, asks for the attribute at that index and binds the name
    the driver answers (cut to the buffer) to the location that is the
    index: attribute i of the driver's list is bound to location i. *)
Theorem AddAllAttributes_locations (drv : Driver) (program version : Z) (d : Device) :
  let sent := emitted (AddAllAttributes drv program version) d in
  let countQuery := glGetProgramiv program GL_ACTIVE_ATTRIBUTES in
  let lengthQuery := glGetProgramiv program GL_ACTIVE_ATTRIBUTE_MAX_LENGTH in
  let count := drv_glGetProgramiv drv (calls d) program GL_ACTIVE_ATTRIBUTES in
  let maxLength :=
    drv_glGetProgramiv drv (calls d ++ [countQuery]) program GL_ACTIVE_ATTRIBUTE_MAX_LENGTH in
  if 320 <=? version then sent = []
  else sent = countQuery :: lengthQuery
              :: attribute_bindings drv program maxLength
                   (calls d ++ [countQuery; lengthQuery]) 0 (Z.to_nat count)
       /\ omap bound_location_of sent
          = (fun i => (program, Z.of_nat i)) <$> seq 0 (Z.to_nat count).
Proof.
  cbv beta zeta. unfold AddAllAttributes. destruct (320 <=? version).
  - apply emitted_intro. cbn. now rewrite app_nil_r.
  - assert (Hbody : forall maxLength i,
              emits any_call
                (info <- gl_ask (fun h => drv_glGetActiveAttrib drv h program i)
                           (glGetActiveAttrib program i maxLength) ;;
                 gl (glBindAttribLocation program i (c_str_in maxLength (activeName info)))))
      by (intros; repeat structure_step).
    rewrite emitted_bind; [|repeat structure_step | intros; repeat structure_step].
    rewrite emitted_bind; [|repeat structure_step | intros; repeat structure_step].
    rewrite (emitted_intro (gl_ask _ _) d [glGetProgramiv program GL_ACTIVE_ATTRIBUTES])
      by reflexivity.
    rewrite (emitted_intro (gl_ask _ _) _
               [glGetProgramiv program GL_ACTIVE_ATTRIBUTE_MAX_LENGTH]) by reflexivity.
    cbn [app fst snd gl_ask]. split.
    + rewrite bindAttributes_emitted. cbn [calls set_calls]. do 3 f_equal.
      destruct d; cbn. now rewrite <- app_assoc.
    + cbn [omap list_omap bound_location_of].
      rewrite (bindAttributes_locations _ program); [reflexivity | intros; apply Hbody |].
      intros i d'. unfold emitted. run. now rewrite <- app_assoc, drop_app_length.
Qed.

(** ** Pixel formats *)

(** X12. The internal format is the data format unless compression is
    asked for and the format is RGB or RGBA: for every pixel format,
    [GetOpenGLInternalFormat] without compression returns what
    [GetOpenGLFormat] returns and logs what it logs, and with compression
    only RGB and RGBA differ. A value that is none of the six formats gives 0
    and one line on the error stream; a format gives an enum and no line. *)
Theorem GetOpenGLInternalFormat_agrees (format : PixelFormat) (compress : bool) (d : Device) :
  GetOpenGLInternalFormat format false d = GetOpenGLFormat format d
  /\ (GetOpenGLInternalFormat format compress d = GetOpenGLFormat format d
      \/ compress = true /\ (format = FORMAT_RGB \/ format = FORMAT_RGBA))
  /\ match format with
     | FORMAT_other value =>
         fst (GetOpenGLFormat format d) = IInt 0
         /\ cerr (snd (GetOpenGLFormat format d))
            = cerr d ++ [[text "Error: PixelFormat "; number value;
                          text " is not a valid PixelFormat."]]
     | _ =>
         (exists e, fst (GetOpenGLFormat format d) = IEnum e)
         /\ snd (GetOpenGLFormat format d) = d
     end.
Proof.
  destruct format, compress; cbn; repeat apply conj; eauto;
    try (destruct d; reflexivity).
Qed.

(** ** Samplers of a program *)

Lemma SetShader_shaderProgramMap shader : preserves shaderProgramMap (SetShader shader).
Proof. structure SetShader. Qed.

Lemma SetShaderSampler_emitted shader samplerName texture sampler unit_ d :
  emitted (SetShaderSampler shader samplerName texture sampler unit_) d
  = emitted (SetShader shader) d
    ++ [glActiveTexture GL_TEXTURE0 unit_; glBindTexture GL_TEXTURE_2D texture;
        glBindSampler unit_ sampler]
    ++ [glUniform1i
          (default 0 (ShaderProgram.samplerMap
                        (default ShaderProgram.default (shaderProgramMap d !! shader))
                      !! samplerName)) unit_].
Proof.
  apply emitted_intro.
  pose proof (SetShader_shaderProgramMap shader d) as Hm.
  pose proof (emitted_spec any_call (SetShader shader) d
                (emits_extends _ _ (SetShader_emits shader))) as Hc.
  unfold SetShaderSampler, samplerLocation_at.
  unfold bind at 1. destruct (SetShader shader d) as [[] d0]. cbn [snd] in *.
  run. rewrite Hm, Hc. now rewrite <- !app_assoc.
Qed.

(** X13. [SetShaderSampler] never fails on a name or a program it does not
    know: the location it hands to [glUniform1i], its last call, is the one
    recorded for the name in the program's sampler table, and 0 when the
    program or the name has no entry; afterwards the program has a record and
    the name an entry, with that location, and the program is the bound
    shader. *)
Theorem SetShaderSampler_location (shader : Z) (samplerName : string)
    (texture sampler unit_ : Z) (d : Device) :
  let d1 := snd (SetShaderSampler shader samplerName texture sampler unit_ d) in
  let location :=
    default 0 (shaderProgramMap d !! shader
               ≫= fun program => ShaderProgram.samplerMap program !! samplerName) in
  last (emitted (SetShaderSampler shader samplerName texture sampler unit_) d)
  = Some (glUniform1i location unit_)
  /\ (exists program,
        shaderProgramMap d1 !! shader = Some program
        /\ ShaderProgram.samplerMap program !! samplerName = Some location)
  /\ boundShader d1 = shader.
Proof.
  cbv beta zeta.
  assert (Hlocation :
    default 0 (shaderProgramMap d !! shader
               ≫= fun program => ShaderProgram.samplerMap program !! samplerName)
    = default 0 (ShaderProgram.samplerMap
                   (default ShaderProgram.default (shaderProgramMap d !! shader))
                 !! samplerName)).
  { destruct (shaderProgramMap d !! shader); reflexivity. }
  rewrite Hlocation. clear Hlocation.
  set (location := default 0 _).
  destruct (SetShader_effect shader d) as [l Hd].
  repeat apply conj.
  - rewrite SetShaderSampler_emitted, app_assoc. apply last_snoc.
  - unfold SetShaderSampler, samplerLocation_at. rewrite seq_snd.
    rewrite Hd. run. eexists. split; [apply lookup_insert_eq|].
    cbn. subst location. destruct d; cbn. apply lookup_insert_eq.
  - unfold SetShaderSampler, samplerLocation_at. rewrite seq_snd.
    rewrite Hd. run. destruct d; reflexivity.
Qed.

(** X14. The sampler table of a program that [CreateShaderProgram] returned
    is empty, so that the first [SetShaderSampler] on any sampler name of it
    hands location 0 to [glUniform1i], whatever location the driver has given
    the sampler. *)
Theorem CreateShaderProgram_then_SetShaderSampler (drv : Driver) (shaderText : string)
    (samplerName : string) (texture sampler unit_ : Z) (d : Device) :
  let created := CreateShaderProgram drv shaderText d in
  fst created <> INVALID_HANDLE ->
  last (emitted (SetShaderSampler (fst created) samplerName texture sampler unit_)
          (snd created))
  = Some (glUniform1i 0 unit_).
Proof.
  cbv beta zeta. intros Hhandle.
  destruct (CreateShaderProgram_outcome drv shaderText d)
    as [[Hfail _] | (_ & _ & vertex & fragment & uniformMap & l & Hmap & _)];
    [contradiction|].
  rewrite SetShaderSampler_emitted, app_assoc, Hmap, lookup_insert_eq.
  apply last_snoc.
Qed.

(** ** Updating a buffer twice *)

Lemma UpdateVertexArrayBuffer_run vao bufferIndex data dataSize d vaoData buffer capacity :
  vao <> 0 ->
  vaoMap d !! vao = Some vaoData ->
  VertexArray.buffers vaoData !! Z.to_nat bufferIndex = Some buffer ->
  VertexArray.bufferSizes vaoData !! Z.to_nat bufferIndex = Some capacity ->
  let vaoData' :=
    if dataSize <=? capacity then vaoData
    else VertexArray.mk (VertexArray.buffers vaoData)
           (<[Z.to_nat bufferIndex := dataSize]> (VertexArray.bufferSizes vaoData))
           (VertexArray.numBuffers vaoData) (VertexArray.numElements vaoData)
           (VertexArray.usage vaoData) (VertexArray.instanceComponentsStartIndex vaoData) in
  let usage :=
    if VertexArray.instanceComponentsStartIndex vaoData <=? bufferIndex
    then USAGE_DYNAMIC_DRAW else VertexArray.usage vaoData in
  exists l,
    UpdateVertexArrayBuffer USAGE_DYNAMIC_DRAW vao bufferIndex data dataSize d
    = Some (tt, set_vaoMap (<[vao := vaoData']> (vaoMap d))
                  (set_boundVAO vao
                     (set_calls
                        (l ++ [glBindBuffer GL_ARRAY_BUFFER buffer;
                               if dataSize <=? capacity
                               then glBufferSubData GL_ARRAY_BUFFER 0 dataSize data
                               else glBufferData GL_ARRAY_BUFFER dataSize data usage]) d)))
    /\ (boundVAO d = vao -> l = calls d).
Proof.
  intros Hvao Hreg Hbuf Hcap. cbn zeta.
  unfold UpdateVertexArrayBuffer.
  destruct (Z.eqb_spec vao 0); [contradiction|].
  rewrite Hreg. cbn [mbind option_bind]. rewrite Hbuf, Hcap. cbn [mbind option_bind].
  assert (Hs : exists l, SetVAO vao d = (tt, set_boundVAO vao (set_calls l d))
                         /\ (boundVAO d = vao -> l = calls d)).
  { unfold SetVAO. run. destruct (Z.eqb_spec vao (boundVAO d)) as [->|Hne].
    - exists (calls d). split; [now destruct d | reflexivity].
    - eexists. split; [reflexivity | congruence]. }
  destruct Hs as (l & Hs & Hl). exists l. split; [|exact Hl].
  unfold bind at 1. rewrite Hs.
  destruct (dataSize <=? capacity); rewrite ?(insert_id _ _ _ Hreg);
    unfold bind, gl, modify; cbn [fst snd]; do 2 f_equal;
    destruct d; fields; now rewrite <- app_assoc.
Qed.

(** X15. A buffer of a vertex array is reallocated at most once for a given
    size: after [UpdateVertexArrayBuffer] with some data size on a registered
    vertex array, a further update of the same buffer with a size that is not
    larger returns, sends exactly a [glBindBuffer] and a [glBufferSubData]
    (no vertex-array bind, no [glBufferData]), and leaves the registry as it
    is. *)
Theorem UpdateVertexArrayBuffer_twice (vao bufferIndex : Z) (data data' : Ptr)
    (dataSize dataSize' : Z) (d : Device) (vaoData : VertexArray.t) (buffer capacity : Z) :
  vao <> 0 ->
  vaoMap d !! vao = Some vaoData ->
  VertexArray.buffers vaoData !! Z.to_nat bufferIndex = Some buffer ->
  VertexArray.bufferSizes vaoData !! Z.to_nat bufferIndex = Some capacity ->
  dataSize' <= dataSize ->
  exists d1 d2,
    UpdateVertexArrayBuffer USAGE_DYNAMIC_DRAW vao bufferIndex data dataSize d = Some (tt, d1)
    /\ UpdateVertexArrayBuffer USAGE_DYNAMIC_DRAW vao bufferIndex data' dataSize' d1
       = Some (tt, d2)
    /\ calls d2 = calls d1 ++ [glBindBuffer GL_ARRAY_BUFFER buffer;
                               glBufferSubData GL_ARRAY_BUFFER 0 dataSize' data']
    /\ vaoMap d2 = vaoMap d1.
Proof.
  intros Hvao Hreg Hbuf Hcap Hle.
  destruct (UpdateVertexArrayBuffer_run vao bufferIndex data dataSize d vaoData buffer
              capacity Hvao Hreg Hbuf Hcap) as (l & H1 & _).
  cbn zeta in H1.
  set (vaoData1 := if dataSize <=? capacity then vaoData else _) in H1.
  set (d1 := set_vaoMap _ _) in H1.
  assert (Hreg1 : vaoMap d1 !! vao = Some vaoData1).
  { subst d1. destruct d; cbn. apply lookup_insert_eq. }
  assert (Hbuf1 : VertexArray.buffers vaoData1 !! Z.to_nat bufferIndex = Some buffer).
  { subst vaoData1. now destruct (dataSize <=? capacity). }
  assert (Hcap1 : VertexArray.bufferSizes vaoData1 !! Z.to_nat bufferIndex
                  = Some (if dataSize <=? capacity then capacity else dataSize)).
  { subst vaoData1. destruct (dataSize <=? capacity); [exact Hcap|]. cbn.
    apply list_lookup_insert_eq. eapply lookup_lt_Some; eauto. }
  assert (Hbound : boundVAO d1 = vao) by (subst d1; now destruct d).
  destruct (UpdateVertexArrayBuffer_run vao bufferIndex data' dataSize' d1 vaoData1 buffer
              _ Hvao Hreg1 Hbuf1 Hcap1) as (l' & H2 & Hl').
  cbn zeta in H2. rewrite (Hl' Hbound) in H2.
  assert (Hfits : (dataSize' <=? (if dataSize <=? capacity then capacity else dataSize))
                  = true).
  { apply Z.leb_le. destruct (Z.leb_spec dataSize capacity); lia. }
  rewrite Hfits in H2.
  eexists _, _. split; [exact H1|]. split; [exact H2|]. split.
  - generalize d1. intros []. reflexivity.
  - rewrite <- (insert_id _ _ _ Hreg1) at 2. generalize d1. intros []. reflexivity.
Qed.

(** ** A render target from creation to release *)

Lemma CreateRenderTarget_run drv texture width height attachment attachmentNumber mipLevel d :
  let fbo := drv_glGenBuffers drv (calls d) 0%nat in
  exists l,
    CreateRenderTarget drv texture width height attachment attachmentNumber mipLevel d
    = (fbo, set_fboMap (<[fbo := FBOData.mk width height]> (fboMap d))
              (set_boundFBO fbo (set_calls l d))).
Proof.
  cbn zeta. unfold CreateRenderTarget. unfold bind at 1. cbn [gl_ask].
  set (fbo := drv_glGenBuffers drv (calls d) 0%nat).
  unfold bind at 1.
  destruct (SetFBO_effect fbo (set_calls (calls d ++ [glGenBuffers 1]) d)) as [l Hl].
  destruct (SetFBO fbo _) as [[] d1]. cbn [snd] in Hl. subst d1.
  eexists. run. destruct d; fields. reflexivity.
Qed.

Lemma CreateRenderTarget_coherent drv texture width height attachment attachmentNumber
    mipLevel :
  keeps_coherent
    (CreateRenderTarget drv texture width height attachment attachmentNumber mipLevel).
Proof. coherent_of CreateRenderTarget. Qed.

(** X16. A render target that [CreateRenderTarget] returned is recorded
    with the width and height given and is the bound target; when its handle
    is not 0 and was not registered before, [ReleaseRenderTarget] on it sends
    one [glDeleteFramebuffers] for the handle and leaves the registry as it
    was before the creation. *)
Theorem CreateRenderTarget_then_release (drv : Driver) (texture width height attachment
    attachmentNumber mipLevel : Z) (d : Device) :
  let created :=
    CreateRenderTarget drv texture width height attachment attachmentNumber mipLevel d in
  let handle := fst created in
  handle <> 0 -> fboMap d !! handle = None ->
  fboMap (snd created) !! handle = Some (FBOData.mk width height)
  /\ boundFBO (snd created) = handle
  /\ emitted (ReleaseRenderTarget handle) (snd created) = [glDeleteFramebuffers [handle]]
  /\ fboMap (snd (ReleaseRenderTarget handle (snd created))) = fboMap d.
Proof.
  cbv beta zeta.
  destruct (CreateRenderTarget_run drv texture width height attachment attachmentNumber
              mipLevel d) as [l ->].
  cbn [fst snd]. set (handle := drv_glGenBuffers drv (calls d) 0%nat).
  intros Hhandle Hfresh.
  assert (Hmap : forall d', fboMap (set_fboMap (<[handle := FBOData.mk width height]>
                                                  (fboMap d)) d')
                            = <[handle := FBOData.mk width height]> (fboMap d))
    by (intros []; reflexivity).
  repeat apply conj.
  - rewrite Hmap. apply lookup_insert_eq.
  - destruct d; reflexivity.
  - apply emitted_intro. rewrite ReleaseRenderTarget_run. cbn [snd].
    destruct (Z.eqb_spec handle 0); [contradiction|].
    unfold released. rewrite Hmap, lookup_insert_eq. destruct d; reflexivity.
  - rewrite ReleaseRenderTarget_run. cbn [snd].
    destruct (Z.eqb_spec handle 0); [contradiction|].
    unfold released. rewrite Hmap, lookup_insert_eq.
    rewrite delete_insert_eq, (delete_id _ _ Hfresh). destruct d; reflexivity.
Qed.


End Further.

(** Closes an agreement between computed registers and a computed cache: the
    equations by computation, and the conditional ones, whose condition a
    computed cache refutes, by that refutation. *)
Ltac computed_agreement :=
  unfold agrees; repeat apply conj; try reflexivity;
  intros; exfalso;
  repeat match goal with H : _ <> _ |- _ => now apply H end.



(** The sample device, whose uninitialised viewport fields hold 0: every
    part but the viewport agrees. *)
Lemma OpenGLRenderDevice_new_agrees_witness :
  let g := replay (calls Sample.device) (initial_registers 640 480) in
  Forall
    (fun asp =>
       (asp = Viewport -> (0, 0) = (640, 480))
       /\ (asp = StencilTest
           -> Sample.DRAW_FUNC_ALWAYS = 519 /\ Sample.STENCIL_KEEP = 7680)
       /\ agrees Sample.FACE_CULL_NONE Sample.BLEND_FUNC_NONE asp g Sample.device)
    [BoundObjects; FaceCulling; Blending; ScissorTest; DepthTest; StencilTest;
     PixelAlignment].
Proof.
  cbv beta zeta.
  assert (H : forall asp,
             (asp = Viewport -> (0, 0) = (640, 480)) ->
             (asp = StencilTest
              -> Sample.DRAW_FUNC_ALWAYS = 519 /\ Sample.STENCIL_KEEP = 7680) ->
             (asp = Viewport -> (0, 0) = (640, 480))
             /\ (asp = StencilTest
                 -> Sample.DRAW_FUNC_ALWAYS = 519 /\ Sample.STENCIL_KEEP = 7680)
             /\ agrees Sample.FACE_CULL_NONE Sample.BLEND_FUNC_NONE asp
                  (replay (calls Sample.device) (initial_registers 640 480)) Sample.device).
  { intros asp Hv Hs. split; [exact Hv|]. split; [exact Hs|].
    exact (proj1 (OpenGLRenderDevice_new_agrees Sample.FACE_CULL_NONE
                    Sample.BLEND_FUNC_NONE Sample.DRAW_FUNC_ALWAYS Sample.STENCIL_KEEP asp
                    640 480 0 0 Hv Hs)). }
  repeat (apply List.Forall_cons;
          [apply H; [discriminate | first [discriminate | intros _; split; reflexivity]]|]).
  apply List.Forall_nil.
Defined.



(** The sample program, built as handle 5, and released. *)
Lemma CreateShaderProgram_then_release_witness :
  let created := CreateShaderProgram (Sample.driver 3 3) Sample.shaderText Sample.device in
  let release := emitted (ReleaseShaderProgram (fst created)) (snd created) in
  fst created <> INVALID_HANDLE
  /\ omap detach_of release
     = omap attach_of
         (emitted (CreateShaderProgram (Sample.driver 3 3) Sample.shaderText) Sample.device)
  /\ last release = Some (glDeleteProgram (fst created)).
Proof.
  cbv beta zeta.
  assert (H : fst (CreateShaderProgram (Sample.driver 3 3) Sample.shaderText Sample.device)
              <> INVALID_HANDLE) by (vm_compute; discriminate).
  destruct (CreateShaderProgram_then_release (Sample.driver 3 3) Sample.shaderText
              Sample.device H) as (_ & Hdetach & _ & Hlast & _).
  repeat apply conj; [exact H | exact Hdetach | exact Hlast].
Defined.

(** A text without a version directive: the driver hands out program 5,
    the creation fails, and nothing is deleted or recorded. *)
Lemma CreateShaderProgram_failure_witness :
  let text_ := "void main() {}"%string in
  let result := CreateShaderProgram (Sample.driver 3 3) text_ Sample.device in
  let sent := emitted (CreateShaderProgram (Sample.driver 3 3) text_) Sample.device in
  drv_glCreateProgram (Sample.driver 3 3) (calls Sample.device) <> INVALID_HANDLE
  /\ fst result = INVALID_HANDLE
  /\ shaderProgramMap (snd result) = shaderProgramMap Sample.device
  /\ head sent = Some glCreateProgram
  /\ Forall (fun c => is_deletion c = false) sent.
Proof.
  cbv beta zeta.
  assert (H1 : drv_glCreateProgram (Sample.driver 3 3) (calls Sample.device)
               <> INVALID_HANDLE) by (vm_compute; discriminate).
  assert (H2 : fst (CreateShaderProgram (Sample.driver 3 3) "void main() {}"
                      Sample.device) = INVALID_HANDLE) by (vm_compute; reflexivity).
  split; [exact H1|]. split; [exact H2|].
  apply (CreateShaderProgram_failure (Sample.driver 3 3) "void main() {}" Sample.device
           H1 H2).
Defined.

(** The sample driver puts the sampler "diffuse" at location 3; the device
    sends location 0. *)
Lemma CreateShaderProgram_then_SetShaderSampler_witness :
  let created := CreateShaderProgram (Sample.driver 3 3) Sample.shaderText Sample.device in
  fst created <> INVALID_HANDLE
  /\ last (emitted (SetShaderSampler (fst created) "diffuse" 7 8 1) (snd created))
     = Some (glUniform1i 0 1).
Proof.
  cbv beta zeta.
  assert (H : fst (CreateShaderProgram (Sample.driver 3 3) Sample.shaderText Sample.device)
              <> INVALID_HANDLE) by (vm_compute; discriminate).
  split; [exact H|].
  apply (CreateShaderProgram_then_SetShaderSampler (Sample.driver 3 3) Sample.shaderText
           "diffuse" 7 8 1 Sample.device H).
Defined.

(** Buffer 0 of vertex array 5 holds 60 bytes: an update with 100 bytes
    reallocates it, a following update with 80 bytes does not. *)
Lemma UpdateVertexArrayBuffer_twice_witness :
  let vaoData := VertexArray.mk [7; 8; 9; 10] [60; 96; 16; 24] 4 6 35044 2 in
  5 <> 0
  /\ vaoMap Sample.device_with_array !! 5 = Some vaoData
  /\ VertexArray.buffers vaoData !! Z.to_nat 0 = Some 7
  /\ VertexArray.bufferSizes vaoData !! Z.to_nat 0 = Some 60
  /\ 80 <= 100
  /\ exists d1 d2,
       UpdateVertexArrayBuffer Sample.USAGE_DYNAMIC_DRAW 5 0 8192 100
         Sample.device_with_array = Some (tt, d1)
       /\ UpdateVertexArrayBuffer Sample.USAGE_DYNAMIC_DRAW 5 0 8200 80 d1 = Some (tt, d2)
       /\ calls d2 = calls d1 ++ [glBindBuffer GL_ARRAY_BUFFER 7;
                                  glBufferSubData GL_ARRAY_BUFFER 0 80 8200].
Proof.
  cbv beta zeta.
  assert (H5 : 5 <> 0) by discriminate.
  assert (Hreg : vaoMap Sample.device_with_array !! 5
                 = Some (VertexArray.mk [7; 8; 9; 10] [60; 96; 16; 24] 4 6 35044 2))
    by (vm_compute; reflexivity).
  assert (Hle : 80 <= 100) by lia.
  repeat apply conj; try assumption; try reflexivity.
  destruct (UpdateVertexArrayBuffer_twice Sample.USAGE_DYNAMIC_DRAW 5 0 8192 8200 100 80
              Sample.device_with_array _ 7 60 H5 Hreg eq_refl eq_refl Hle)
    as (d1 & d2 & H1 & H2 & Hcalls & _).
  exists d1, d2. auto.
Defined.

(** The sample driver hands out 5, which the sample device has not
    registered. *)
Lemma CreateRenderTarget_then_release_witness :
  let created := CreateRenderTarget (Sample.driver 3 3) 9 1024 768 36064 0 0 Sample.device in
  fst created <> 0
  /\ fboMap Sample.device !! fst created = None
  /\ fboMap (snd created) !! fst created = Some (FBOData.mk 1024 768)
  /\ fboMap (snd (ReleaseRenderTarget (fst created) (snd created))) = fboMap Sample.device.
Proof.
  cbv beta zeta.
  assert (H1 : fst (CreateRenderTarget (Sample.driver 3 3) 9 1024 768 36064 0 0
                      Sample.device) <> 0) by (vm_compute; discriminate).
  assert (H2 : fboMap Sample.device
               !! fst (CreateRenderTarget (Sample.driver 3 3) 9 1024 768 36064 0 0
                         Sample.device) = None) by (vm_compute; reflexivity).
  destruct (CreateRenderTarget_then_release (Sample.driver 3 3) 9 1024 768 36064 0 0
              Sample.device H1 H2) as (Hrec & _ & _ & Hmap).
  repeat apply conj; [exact H1 | exact H2 | exact Hrec | exact Hmap].
Defined.

